(** * Liveness / recovery supervisor of the AZV WebView host

    A shallow embedding of the recovery logic of the React Native host:

    - [AZVWebView]: the component that owns the WebView (heartbeat probe,
      debounced and escalating reloads, crash handlers, message handler);
    - [ConnectionManagerWrapper]: the fallback screen state machine and its
      manual retry;
    - [WebViewService]: the navigation gate [handleNavigationRequest];
    - [ConnectionMonitorService]: the monitor the wrapper listens to;
    - [UrlService]: URL classification and the hand-off to [Linking];
    - [WebViewServiceHandlers]: the token, logout and page-load handlers of
      [WebViewService].

    React refs ([useRef]) and state hooks ([useState]) are fields of a state
    record; handlers are computations in a state monad over that record.
    [Date.now()] reads the [clock] field, which only the environment
    advances.  [console.log] output is not tracked. *)

From Stdlib Require Import ZArith List String Ascii Bool Lia DecimalString.
From ExtLib Require Import Structures.Monad Structures.MonadState.
From ExtLib Require Import Data.Monads.StateMonad.
Import ListNotations MonadNotation.
Local Open Scope string_scope.
Local Open Scope list_scope.
Local Open Scope monad_scope.
Local Open Scope Z_scope.
Set Warnings "-register-all".

(** ** JSON values, as [JSON.parse] returns them *)

Inductive JSON : Type :=
| JNull
| JBool (b : bool)
| JNumber (literal : string)
| JString (s : string)
| JArray (items : list JSON)
| JObject (fields : list (string * JSON)).

(** Own-property lookup on a parsed object. *)
Fixpoint lookup_field (key : string) (fields : list (string * JSON)) : option JSON :=
  match fields with
  | [] => None
  | (k, v) :: rest => if String.eqb k key then Some v else lookup_field key rest
  end.

(** [data?.key]: [undefined] (here [None]) on [null], on primitives and arrays,
    and on objects without the property. *)
Definition optional_member (data : JSON) (key : string) : option JSON :=
  match data with
  | JObject fields => lookup_field key fields
  | _ => None
  end.

(** [v === "text"] for the result of a member access. *)
Definition strict_eq_string (v : option JSON) (text : string) : bool :=
  match v with
  | Some (JString s) => String.eqb s text
  | _ => false
  end.

(** [String(n)] for an integral number. *)
Definition String_of_number (n : Z) : string :=
  NilZero.string_of_int (Z.to_int n).

Module AZVWebView.

(** The native view a non-null [webViewRef.current] points to. *)
Inductive WebView : Type := WebViewInstance.

(** The script the heartbeat injects: it posts
    [{t:'pong', token, rs, h}] back to the host. *)
Inductive Script : Type := PongProbe (token : string).

(** Calls that leave the component, in the order they are made. *)
Inductive Effect : Type :=
| Reload                                 (* webViewRef.current.reload() *)
| Remount                                (* setWebKey(k => k + 1): the keyed WebView is recreated *)
| InjectJavaScript (script : Script)     (* webViewRef.current.injectJavaScript(...) *)
| HandleWebViewMessage (raw : string)    (* webViewService.handleWebViewMessage(raw) *)
| HandleLoadEnd.                         (* webViewService.handleLoadEnd(baseUrl) *)

(** A pending [setTimeout] of the heartbeat: the time it becomes due and the
    value of [before] its callback has captured. *)
Record Timer : Type := mkTimer { due : Z; before : Z }.

Inductive AppStateStatus : Type :=
| active | background | inactive | unknown | extension.

(** The numeric refs hold JavaScript numbers; they stay integral and far
    below 2^53, where [+ 1] and [-] are exact, so they are integers here. *)
Record State : Type := mkState {
  clock : Z;                      (* Date.now() *)
  isLoading : bool;               (* useState(true) *)
  pongCounterRef : Z;             (* useRef(0) *)
  webKey : Z;                     (* useState(0) *)
  lastReloadRef : Z;              (* useRef(0) *)
  reloadAttemptsRef : Z;          (* useRef(0) *)
  webViewRef : option WebView;    (* useRef<WebView>(null) *)
  timers : list Timer;            (* heartbeat timeouts not yet fired *)
  trace : list Effect             (* effects issued so far, oldest first *)
}.

(** The component as first rendered, at wall-clock time [t0]. *)
Definition initialState (t0 : Z) : State :=
  {| clock := t0; isLoading := true; pongCounterRef := 0; webKey := 0;
     lastReloadRef := 0; reloadAttemptsRef := 0; webViewRef := None;
     timers := []; trace := [] |}.

Definition with_clock (v : Z) (s : State) : State :=
  {| clock := v; isLoading := isLoading s; pongCounterRef := pongCounterRef s;
     webKey := webKey s; lastReloadRef := lastReloadRef s;
     reloadAttemptsRef := reloadAttemptsRef s; webViewRef := webViewRef s;
     timers := timers s; trace := trace s |}.

Definition with_isLoading (v : bool) (s : State) : State :=
  {| clock := clock s; isLoading := v; pongCounterRef := pongCounterRef s;
     webKey := webKey s; lastReloadRef := lastReloadRef s;
     reloadAttemptsRef := reloadAttemptsRef s; webViewRef := webViewRef s;
     timers := timers s; trace := trace s |}.

Definition with_pongCounterRef (v : Z) (s : State) : State :=
  {| clock := clock s; isLoading := isLoading s; pongCounterRef := v;
     webKey := webKey s; lastReloadRef := lastReloadRef s;
     reloadAttemptsRef := reloadAttemptsRef s; webViewRef := webViewRef s;
     timers := timers s; trace := trace s |}.

Definition with_webKey (v : Z) (s : State) : State :=
  {| clock := clock s; isLoading := isLoading s; pongCounterRef := pongCounterRef s;
     webKey := v; lastReloadRef := lastReloadRef s;
     reloadAttemptsRef := reloadAttemptsRef s; webViewRef := webViewRef s;
     timers := timers s; trace := trace s |}.

Definition with_lastReloadRef (v : Z) (s : State) : State :=
  {| clock := clock s; isLoading := isLoading s; pongCounterRef := pongCounterRef s;
     webKey := webKey s; lastReloadRef := v;
     reloadAttemptsRef := reloadAttemptsRef s; webViewRef := webViewRef s;
     timers := timers s; trace := trace s |}.

Definition with_reloadAttemptsRef (v : Z) (s : State) : State :=
  {| clock := clock s; isLoading := isLoading s; pongCounterRef := pongCounterRef s;
     webKey := webKey s; lastReloadRef := lastReloadRef s;
     reloadAttemptsRef := v; webViewRef := webViewRef s;
     timers := timers s; trace := trace s |}.

Definition with_webViewRef (v : option WebView) (s : State) : State :=
  {| clock := clock s; isLoading := isLoading s; pongCounterRef := pongCounterRef s;
     webKey := webKey s; lastReloadRef := lastReloadRef s;
     reloadAttemptsRef := reloadAttemptsRef s; webViewRef := v;
     timers := timers s; trace := trace s |}.

Definition with_timers (v : list Timer) (s : State) : State :=
  {| clock := clock s; isLoading := isLoading s; pongCounterRef := pongCounterRef s;
     webKey := webKey s; lastReloadRef := lastReloadRef s;
     reloadAttemptsRef := reloadAttemptsRef s; webViewRef := webViewRef s;
     timers := v; trace := trace s |}.

Definition with_trace (v : list Effect) (s : State) : State :=
  {| clock := clock s; isLoading := isLoading s; pongCounterRef := pongCounterRef s;
     webKey := webKey s; lastReloadRef := lastReloadRef s;
     reloadAttemptsRef := reloadAttemptsRef s; webViewRef := webViewRef s;
     timers := timers s; trace := v |}.

(** The component just after its WebView has mounted, at an
    epoch-millisecond clock reading. *)
Definition mounted : State :=
  with_webViewRef (Some WebViewInstance) (initialState 1700000000000).

(** The wall clock moves on by [ms]. *)
Definition elapse (ms : Z) (s : State) : State := with_clock (clock s + ms) s.

(** The refs once [safeReload] is past its debounce test: the time of the
    action recorded, the attempt counted. *)
Definition counted (s : State) : State :=
  with_reloadAttemptsRef (reloadAttemptsRef s + 1) (with_lastReloadRef (clock s) s).

(** Handlers are computations over [State]. *)
Definition Handler : Type := state State unit.

Definition update (f : State -> State) : Handler :=
  _ <- modify f ;; ret tt.

Definition emit (e : Effect) : Handler :=
  update (fun s => with_trace (trace s ++ [e]) s).

Definition Date_now : state State Z := gets clock.

Definition setIsLoading (v : bool) : Handler := update (with_isLoading v).

(** [setWebKey(f)]: the WebView element is keyed by [webKey], so a new key
    discards the mounted instance and creates a fresh one. *)
Definition setWebKey (f : Z -> Z) : Handler :=
  update (fun s => with_webKey (f (webKey s)) s) ;;
  emit Remount.

Definition hardRemount : Handler :=
  setIsLoading true ;;
  setWebKey (fun k => k + 1).

Definition softReload : Handler :=
  setIsLoading true ;;
  current <- gets webViewRef ;;
  match current with
  | Some _ => emit Reload
  | None => hardRemount
  end.

Definition safeReload (hard : bool) : Handler :=
  now <- Date_now ;;
  last <- gets lastReloadRef ;;
  if now - last <? 1500 then ret tt
  else
    update (with_lastReloadRef now) ;;
    update (fun s => with_reloadAttemptsRef (reloadAttemptsRef s + 1) s) ;;
    attempts <- gets reloadAttemptsRef ;;
    if hard || (attempts >=? 3) then
      update (with_reloadAttemptsRef 0) ;;
      hardRemount
    else
      softReload.

Definition onContentProcessDidTerminate : Handler :=
  safeReload true.

(** [didCrash] is the truthiness of [e?.nativeEvent?.didCrash]. *)
Definition onRenderProcessGone (didCrash : bool) : Handler :=
  if didCrash then hardRemount else softReload.

(** The callback of the heartbeat's [setTimeout], closed over [before]. *)
Definition heartbeatTimeout (before_ : Z) : Handler :=
  pongs <- gets pongCounterRef ;;
  if pongs =? before_ then safeReload false else ret tt.

(** The [AppState] ["change"] listener. *)
Definition onAppStateChange (s : AppStateStatus) : Handler :=
  match s with
  | active =>
      before_ <- gets pongCounterRef ;;
      now <- Date_now ;;
      let token := String_of_number now in
      current <- gets webViewRef ;;
      match current with
      | Some _ => emit (InjectJavaScript (PongProbe token))
      | None => ret tt
      end ;;
      update (fun st => with_timers (timers st ++ [mkTimer (clock st + 1200) before_]) st)
  | _ => ret tt
  end.

Definition handleWebViewLoadEnd : Handler :=
  update (with_reloadAttemptsRef 0) ;;
  emit HandleLoadEnd.

(** [statusCode] is [e?.nativeEvent?.statusCode]; [None] is [undefined],
    for which both comparisons are false. *)
Definition onHttpError (statusCode : option Z) : Handler :=
  match statusCode with
  | Some status =>
      if (status >=? 500) || (status =? 0) then safeReload false else ret tt
  | None => ret tt
  end.

Section Messages.

(** [JSON.parse]: [None] when it throws. *)
Variable JSON_parse : string -> option JSON.

Definition handleMessage (raw : string) : Handler :=
  match JSON_parse raw with
  | Some data =>
      if strict_eq_string (optional_member data "t") "pong" then
        update (fun s => with_pongCounterRef (pongCounterRef s + 1) s)
      else emit (HandleWebViewMessage raw)
  | None => emit (HandleWebViewMessage raw)
  end.

(** What the environment can do to the mounted component. *)
Inductive Event : Type :=
| Elapse (ms : Z)                                (* wall-clock time passes *)
| AppStateChange (status : AppStateStatus)
| TimeoutFires (index : nat)                     (* a due heartbeat timeout runs *)
| HttpError (statusCode : option Z)
| ContentProcessDidTerminate
| RenderProcessGone (didCrash : bool)
| LoadEnd
| Message (raw : string)
| RefCallback (ref : option WebView).            (* React attaches or detaches the ref *)

Fixpoint remove_nth {A : Type} (n : nat) (l : list A) : list A :=
  match l, n with
  | [], _ => []
  | _ :: rest, O => rest
  | x :: rest, S m => x :: remove_nth m rest
  end.

(** A timeout runs only once it is due; it is then no longer pending. *)
Definition fireTimeout (index : nat) : Handler :=
  pending <- gets timers ;;
  now <- Date_now ;;
  match nth_error pending index with
  | Some t =>
      if due t <=? now then
        update (with_timers (remove_nth index pending)) ;;
        heartbeatTimeout (before t)
      else ret tt
  | None => ret tt
  end.

Definition handle (ev : Event) : Handler :=
  match ev with
  | Elapse ms => update (elapse ms)
  | AppStateChange status => onAppStateChange status
  | TimeoutFires index => fireTimeout index
  | HttpError statusCode => onHttpError statusCode
  | ContentProcessDidTerminate => onContentProcessDidTerminate
  | RenderProcessGone didCrash => onRenderProcessGone didCrash
  | LoadEnd => handleWebViewLoadEnd
  | Message raw => handleMessage raw
  | RefCallback ref => update (with_webViewRef ref)
  end.

Definition exec (h : Handler) (s : State) : State := execState h s.

Definition run (evs : list Event) (s : State) : State :=
  fold_left (fun st ev => exec (handle ev) st) evs s.

End Messages.

End AZVWebView.

Module ConnectionManagerWrapper.

Inductive ScreenType : Type :=
| webview | connection_error | manual_instructions.

Definition ScreenType_eqb (a b : ScreenType) : bool :=
  match a, b with
  | webview, webview => true
  | connection_error, connection_error => true
  | manual_instructions, manual_instructions => true
  | _, _ => false
  end.

(** The [ConnectionStatus] snapshot the listener is handed, as
    services/ConnectionMonitorService declares it: connected flag, optional
    loading time in ms, slow flag, optional url, timestamp.  The listener
    reads [isConnected] and [loadingTime] only. *)
Record ConnectionStatus : Type := mkStatus {
  isConnected : bool;
  loadingTime : option Z;
  isSlow : bool;
  url : option string;
  timestamp : Z
}.

(** The methods of the [ConnectionMonitorService] singleton the wrapper
    calls, and [elapse]: the time that passes while the wrapper waits, which
    the service sees through [Date.now()].  The service itself is the module
    [ConnectionMonitorService] below, an instance of this interface. *)
Class ConnectionMonitor (M : Type) : Type := {
  isInitialAppLoad : M -> bool;
  setShouldShowErrorOnTimeout : bool -> M -> M;
  reset : M -> M;
  elapse : Z -> M -> M
}.

(** The parent's reload callback, when the [onWebViewReload] prop is given. *)
Inductive Callback : Type := WebViewReload.

Record Props : Type := mkProps { onWebViewReload : option Callback }.

Section Wrapper.

Context {M : Type} `{ConnectionMonitor M}.

Record State : Type := mkState {
  currentScreen : ScreenType;       (* useState('webview') *)
  connectionMonitor : M;            (* ConnectionMonitorService.getInstance() *)
  isRetrying : bool;                (* useState(false) *)
  connected : bool;                 (* useState(true), named isConnected in the source *)
  called : list Callback            (* prop callbacks invoked so far *)
}.

Definition initialState (m : M) : State :=
  {| currentScreen := webview; connectionMonitor := m; isRetrying := false;
     connected := true; called := [] |}.

Definition Handler : Type := state State unit.

Definition update (f : State -> State) : Handler :=
  _ <- modify f ;; ret tt.

Definition setCurrentScreen (v : ScreenType) : Handler :=
  update (fun s => {| currentScreen := v; connectionMonitor := connectionMonitor s;
                      isRetrying := isRetrying s; connected := connected s;
                      called := called s |}).

Definition setIsRetrying (v : bool) : Handler :=
  update (fun s => {| currentScreen := currentScreen s;
                      connectionMonitor := connectionMonitor s;
                      isRetrying := v; connected := connected s;
                      called := called s |}).

Definition setIsConnected (v : bool) : Handler :=
  update (fun s => {| currentScreen := currentScreen s;
                      connectionMonitor := connectionMonitor s;
                      isRetrying := isRetrying s; connected := v;
                      called := called s |}).

Definition onMonitor (f : M -> M) : Handler :=
  update (fun s => {| currentScreen := currentScreen s;
                      connectionMonitor := f (connectionMonitor s);
                      isRetrying := isRetrying s; connected := connected s;
                      called := called s |}).

(** [callback?.()] *)
Definition optional_call (callback : option Callback) : Handler :=
  match callback with
  | Some c =>
      update (fun s => {| currentScreen := currentScreen s;
                          connectionMonitor := connectionMonitor s;
                          isRetrying := isRetrying s; connected := connected s;
                          called := called s ++ [c] |})
  | None => ret tt
  end.

(** Truthiness of [status.loadingTime && status.loadingTime > bound]
    (resp. [<= bound]): [undefined] and [0] are falsy. *)
Definition loadingTime_exceeds (status : ConnectionStatus) (bound : Z) : bool :=
  match loadingTime status with
  | Some t => negb (t =? 0) && (t >? bound)
  | None => false
  end.

Definition loadingTime_within (status : ConnectionStatus) (bound : Z) : bool :=
  match loadingTime status with
  | Some t => negb (t =? 0) && (t <=? bound)
  | None => false
  end.

(** [connectionListener.onConnectionChange] *)
Definition onConnectionChange (status : ConnectionStatus) : Handler :=
  setIsConnected (isConnected status) ;;
  isInitialLoad <- gets (fun s => isInitialAppLoad (connectionMonitor s)) ;;
  if isInitialLoad && (negb (isConnected status) || loadingTime_exceeds status 5000) then
    setCurrentScreen connection_error
  else if isConnected status && loadingTime_within status 5000 then
    setCurrentScreen webview
  else ret tt.

(** How the [fetch] of the backend URL settles. *)
Inductive FetchSettlement : Type :=
| Resolved (status : Z)        (* a Response with this HTTP status *)
| Rejected.                    (* network failure *)

(** [response.ok] *)
Definition ok (status : Z) : bool := (200 <=? status) && (status <=? 299).

(** One reachability probe as the event loop sees it: when the fetch settles
    (never, for [None]), how, and whether its continuation is run before the
    timer's when both are due in the same millisecond. *)
Record Probe : Type := mkProbe {
  settlesAfter : option Z;
  settlement : FetchSettlement;
  aheadOfTimerOnTie : bool
}.

Inductive RaceResult : Type :=
| FetchFirst (r : FetchSettlement)
| TimeoutFirst.                 (* reject(new Error('Request timeout')) *)

(** [Promise.race([fetchPromise, timeoutPromise])] with a timer of [timeoutMs]. *)
Definition Promise_race (timeoutMs : Z) (p : Probe) : RaceResult :=
  match settlesAfter p with
  | Some d =>
      if (d <? timeoutMs) || ((d =? timeoutMs) && aheadOfTimerOnTie p)
      then FetchFirst (settlement p)
      else TimeoutFirst
  | None => TimeoutFirst
  end.

(** The part of [handleTryAgain] after the [await]. *)
Definition handleTryAgain_settled (props : Props) (r : RaceResult) : Handler :=
  match r with
  | FetchFirst (Resolved status) =>
      if ok status then
        onMonitor (setShouldShowErrorOnTimeout true) ;;
        onMonitor reset ;;
        setCurrentScreen webview ;;
        optional_call (onWebViewReload props)
      else ret tt
  | FetchFirst Rejected => ret tt
  | TimeoutFirst => ret tt
  end ;;
  setIsRetrying false.

(** How long [await Promise.race(...)] suspends the handler: until the fetch
    settles when the fetch wins, until the timer runs otherwise. *)
Definition waited (timeoutMs : Z) (p : Probe) : Z :=
  match settlesAfter p, Promise_race timeoutMs p with
  | Some d, FetchFirst _ => d
  | _, _ => timeoutMs
  end.

(** The handler from the press to its end; what follows the [await] runs
    when the race has settled, [waited 3000 p] ms after the press. *)
Definition handleTryAgain (props : Props) (p : Probe) : Handler :=
  setIsRetrying true ;;
  onMonitor (elapse (waited 3000 p)) ;;
  handleTryAgain_settled props (Promise_race 3000 p).

Definition handleManualInstructions : Handler := setCurrentScreen manual_instructions.
Definition handleBackToError : Handler := setCurrentScreen connection_error.
Definition showConnectionError : Handler := setCurrentScreen connection_error.
Definition showManualInstructions : Handler := setCurrentScreen manual_instructions.
Definition showWebView : Handler := setCurrentScreen webview.

(** The data fields of the object the wrapper's effect stores in
    [global.connectionManager]; its methods are the handlers above. *)
Record ConnectionManagerHandle : Type := mkHandle {
  handle_isConnected : bool;
  handle_isOnErrorScreen : bool
}.

Definition publishedHandle (s : State) : ConnectionManagerHandle :=
  {| handle_isConnected := connected s;
     handle_isOnErrorScreen := ScreenType_eqb (currentScreen s) connection_error |}.

Definition exec (h : Handler) (s : State) : State := execState h s.

(** A retry that left the screen, the monitor and the parent alone: nothing
    but the [ms] it waited has happened to the monitor. *)
Definition untouched (ms : Z) (s s' : State) : Prop :=
  currentScreen s' = currentScreen s /\
  connectionMonitor s' = elapse ms (connectionMonitor s) /\
  called s' = called s.

End Wrapper.

Arguments State M : clear implicits.

(** A stand-in for the monitor in concrete runs: the initial-load flag it
    reports and the calls made on it, oldest first; it keeps no time. *)
Inductive MonitorCall : Type :=
| SetShouldShowErrorOnTimeout (enabled : bool)
| Reset.

Record RecordingMonitor : Type := mkMonitor {
  initialAppLoad : bool;
  received : list MonitorCall
}.

#[export] Instance RecordingMonitor_ConnectionMonitor : ConnectionMonitor RecordingMonitor := {|
  isInitialAppLoad := initialAppLoad;
  setShouldShowErrorOnTimeout := fun enabled m =>
    {| initialAppLoad := initialAppLoad m;
       received := received m ++ [SetShouldShowErrorOnTimeout enabled] |};
  reset := fun m =>
    {| initialAppLoad := initialAppLoad m; received := received m ++ [Reset] |};
  elapse := fun _ m => m
|}.

(** The wrapper on the error screen during the initial load. *)
Definition onErrorScreen : State RecordingMonitor :=
  {| currentScreen := connection_error;
     connectionMonitor := {| initialAppLoad := true; received := [] |};
     isRetrying := false; connected := false; called := [] |}.

End ConnectionManagerWrapper.

Module AppConstants.

Definition allowedUrls : list string :=
  [ "https://g21z9.azvmotors.kz";
    "https://securepayments.fortebank.com";
    "192.168.0.112:3000";
    "195.93.152.69:3001";
    "192.168.0.167:3000";
    "192.168.0.170:3000";
    "192.168.0.13:3000";
    "172.20.10.2:3000";
    "https://azv-webview.vercel.app/";
    "192.168.0.166:3000";
    "192.168.0.11:3000";
    "192.168.8.85:3000";
    "172.20.10.5:3000";
    "localhost:3000";
    "127.0.0.1:3000" ].

Definition allowedProtocols : list string :=
  [ "http://172.20.10.5:3000";
    "http://192.168.0.11:3000";
    "http://localhost:3000";
    "http://127.0.0.1:3000" ].

Definition specialSchemes : list string :=
  [ "tel:"; "mailto:"; "sms:"; "whatsapp:"; "https://t.me/"; "tg://" ].

(** [s.includes(part)] *)
Definition includes (s part : string) : bool :=
  match String.index 0 part s with
  | Some _ => true
  | None => false
  end.

(** [s.startsWith(part)] *)
Definition startsWith (s part : string) : bool := String.prefix part s.

Definition isAllowedUrl (url : string) : bool :=
  existsb (fun allowedUrl => includes url allowedUrl) allowedUrls
  || existsb (fun protocol => startsWith url protocol) allowedProtocols.

Definition isSpecialScheme (url : string) : bool :=
  existsb (fun scheme => startsWith url scheme) specialSchemes.

End AppConstants.

Module WebViewService.

Import ConnectionManagerWrapper.

(** Calls [handleNavigationRequest] makes on other objects. *)
Inductive Call : Type :=
| ShowConnectionError                     (* connectionManager.showConnectionError() *)
| HandleSpecialUrls (url : string)        (* this.urlService.handleSpecialUrls(url) *)
| OpenInExternalBrowser (url : string).   (* this.urlService.openInExternalBrowser(url) *)

(** A thrown JavaScript value. *)
Inductive Exn : Type := Error (message : string).

Inductive Completion (A : Type) : Type :=
| Normal (v : A)
| Throw (e : Exn).
Arguments Normal {A} v.
Arguments Throw {A} e.

(** Synchronous code that records its calls and may throw; calls made before
    a throw stay made. *)
Definition Js (A : Type) : Type := list Call -> Completion A * list Call.

Definition js_ret {A : Type} (v : A) : Js A := fun calls => (Normal v, calls).

Definition js_bind {A B : Type} (c : Js A) (k : A -> Js B) : Js B :=
  fun calls =>
    match c calls with
    | (Normal v, calls') => k v calls'
    | (Throw e, calls') => (Throw e, calls')
    end.

(** [try { body } catch (error) { handler(error) }] *)
Definition try_catch {A : Type} (body : Js A) (handler : Exn -> Js A) : Js A :=
  fun calls =>
    match body calls with
    | (Normal v, calls') => (Normal v, calls')
    | (Throw e, calls') => handler e calls'
    end.

#[local] Notation "c1 ;;; c2" := (js_bind c1 (fun _ => c2))
  (at level 61, right associativity).

Section Navigation.

(** The environment: whether a given call on a collaborator throws. *)
Variable throws : Call -> option Exn.

Definition call (c : Call) : Js unit :=
  fun calls =>
    match throws c with
    | Some e => (Throw e, calls ++ [c])
    | None => (Normal tt, calls ++ [c])
    end.

(** The body of the [try] block.  [connectionManager] is the value of
    [global.connectionManager], [None] when it is not set. *)
Definition navigationBody (connectionManager : option ConnectionManagerHandle)
    (url : string) : Js bool :=
  let blocked :=
    match connectionManager with
    | Some h => negb (handle_isConnected h) && handle_isOnErrorScreen h
    | None => false
    end in
  if blocked then
    call ShowConnectionError ;;; js_ret false
  else if AppConstants.isSpecialScheme url then
    call (HandleSpecialUrls url) ;;; js_ret false
  else if AppConstants.isAllowedUrl url then
    js_ret true
  else if AppConstants.includes url "securepayments.fortebank.com" then
    js_ret true
  else if AppConstants.includes url "payment="
          && (AppConstants.includes url "success"
              || AppConstants.includes url "failed"
              || AppConstants.includes url "declined") then
    js_ret true
  else
    call (OpenInExternalBrowser url) ;;; js_ret false.

Definition handleNavigationRequest (connectionManager : option ConnectionManagerHandle)
    (url : string) : Js bool :=
  try_catch (navigationBody connectionManager url) (fun _ => js_ret false).

End Navigation.

End WebViewService.

(** ** The connection monitor

    [ConnectionMonitorService] (in the sources it follows [CameraService]
    in services/CameraService.ts), together with what it calls back into:
    the listener the wrapper registers and the [global.connectionManager]
    handle the wrapper publishes. *)

Module ConnectionMonitorService.

Module Wrapper := ConnectionManagerWrapper.

(** The [ConnectionStatus] interface of the service. *)
Record ConnectionStatus : Type := mkConnectionStatus {
  isConnected : bool;
  loadingTime : option Z;          (* loadingTime?: number *)
  isSlowConnection : bool;
  requestUrl : option string;      (* requestUrl?: string *)
  timestamp : Z
}.

(** The status object as the wrapper's listener reads it. *)
Definition asReceived (st : ConnectionStatus) : Wrapper.ConnectionStatus :=
  Wrapper.mkStatus (isConnected st) (loadingTime st) (isSlowConnection st)
    (requestUrl st) (timestamp st).

(** [Partial<ConnectionStatus>]: [None] for a key the object literal does not
    have, [Some v] for a key it has (also when [v] is [undefined]). *)
Record PartialStatus : Type := mkPartial {
  key_isConnected : option bool;
  key_loadingTime : option (option Z);
  key_isSlowConnection : option bool;
  key_requestUrl : option (option string);
  key_timestamp : option Z
}.

Definition override {A : Type} (old : A) (key : option A) : A :=
  match key with
  | Some v => v
  | None => old
  end.

(** [{ ...old, ...status }] *)
Definition spread (old : ConnectionStatus) (status : PartialStatus) : ConnectionStatus :=
  {| isConnected := override (isConnected old) (key_isConnected status);
     loadingTime := override (loadingTime old) (key_loadingTime status);
     isSlowConnection := override (isSlowConnection old) (key_isSlowConnection status);
     requestUrl := override (requestUrl old) (key_requestUrl status);
     timestamp := override (timestamp old) (key_timestamp status) |}.

(** Listener objects, compared by identity: the wrapper's memoized
    [connectionListener], and any others. *)
Inductive ConnectionListener : Type :=
| connectionListener
| otherListener (id : nat).

Definition ConnectionListener_eqb (a b : ConnectionListener) : bool :=
  match a, b with
  | connectionListener, connectionListener => true
  | otherListener i, otherListener j => Nat.eqb i j
  | _, _ => false
  end.

(** A pending [setTimeout]: the handle it returned and when it is due. *)
Record Timeout : Type := mkTimeout { handle : nat; due : Z }.

(** The fields of the singleton, then the parts of the environment it
    reads and writes.  Timer handles are truthy. *)
Record Service : Type := mkService {
  listeners : list ConnectionListener;   (* registered listeners, in registration order *)
  connectionStatus : ConnectionStatus;
  loadStartTime : Z;   (* 0 until a load has started *)
  slowConnectionThreshold : Z;   (* 10000 by default *)
  autoErrorTimeout : option nat;   (* NodeJS.Timeout | null: the handle of the last timer armed *)
  autoErrorThreshold : Z;   (* 5000 *)
  isInitialLoad : bool;
  shouldShowErrorOnTimeout : bool;
  clock : Z;   (* Date.now() *)
  scheduled : list Timeout;   (* setTimeout callbacks of the service that are still pending *)
  nextHandle : nat;   (* the handle the next setTimeout returns *)
  connectionManagerSet : bool;   (* whether global.connectionManager is set *)
  notified : list (ConnectionListener * ConnectionStatus)   (* deliveries to listeners so far, oldest first *)
}.

Definition with_listeners (v : list ConnectionListener) (s : Service) : Service :=
  {| listeners := v; connectionStatus := connectionStatus s;
     loadStartTime := loadStartTime s;
     slowConnectionThreshold := slowConnectionThreshold s;
     autoErrorTimeout := autoErrorTimeout s;
     autoErrorThreshold := autoErrorThreshold s;
     isInitialLoad := isInitialLoad s;
     shouldShowErrorOnTimeout := shouldShowErrorOnTimeout s; clock := clock s;
     scheduled := scheduled s; nextHandle := nextHandle s;
     connectionManagerSet := connectionManagerSet s; notified := notified s |}.

Definition with_connectionStatus (v : ConnectionStatus) (s : Service) : Service :=
  {| listeners := listeners s; connectionStatus := v;
     loadStartTime := loadStartTime s;
     slowConnectionThreshold := slowConnectionThreshold s;
     autoErrorTimeout := autoErrorTimeout s;
     autoErrorThreshold := autoErrorThreshold s;
     isInitialLoad := isInitialLoad s;
     shouldShowErrorOnTimeout := shouldShowErrorOnTimeout s; clock := clock s;
     scheduled := scheduled s; nextHandle := nextHandle s;
     connectionManagerSet := connectionManagerSet s; notified := notified s |}.

Definition with_loadStartTime (v : Z) (s : Service) : Service :=
  {| listeners := listeners s; connectionStatus := connectionStatus s;
     loadStartTime := v; slowConnectionThreshold := slowConnectionThreshold s;
     autoErrorTimeout := autoErrorTimeout s;
     autoErrorThreshold := autoErrorThreshold s;
     isInitialLoad := isInitialLoad s;
     shouldShowErrorOnTimeout := shouldShowErrorOnTimeout s; clock := clock s;
     scheduled := scheduled s; nextHandle := nextHandle s;
     connectionManagerSet := connectionManagerSet s; notified := notified s |}.

Definition with_slowConnectionThreshold (v : Z) (s : Service) : Service :=
  {| listeners := listeners s; connectionStatus := connectionStatus s;
     loadStartTime := loadStartTime s; slowConnectionThreshold := v;
     autoErrorTimeout := autoErrorTimeout s;
     autoErrorThreshold := autoErrorThreshold s;
     isInitialLoad := isInitialLoad s;
     shouldShowErrorOnTimeout := shouldShowErrorOnTimeout s; clock := clock s;
     scheduled := scheduled s; nextHandle := nextHandle s;
     connectionManagerSet := connectionManagerSet s; notified := notified s |}.

Definition with_autoErrorTimeout (v : option nat) (s : Service) : Service :=
  {| listeners := listeners s; connectionStatus := connectionStatus s;
     loadStartTime := loadStartTime s;
     slowConnectionThreshold := slowConnectionThreshold s; autoErrorTimeout := v;
     autoErrorThreshold := autoErrorThreshold s;
     isInitialLoad := isInitialLoad s;
     shouldShowErrorOnTimeout := shouldShowErrorOnTimeout s; clock := clock s;
     scheduled := scheduled s; nextHandle := nextHandle s;
     connectionManagerSet := connectionManagerSet s; notified := notified s |}.

Definition with_autoErrorThreshold (v : Z) (s : Service) : Service :=
  {| listeners := listeners s; connectionStatus := connectionStatus s;
     loadStartTime := loadStartTime s;
     slowConnectionThreshold := slowConnectionThreshold s;
     autoErrorTimeout := autoErrorTimeout s; autoErrorThreshold := v;
     isInitialLoad := isInitialLoad s;
     shouldShowErrorOnTimeout := shouldShowErrorOnTimeout s; clock := clock s;
     scheduled := scheduled s; nextHandle := nextHandle s;
     connectionManagerSet := connectionManagerSet s; notified := notified s |}.

Definition with_isInitialLoad (v : bool) (s : Service) : Service :=
  {| listeners := listeners s; connectionStatus := connectionStatus s;
     loadStartTime := loadStartTime s;
     slowConnectionThreshold := slowConnectionThreshold s;
     autoErrorTimeout := autoErrorTimeout s;
     autoErrorThreshold := autoErrorThreshold s; isInitialLoad := v;
     shouldShowErrorOnTimeout := shouldShowErrorOnTimeout s; clock := clock s;
     scheduled := scheduled s; nextHandle := nextHandle s;
     connectionManagerSet := connectionManagerSet s; notified := notified s |}.

Definition with_shouldShowErrorOnTimeout (v : bool) (s : Service) : Service :=
  {| listeners := listeners s; connectionStatus := connectionStatus s;
     loadStartTime := loadStartTime s;
     slowConnectionThreshold := slowConnectionThreshold s;
     autoErrorTimeout := autoErrorTimeout s;
     autoErrorThreshold := autoErrorThreshold s;
     isInitialLoad := isInitialLoad s; shouldShowErrorOnTimeout := v;
     clock := clock s; scheduled := scheduled s; nextHandle := nextHandle s;
     connectionManagerSet := connectionManagerSet s; notified := notified s |}.

Definition with_clock (v : Z) (s : Service) : Service :=
  {| listeners := listeners s; connectionStatus := connectionStatus s;
     loadStartTime := loadStartTime s;
     slowConnectionThreshold := slowConnectionThreshold s;
     autoErrorTimeout := autoErrorTimeout s;
     autoErrorThreshold := autoErrorThreshold s;
     isInitialLoad := isInitialLoad s;
     shouldShowErrorOnTimeout := shouldShowErrorOnTimeout s; clock := v;
     scheduled := scheduled s; nextHandle := nextHandle s;
     connectionManagerSet := connectionManagerSet s; notified := notified s |}.

Definition with_scheduled (v : list Timeout) (s : Service) : Service :=
  {| listeners := listeners s; connectionStatus := connectionStatus s;
     loadStartTime := loadStartTime s;
     slowConnectionThreshold := slowConnectionThreshold s;
     autoErrorTimeout := autoErrorTimeout s;
     autoErrorThreshold := autoErrorThreshold s;
     isInitialLoad := isInitialLoad s;
     shouldShowErrorOnTimeout := shouldShowErrorOnTimeout s; clock := clock s;
     scheduled := v; nextHandle := nextHandle s;
     connectionManagerSet := connectionManagerSet s; notified := notified s |}.

Definition with_nextHandle (v : nat) (s : Service) : Service :=
  {| listeners := listeners s; connectionStatus := connectionStatus s;
     loadStartTime := loadStartTime s;
     slowConnectionThreshold := slowConnectionThreshold s;
     autoErrorTimeout := autoErrorTimeout s;
     autoErrorThreshold := autoErrorThreshold s;
     isInitialLoad := isInitialLoad s;
     shouldShowErrorOnTimeout := shouldShowErrorOnTimeout s; clock := clock s;
     scheduled := scheduled s; nextHandle := v;
     connectionManagerSet := connectionManagerSet s; notified := notified s |}.

Definition with_connectionManagerSet (v : bool) (s : Service) : Service :=
  {| listeners := listeners s; connectionStatus := connectionStatus s;
     loadStartTime := loadStartTime s;
     slowConnectionThreshold := slowConnectionThreshold s;
     autoErrorTimeout := autoErrorTimeout s;
     autoErrorThreshold := autoErrorThreshold s;
     isInitialLoad := isInitialLoad s;
     shouldShowErrorOnTimeout := shouldShowErrorOnTimeout s; clock := clock s;
     scheduled := scheduled s; nextHandle := nextHandle s;
     connectionManagerSet := v; notified := notified s |}.

Definition with_notified (v : list (ConnectionListener * ConnectionStatus)) (s : Service) : Service :=
  {| listeners := listeners s; connectionStatus := connectionStatus s;
     loadStartTime := loadStartTime s;
     slowConnectionThreshold := slowConnectionThreshold s;
     autoErrorTimeout := autoErrorTimeout s;
     autoErrorThreshold := autoErrorThreshold s;
     isInitialLoad := isInitialLoad s;
     shouldShowErrorOnTimeout := shouldShowErrorOnTimeout s; clock := clock s;
     scheduled := scheduled s; nextHandle := nextHandle s;
     connectionManagerSet := connectionManagerSet s; notified := v |}.

(** The service as constructed at time [t0]. *)
Definition created (t0 : Z) : Service :=
  {| listeners := [];
     connectionStatus :=
       {| isConnected := true; loadingTime := None; isSlowConnection := false;
          requestUrl := None; timestamp := t0 |};
     loadStartTime := 0; slowConnectionThreshold := 10000;
     autoErrorTimeout := None; autoErrorThreshold := 5000;
     isInitialLoad := true; shouldShowErrorOnTimeout := true;
     clock := t0; scheduled := []; nextHandle := 1;
     connectionManagerSet := false; notified := [] |}.

Definition addListener (listener : ConnectionListener) (s : Service) : Service :=
  with_listeners (listeners s ++ [listener]) s.

(** [array.indexOf(x)]: [None] for -1. *)
Fixpoint indexOf (x : ConnectionListener) (l : list ConnectionListener) : option nat :=
  match l with
  | [] => None
  | y :: rest =>
      if ConnectionListener_eqb y x then Some O
      else match indexOf x rest with
           | Some i => Some (S i)
           | None => None
           end
  end.

Definition removeListener (listener : ConnectionListener) (s : Service) : Service :=
  match indexOf listener (listeners s) with
  | Some index => with_listeners (AZVWebView.remove_nth index (listeners s)) s
  | None => s
  end.

(** [setTimeout(callback, delay)]; the second component is the handle. *)
Definition setTimeout (delay : Z) (s : Service) : Service * nat :=
  (with_nextHandle (S (nextHandle s))
     (with_scheduled (scheduled s ++ [mkTimeout (nextHandle s) (clock s + delay)]) s),
   nextHandle s).

(** [clearTimeout(h)] *)
Definition clearTimeout (h : nat) (s : Service) : Service :=
  with_scheduled (filter (fun t => negb (Nat.eqb (handle t) h)) (scheduled s)) s.

Definition clearAutoErrorTimeout (s : Service) : Service :=
  match autoErrorTimeout s with
  | Some h => with_autoErrorTimeout None (clearTimeout h s)
  | None => s
  end.

Definition getConnectionStatus (s : Service) : ConnectionStatus := connectionStatus s.

Definition isSlowOrFailedConnection (s : Service) : bool :=
  negb (isConnected (connectionStatus s)) || isSlowConnection (connectionStatus s).

Definition setSlowConnectionThreshold (threshold : Z) (s : Service) : Service :=
  with_slowConnectionThreshold threshold s.

Definition setShouldShowErrorOnTimeout (shouldShow : bool) (s : Service) : Service :=
  with_shouldShowErrorOnTimeout shouldShow s.

Definition isInitialAppLoad (s : Service) : bool := isInitialLoad s.

Definition resetInitialLoad (s : Service) : Service := with_isInitialLoad true s.

Definition reset (s : Service) : Service :=
  let s1 := with_loadStartTime 0 s in
  let s2 := clearAutoErrorTimeout s1 in
  with_connectionStatus
    {| isConnected := true; loadingTime := None; isSlowConnection := false;
       requestUrl := None; timestamp := clock s2 |} s2.

Definition dispose (s : Service) : Service :=
  reset (clearAutoErrorTimeout (with_listeners [] s)).

(** [ms] milliseconds pass: [Date.now()] answers that much later. *)
Definition elapse (ms : Z) (s : Service) : Service := with_clock (clock s + ms) s.

(** The service is the monitor the wrapper talks to. *)
#[export] Instance Service_ConnectionMonitor : Wrapper.ConnectionMonitor Service := {|
  Wrapper.isInitialAppLoad := isInitialAppLoad;
  Wrapper.setShouldShowErrorOnTimeout := setShouldShowErrorOnTimeout;
  Wrapper.reset := reset;
  Wrapper.elapse := elapse
|}.

(** The wrapper and the service it holds. *)
Definition World : Type := Wrapper.State Service.

Definition Handler : Type := state World unit.

Definition onService (f : Service -> Service) : Handler := Wrapper.onMonitor f.

Definition service : state World Service := gets Wrapper.connectionMonitor.

(** [listener.onConnectionChange(status)] inside its [try]: the delivery is
    recorded; the wrapper's listener runs its handler, the code of other
    listeners is not part of the sources. *)
Definition deliver (listener : ConnectionListener) (status : ConnectionStatus) : Handler :=
  onService (fun s => with_notified (notified s ++ [(listener, status)]) s) ;;
  match listener with
  | connectionListener => (Wrapper.onConnectionChange (asReceived status) : Handler)
  | otherListener _ => ret tt
  end.

(** [array.forEach(f)] *)
Fixpoint forEach {A : Type} (l : list A) (f : A -> Handler) : Handler :=
  match l with
  | [] => ret tt
  | x :: rest => f x ;; forEach rest f
  end.

Definition updateConnectionStatus (status : PartialStatus) : Handler :=
  onService (fun s => with_connectionStatus (spread (connectionStatus s) status) s) ;;
  s <- service ;;
  forEach (listeners s) (fun listener => deliver listener (connectionStatus s)).

(** [if (global.connectionManager) global.connectionManager.showConnectionError()] *)
Definition showConnectionErrorIfManaged : Handler :=
  s <- service ;;
  if connectionManagerSet s then (Wrapper.showConnectionError : Handler) else ret tt.

(** Arms the timer of [onLoadStart]; its callback is
    [showConnectionErrorIfManaged]. *)
Definition armAutoErrorTimeout (s : Service) : Service :=
  let (s', h) := setTimeout (autoErrorThreshold s) s in
  with_autoErrorTimeout (Some h) s'.

Definition onLoadStart (url : string) : Handler :=
  onService (fun s => with_loadStartTime (clock s) s) ;;
  onService clearAutoErrorTimeout ;;
  s <- service ;;
  (if isInitialLoad s && shouldShowErrorOnTimeout s
   then onService armAutoErrorTimeout
   else ret tt) ;;
  s <- service ;;
  updateConnectionStatus
    {| key_isConnected := Some true; key_loadingTime := None;
       key_isSlowConnection := Some false; key_requestUrl := Some (Some url);
       key_timestamp := Some (loadStartTime s) |}.

Definition onLoadEnd (url : string) : Handler :=
  s <- service ;;
  let loadEndTime := clock s in
  let loadingTime := loadEndTime - loadStartTime s in
  let isSlowConnection := loadingTime >? slowConnectionThreshold s in
  onService clearAutoErrorTimeout ;;
  (if isInitialLoad s then onService (with_isInitialLoad false) else ret tt) ;;
  updateConnectionStatus
    {| key_isConnected := Some true; key_loadingTime := Some (Some loadingTime);
       key_isSlowConnection := Some isSlowConnection;
       key_requestUrl := Some (Some url); key_timestamp := Some loadEndTime |}.

(** [error?.nativeEvent], read through optional chaining. *)
Record NativeEvent : Type := mkNativeEvent {
  description : option string;
  code : option Z
}.

Definition isServerDown (error : option NativeEvent) : bool :=
  match error with
  | Some nativeEvent =>
      match description nativeEvent with
      | Some d =>
          AppConstants.includes d "500"
          || AppConstants.includes d "502"
          || AppConstants.includes d "503"
          || AppConstants.includes d "504"
          || AppConstants.includes d "The Internet connection appears to be offline"
          || AppConstants.includes d "Could not connect to the server"
          || AppConstants.includes d "server is not responding"
          || AppConstants.includes d "network connection was lost"
      | None => false
      end
      || match code nativeEvent with
         | Some c => (c =? -1009) || (c =? -1001) || (c =? -1004)
         | None => false
         end
  | None => false
  end.

Definition checkIfServerIsDown (error : option NativeEvent) : Handler :=
  if isServerDown error then showConnectionErrorIfManaged else ret tt.

Definition onLoadError (error : option NativeEvent) (url : option string) : Handler :=
  s <- service ;;
  let loadEndTime := clock s in
  let loadingTime :=
    if loadStartTime s >? 0 then Some (loadEndTime - loadStartTime s) else None in
  onService clearAutoErrorTimeout ;;
  updateConnectionStatus
    {| key_isConnected := Some false; key_loadingTime := Some loadingTime;
       key_isSlowConnection := Some true; key_requestUrl := Some url;
       key_timestamp := Some loadEndTime |} ;;
  checkIfServerIsDown error.

(** A pending timer of the service runs once it is due. *)
Definition fireTimeout (h : nat) : Handler :=
  s <- service ;;
  match find (fun t => Nat.eqb (handle t) h) (scheduled s) with
  | Some t =>
      if due t <=? clock s then
        onService (clearTimeout h) ;;
        showConnectionErrorIfManaged
      else ret tt
  | None => ret tt
  end.

(** The wrapper's effects on mount: register the listener, set the
    threshold to 5000, publish the global handle. *)
Definition mount : Handler :=
  onService (addListener connectionListener) ;;
  onService (setSlowConnectionThreshold 5000) ;;
  onService (with_connectionManagerSet true).

(** The cleanup of the first effect. *)
Definition unmount : Handler :=
  onService (removeListener connectionListener).

(** The app at time [t0], once the wrapper has mounted. *)
Definition launched (t0 : Z) : World :=
  Wrapper.exec mount (Wrapper.initialState (created t0)).

(** What can happen to the wrapper and the service. *)
Inductive Event : Type :=
| Elapse (ms : Z)
| LoadStart (url : string)                (* WebViewService.handleLoadStart *)
| LoadEnd (url : string)                  (* WebViewService.handleLoadEnd *)
| LoadError (error : option NativeEvent)  (* WebViewService.handleError *)
| TimeoutFires (h : nat)
| AuthInProgress                          (* setShouldShowErrorOnTimeout(false) of the token and logout handlers *)
| TryAgain (props : Wrapper.Props) (probe : Wrapper.Probe)
| ManualInstructions
| BackToError.

Definition handle_event (ev : Event) : Handler :=
  match ev with
  | Elapse ms => onService (fun s => with_clock (clock s + ms) s)
  | LoadStart url => onLoadStart url
  | LoadEnd url => onLoadEnd url
  | LoadError error => onLoadError error None
  | TimeoutFires h => fireTimeout h
  | AuthInProgress => onService (setShouldShowErrorOnTimeout false)
  | TryAgain props probe => (Wrapper.handleTryAgain props probe : Handler)
  | ManualInstructions => (Wrapper.handleManualInstructions : Handler)
  | BackToError => (Wrapper.handleBackToError : Handler)
  end.

Definition exec (h : Handler) (w : World) : World := execState h w.

Definition run (evs : list Event) (w : World) : World :=
  fold_left (fun st ev => exec (handle_event ev) st) evs w.

(** The screen the wrapper's listener leaves, given what
    [isInitialAppLoad()] answers, the status it is handed and the screen
    before. *)
Definition screenOn (initialLoad : bool) (status : ConnectionStatus)
    (screen : Wrapper.ScreenType) : Wrapper.ScreenType :=
  if initialLoad
     && (negb (isConnected status)
         || Wrapper.loadingTime_exceeds (asReceived status) 5000)
  then Wrapper.connection_error
  else if isConnected status && Wrapper.loadingTime_within (asReceived status) 5000
  then Wrapper.webview
  else screen.

(** Whether the wrapper's listener is registered. *)
Definition listening (s : Service) : bool :=
  existsb (ConnectionListener_eqb connectionListener) (listeners s).

(** The world after [status] has gone round the listeners [ls]: every
    delivery recorded, the wrapper's listener run if it is among them. *)
Definition delivered (ls : list ConnectionListener) (status : ConnectionStatus)
    (w : World) : World :=
  let s := Wrapper.connectionMonitor w in
  let heard := existsb (ConnectionListener_eqb connectionListener) ls in
  {| Wrapper.currentScreen :=
       if heard then screenOn (isInitialLoad s) status (Wrapper.currentScreen w)
       else Wrapper.currentScreen w;
     Wrapper.connectionMonitor :=
       with_notified (notified s ++ map (fun l => (l, status)) ls) s;
     Wrapper.isRetrying := Wrapper.isRetrying w;
     Wrapper.connected := if heard then isConnected status else Wrapper.connected w;
     Wrapper.called := Wrapper.called w |}.

(** The service when [onLoadStart], [onLoadEnd] and [onLoadError] have done
    their own bookkeeping and are about to notify the listeners. *)
Definition started (url : string) (s : Service) : Service :=
  let s1 := clearAutoErrorTimeout (with_loadStartTime (clock s) s) in
  let s2 := if isInitialLoad s && shouldShowErrorOnTimeout s
            then armAutoErrorTimeout s1 else s1 in
  with_connectionStatus
    {| isConnected := true; loadingTime := loadingTime (connectionStatus s);
       isSlowConnection := false; requestUrl := Some url; timestamp := clock s |}
    s2.

Definition ended (url : string) (s : Service) : Service :=
  let elapsed := clock s - loadStartTime s in
  with_connectionStatus
    {| isConnected := true; loadingTime := Some elapsed;
       isSlowConnection := elapsed >? slowConnectionThreshold s;
       requestUrl := Some url; timestamp := clock s |}
    (with_isInitialLoad false (clearAutoErrorTimeout s)).

Definition failed (url : option string) (s : Service) : Service :=
  with_connectionStatus
    {| isConnected := false;
       loadingTime := if loadStartTime s >? 0
                      then Some (clock s - loadStartTime s) else None;
       isSlowConnection := true; requestUrl := url; timestamp := clock s |}
    (clearAutoErrorTimeout s).

(** The world with its service replaced. *)
Definition withService (s : Service) (w : World) : World :=
  {| Wrapper.currentScreen := Wrapper.currentScreen w;
     Wrapper.connectionMonitor := s;
     Wrapper.isRetrying := Wrapper.isRetrying w;
     Wrapper.connected := Wrapper.connected w;
     Wrapper.called := Wrapper.called w |}.

(** What an event does to the service, deliveries aside. *)
Definition serviceAfter (ev : Event) (s : Service) : Service :=
  match ev with
  | Elapse ms => with_clock (clock s + ms) s
  | LoadStart url => started url s
  | LoadEnd url => ended url s
  | LoadError _ => failed None s
  | TimeoutFires h =>
      match find (fun t => Nat.eqb (handle t) h) (scheduled s) with
      | Some t => if due t <=? clock s then clearTimeout h s else s
      | None => s
      end
  | AuthInProgress => setShouldShowErrorOnTimeout false s
  | TryAgain _ probe =>
      let resumed := elapse (Wrapper.waited 3000 probe) s in
      match Wrapper.Promise_race 3000 probe with
      | Wrapper.FetchFirst (Wrapper.Resolved status) =>
          if Wrapper.ok status
          then reset (setShouldShowErrorOnTimeout true resumed) else resumed
      | _ => resumed
      end
  | ManualInstructions => s
  | BackToError => s
  end.

(** Events that are neither a server-down error nor the user's way back
    from the manual instructions. *)
Definition quiet (ev : Event) : bool :=
  match ev with
  | LoadError error => negb (isServerDown error)
  | BackToError => false
  | _ => true
  end.

(** The number of times [x] is registered. *)
Definition registrations (x : ConnectionListener) (l : list ConnectionListener) : nat :=
  List.length (filter (ConnectionListener_eqb x) l).

(** Every pending timer is the one [autoErrorTimeout] holds. *)
Definition tidy (s : Service) : Prop :=
  match scheduled s with
  | [] => True
  | [t] => autoErrorTimeout s = Some (handle t)
  | _ :: _ :: _ => False
  end.

End ConnectionMonitorService.

(** ** URL classification and hand-off

    [UrlService], which [handleNavigationRequest] calls.  Where a url is
    only matched against ASCII texts it is a string; where its length is
    measured it is the sequence of its UTF-16 code units. *)

Module UrlService.

Inductive UrlType : Type := WEBVIEW | EXTERNAL | BROWSER.

Definition isAllowedForWebView (url : string) : bool := AppConstants.isAllowedUrl url.

Definition getUrlType (url : string) : UrlType :=
  if AppConstants.isAllowedUrl url then WEBVIEW
  else if AppConstants.isSpecialScheme url then EXTERNAL
  else BROWSER.

(** A JavaScript string as the sequence of its UTF-16 code units, which is
    what [length] and [substring] count; a code unit is a number below
    65536. *)
Definition CodeUnit : Type := N.

(** The code units of a text of ASCII characters. *)
Definition codeUnits (text : string) : list CodeUnit :=
  map N_of_ascii (list_ascii_of_string text).

(** [url.substring(0, 100)] is the first 100 code units. *)
Definition formatUrlForLogging (url : list CodeUnit) : list CodeUnit :=
  if (100 <? List.length url)%nat
  then firstn 100 url ++ codeUnits "..."
  else url.

Definition shouldHandleUrl (url : string) : bool :=
  if AppConstants.isSpecialScheme url then true
  else if AppConstants.isAllowedUrl url then true
  else false.

Definition getAppUrlScheme : string := "azv://".

(** Calls on React Native's [Linking]. *)
Inductive LinkingCall : Type :=
| CanOpenURL (url : string)
| OpenURL (url : string).

Record NavigationResult : Type := mkNavigationResult {
  shouldContinue : bool;
  handled : bool
}.

Section Linking.

(** How the promises of [Linking] settle: [Throw] for a rejection. *)
Variable canOpenURL : string -> WebViewService.Completion bool.
Variable openURL : string -> WebViewService.Completion unit.

(** The result and the calls made, in order.  The [catch] logs and falls
    through to [return false]. *)
Definition handleSpecialUrls (url : string) : bool * list LinkingCall :=
  if AppConstants.isSpecialScheme url then
    match canOpenURL url with
    | WebViewService.Normal true =>
        match openURL url with
        | WebViewService.Normal _ => (true, [CanOpenURL url; OpenURL url])
        | WebViewService.Throw _ => (false, [CanOpenURL url; OpenURL url])
        end
    | WebViewService.Normal false => (false, [CanOpenURL url])
    | WebViewService.Throw _ => (false, [CanOpenURL url])
    end
  else (false, []).

Definition openInExternalBrowser (url : string) : list LinkingCall :=
  match canOpenURL url with
  | WebViewService.Normal true => [CanOpenURL url; OpenURL url]
  | WebViewService.Normal false => [CanOpenURL url]
  | WebViewService.Throw _ => [CanOpenURL url]
  end.

Definition handleDeepLink (url : string) : bool * list LinkingCall :=
  match canOpenURL url with
  | WebViewService.Normal true =>
      match openURL url with
      | WebViewService.Normal _ => (true, [CanOpenURL url; OpenURL url])
      | WebViewService.Throw _ => (false, [CanOpenURL url; OpenURL url])
      end
  | WebViewService.Normal false => (false, [CanOpenURL url])
  | WebViewService.Throw _ => (false, [CanOpenURL url])
  end.

(** Nothing in the [try] block can throw ([handleSpecialUrls] and
    [openInExternalBrowser] catch their own errors), so its [catch] is not
    reached. *)
Definition processNavigationRequest (url : string) : NavigationResult * list LinkingCall :=
  if AppConstants.isSpecialScheme url then
    let (wasHandled, calls) := handleSpecialUrls url in
    ({| shouldContinue := false; handled := wasHandled |}, calls)
  else if AppConstants.isAllowedUrl url then
    ({| shouldContinue := true; handled := true |}, [])
  else
    ({| shouldContinue := false; handled := true |}, openInExternalBrowser url).

End Linking.

End UrlService.

(** ** Tokens, logout and page loads in [WebViewService]

    The handlers of the [accessToken], [accessTokenResponse] and [logout]
    messages, the token queries, and the page-load callbacks that drive the
    connection monitor.  The handlers are [async]: each is run here from
    its call to its completion, every [await] settling before anything else
    happens.  [AsyncStorage] is a key-value store whose calls may reject.
    The handlers declare [data: string]; [null] and [undefined], which they
    test for, are [None]. *)

Module WebViewServiceHandlers.

Module Monitor := ConnectionMonitorService.
Module Wrapper := ConnectionManagerWrapper.

Import WebViewService.

(** The scripts the service injects, by the template they are built from. *)
Inductive Script : Type :=
| PostAccessTokenResponse                        (* handleAccessToken: posts {action: 'accessTokenResponse', data: localStorage.getItem('access_token')} *)
| LogoutResult (success : bool) (message : string) (* handleLogout: window.flutterLogoutResult({success, message}) *)
| SendAccessToken                                (* requestAccessTokenFromWebView *)
| PostAccessToken                                (* getAccessToken: posts {action: 'accessToken', data: localStorage.getItem('access_token')} *)
| InjectionScript.                               (* JavaScriptConstants.injectionScript *)

(** What a pending [setTimeout] of the service will run. *)
Inductive Pending : Type :=
| RetryInjection (code : Script)   (* executeJavaScript, after 100 ms *)
| RequestAccessToken.              (* notifyWebViewReady, after 1000 ms *)

Record Timeout : Type := mkTimeout { due : Z; callback : Pending }.

(** [WebViewServiceCallbacks]: which optional callbacks are set. *)
Record Callbacks : Type := mkCallbacks {
  onWebViewReady : bool;
  onLoadStart : bool;
  onLoadEnd : bool;
  onError : bool
}.

Inductive CallbackCall : Type :=
| OnWebViewReady
| OnLoadStart (url : string)
| OnLoadEnd (url : string)
| OnError (error : option Monitor.NativeEvent).

Inductive StorageCall : Type :=
| GetItem (key : string)
| SetItem (key value : string)
| RemoveItem (key : string).

(** Calls that leave the service, in the order they are made. *)
Inductive Effect : Type :=
| InjectJavaScript (code : Script)                  (* this.webViewRef.injectJavaScript(code) *)
| Storage (c : StorageCall)                         (* AsyncStorage *)
| SaveTokenToBackend (fcmToken accessToken : string) (* this.apiService.saveTokenToBackend *)
| Called (c : CallbackCall).                        (* this.callbacks.*?.() *)

Record State : Type := mkState {
  webViewRef : option AZVWebView.WebView;   (* WebView | null *)
  callbacks : Callbacks;
  storage : list (string * string);         (* the contents of AsyncStorage *)
  world : Monitor.World;                    (* the connection monitor and the wrapper listening to it *)
  timeouts : list Timeout;                  (* setTimeout callbacks of the service still pending *)
  trace : list Effect
}.

Definition with_webViewRef (v : option AZVWebView.WebView) (st : State) : State :=
  {| webViewRef := v; callbacks := callbacks st; storage := storage st;
     world := world st; timeouts := timeouts st; trace := trace st |}.

Definition with_callbacks (v : Callbacks) (st : State) : State :=
  {| webViewRef := webViewRef st; callbacks := v; storage := storage st;
     world := world st; timeouts := timeouts st; trace := trace st |}.

Definition with_storage (v : list (string * string)) (st : State) : State :=
  {| webViewRef := webViewRef st; callbacks := callbacks st; storage := v;
     world := world st; timeouts := timeouts st; trace := trace st |}.

Definition with_world (v : Monitor.World) (st : State) : State :=
  {| webViewRef := webViewRef st; callbacks := callbacks st; storage := storage st;
     world := v; timeouts := timeouts st; trace := trace st |}.

Definition with_timeouts (v : list Timeout) (st : State) : State :=
  {| webViewRef := webViewRef st; callbacks := callbacks st; storage := storage st;
     world := world st; timeouts := v; trace := trace st |}.

Definition with_trace (v : list Effect) (st : State) : State :=
  {| webViewRef := webViewRef st; callbacks := callbacks st; storage := storage st;
     world := world st; timeouts := timeouts st; trace := v |}.

(** The singleton as constructed, next to a world [w]. *)
Definition constructed (w : Monitor.World) : State :=
  {| webViewRef := None;
     callbacks := {| onWebViewReady := false; onLoadStart := false;
                     onLoadEnd := false; onError := false |};
     storage := []; world := w; timeouts := []; trace := [] |}.

(** [Date.now()], the clock the monitor reads. *)
Definition now (st : State) : Z :=
  Monitor.clock (Wrapper.connectionMonitor (world st)).

(** The monitor singleton. *)
Definition connectionMonitor (st : State) : Monitor.Service :=
  Wrapper.connectionMonitor (world st).

(** [AsyncStorage] as a store. *)
Fixpoint lookup (key : string) (items : list (string * string)) : option string :=
  match items with
  | [] => None
  | (k, v) :: rest => if String.eqb k key then Some v else lookup key rest
  end.

Definition without (key : string) (items : list (string * string)) : list (string * string) :=
  filter (fun item => negb (String.eqb (fst item) key)) items.

(** Code that may throw, or whose promise may reject, over the state of the
    service; what was done before a throw stays done. *)
Definition Async (A : Type) : Type := State -> Completion A * State.

Definition done {A : Type} (v : A) : Async A := fun st => (Normal v, st).

Definition andThen {A B : Type} (c : Async A) (k : A -> Async B) : Async B :=
  fun st =>
    match c st with
    | (Normal v, st') => k v st'
    | (Throw e, st') => (Throw e, st')
    end.

(** [try { body } catch (error) { handler(error) }] *)
Definition tryCatch {A : Type} (body : Async A) (handler : Exn -> Async A) : Async A :=
  fun st =>
    match body st with
    | (Normal v, st') => (Normal v, st')
    | (Throw e, st') => handler e st'
    end.

#[local] Notation "x <~ c1 ;; c2" := (andThen c1 (fun x => c2))
  (at level 61, c1 at next level, right associativity).
#[local] Notation "c1 ;;; c2" := (andThen c1 (fun _ => c2))
  (at level 61, right associativity).

Definition change (f : State -> State) : Async unit := fun st => (Normal tt, f st).

Definition emit (e : Effect) : Async unit :=
  change (fun st => with_trace (trace st ++ [e]) st).

(** A method of the monitor that notifies nobody. *)
Definition onMonitor (f : Monitor.Service -> Monitor.Service) : Async unit :=
  change (fun st => with_world (Monitor.exec (Monitor.onService f) (world st)) st).

(** A method of the monitor that may notify its listeners. *)
Definition monitor (h : Monitor.Handler) : Async unit :=
  change (fun st => with_world (Monitor.exec h (world st)) st).

Definition setTimeout (c : Pending) (delay : Z) : Async unit :=
  change (fun st => with_timeouts (timeouts st ++ [mkTimeout (now st + delay) c]) st).

(** Truthiness of [data], and [data === text]. *)
Definition truthy (data : option string) : bool :=
  match data with
  | Some s => negb (String.eqb s "")
  | None => false
  end.

Definition equals (data : option string) (text : string) : bool :=
  match data with
  | Some s => String.eqb s text
  | None => false
  end.

(** [error?.toString() || "Unknown error"] for an [Error]. *)
Definition describe (error : Exn) : string :=
  let text := match error with
              | Error message =>
                  if String.eqb message "" then "Error"
                  else ("Error: " ++ message)%string
              end in
  if String.eqb text "" then "Unknown error" else text.

Definition setWebViewRef (webView : AZVWebView.WebView) (st : State) : State :=
  with_webViewRef (Some webView) st.

Definition setCallbacks (c : Callbacks) (st : State) : State :=
  with_callbacks c st.

Definition dispose (st : State) : State :=
  with_callbacks {| onWebViewReady := false; onLoadStart := false;
                    onLoadEnd := false; onError := false |}
    (with_webViewRef None st).

Definition executeJavaScript (code : Script) : Async unit :=
  fun st =>
    match webViewRef st with
    | Some _ => emit (InjectJavaScript code) st
    | None => setTimeout (RetryInjection code) 100 st
    end.

(** The state a computation leaves, and how it completes. *)
Definition run {A : Type} (c : Async A) (st : State) : State := snd (c st).

Definition result {A : Type} (c : Async A) (st : State) : Completion A := fst (c st).

(** What [executeJavaScript code] adds in state [st]: an injection when the
    reference is set, a pending retry when it is not. *)
Definition sent (code : Script) (st : State) : list Effect :=
  match webViewRef st with
  | Some _ => [InjectJavaScript code]
  | None => []
  end.

Definition queued (code : Script) (st : State) : list Timeout :=
  match webViewRef st with
  | Some _ => []
  | None => [mkTimeout (now st + 100) (RetryInjection code)]
  end.

(** The callback [executeJavaScript] hands to [setTimeout]. *)
Definition retryInjection (code : Script) : Async unit :=
  fun st =>
    match webViewRef st with
    | Some _ => emit (InjectJavaScript code) st
    | None => done tt st
    end.

Definition requestAccessTokenFromWebView : Async unit :=
  tryCatch
    (fun st =>
       match webViewRef st with
       | None => done tt st
       | Some _ => executeJavaScript SendAccessToken st
       end)
    (fun _ => done tt).

Definition injectOptimizationScript : Async unit :=
  tryCatch (executeJavaScript InjectionScript) (fun _ => done tt).

(** [this.callbacks.name?.(...)] *)
Definition optionalCallback (present : Callbacks -> bool) (c : CallbackCall) : Async unit :=
  fun st => if present (callbacks st) then emit (Called c) st else done tt st.

Definition notifyWebViewReady : Async unit :=
  optionalCallback onWebViewReady OnWebViewReady ;;;
  setTimeout RequestAccessToken 1000.

Definition handleLoadStart (url : string) : Async unit :=
  monitor (Monitor.onLoadStart url) ;;;
  optionalCallback onLoadStart (OnLoadStart url).

Definition handleLoadEnd (url : string) : Async unit :=
  monitor (Monitor.onLoadEnd url) ;;;
  optionalCallback onLoadEnd (OnLoadEnd url) ;;;
  injectOptimizationScript ;;;
  notifyWebViewReady.

Definition handleError (error : option Monitor.NativeEvent) : Async unit :=
  monitor (Monitor.onLoadError error None) ;;;
  optionalCallback onError (OnError error).

(** A pending timer of the service runs once it is due. *)
Definition fireTimeout (i : nat) : Async unit :=
  fun st =>
    match nth_error (timeouts st) i with
    | Some t =>
        if due t <=? now st then
          let st' := with_timeouts (AZVWebView.remove_nth i (timeouts st)) st in
          match callback t with
          | RetryInjection code => retryInjection code st'
          | RequestAccessToken => requestAccessTokenFromWebView st'
          end
        else done tt st
    | None => done tt st
    end.

Section Environment.

(** Which calls on [AsyncStorage] reject, and with what. *)
Variable rejects : StorageCall -> option Exn.

(** What [ApiService.saveTokenToBackend], which catches its own errors,
    resolves to. *)
Variable saveTokenToBackend : string -> string -> bool.

Definition getItem (key : string) : Async (option string) :=
  emit (Storage (GetItem key)) ;;;
  fun st =>
    match rejects (GetItem key) with
    | Some e => (Throw e, st)
    | None => (Normal (lookup key (storage st)), st)
    end.

Definition setItem (key value : string) : Async unit :=
  emit (Storage (SetItem key value)) ;;;
  fun st =>
    match rejects (SetItem key value) with
    | Some e => (Throw e, st)
    | None => (Normal tt, with_storage ((key, value) :: without key (storage st)) st)
    end.

Definition removeItem (key : string) : Async unit :=
  emit (Storage (RemoveItem key)) ;;;
  fun st =>
    match rejects (RemoveItem key) with
    | Some e => (Throw e, st)
    | None => (Normal tt, with_storage (without key (storage st)) st)
    end.

(** Past the two tests [data] is a non-empty string. *)
Definition handleAccessToken (data : option string) : Async unit :=
  tryCatch
    ((if truthy data && negb (equals data "null") && negb (equals data "undefined")
      then onMonitor (Monitor.setShouldShowErrorOnTimeout false)
      else done tt) ;;;
     if negb (truthy data) || equals data "null" || equals data "undefined"
     then executeJavaScript PostAccessTokenResponse
     else match data with
          | Some token => setItem "access_token" token
          | None => done tt
          end)
    (fun _ => done tt).

Definition handleAccessTokenResponse (data : option string) : Async unit :=
  tryCatch
    (if truthy data && negb (equals data "null") && negb (equals data "undefined")
     then
       onMonitor (Monitor.setShouldShowErrorOnTimeout false) ;;;
       match data with
       | Some token => setItem "access_token" token
       | None => done tt
       end
     else done tt)
    (fun _ => done tt).

Definition handleLogout (data : option string) : Async unit :=
  tryCatch
    (onMonitor (Monitor.setShouldShowErrorOnTimeout false) ;;;
     removeItem "fcm_token" ;;;
     removeItem "access_token" ;;;
     removeItem "user_data" ;;;
     executeJavaScript (LogoutResult true "Logout completed successfully"))
    (fun error => executeJavaScript (LogoutResult false (describe error))).

(** The promise of the last branch resolves to [null] 2000 ms after the
    script is injected; the value is what the caller's [await] gets. *)
Definition getAccessToken : Async (option string) :=
  tryCatch
    (fun st =>
       match webViewRef st with
       | None => done None st
       | Some _ =>
           (storedToken <~ getItem "access_token" ;;
            if truthy storedToken then done storedToken
            else
              (fun st' =>
                 match webViewRef st' with
                 | Some _ => emit (InjectJavaScript PostAccessToken) st'
                 | None => done tt st'
                 end) ;;;
              done None) st
       end)
    (fun _ => done None).

Definition sendFCMTokenToBackend (fcmToken : string) : Async bool :=
  tryCatch
    (accessToken <~ getAccessToken ;;
     match accessToken with
     | Some token =>
         if truthy accessToken then
           emit (SaveTokenToBackend fcmToken token) ;;;
           if saveTokenToBackend fcmToken token then
             setItem "fcm_token" fcmToken ;;; done true
           else done false
         else done false
     | None => done false
     end)
    (fun _ => done false).

Definition sendFCMTokenToBackendWithToken (fcmToken accessToken : string) : Async bool :=
  tryCatch
    (emit (SaveTokenToBackend fcmToken accessToken) ;;;
     if saveTokenToBackend fcmToken accessToken then
       setItem "fcm_token" fcmToken ;;; done true
     else done false)
    (fun _ => done false).

End Environment.

Definition Script_eqb (a b : Script) : bool :=
  match a, b with
  | PostAccessTokenResponse, PostAccessTokenResponse => true
  | LogoutResult s m, LogoutResult t n => Bool.eqb s t && String.eqb m n
  | SendAccessToken, SendAccessToken => true
  | PostAccessToken, PostAccessToken => true
  | InjectionScript, InjectionScript => true
  | _, _ => false
  end.

Definition isInjection (code : Script) (e : Effect) : bool :=
  match e with
  | InjectJavaScript c => Script_eqb c code
  | _ => false
  end.

(** The number of times [code] has been injected. *)
Definition injections (code : Script) (t : list Effect) : nat :=
  List.length (filter (isInjection code) t).

End WebViewServiceHandlers.

(** ** Runs of the supervisor: what the statements about event sequences
    count *)

Module AZVWebViewRuns.

Import AZVWebView.

(** The two commands that recover the renderer. *)
Definition isRecovery (e : Effect) : bool :=
  match e with
  | Reload | Remount => true
  | _ => false
  end.

Definition recoveries (t : list Effect) : nat :=
  List.length (filter isRecovery t).

(** Events whose handlers reach the renderer's recovery commands only
    through [safeReload], with the clock not running backwards. *)
Definition debounced (ev : Event) : bool :=
  match ev with
  | RenderProcessGone _ => false
  | Elapse ms => 0 <=? ms
  | _ => true
  end.

(** The time that passes during a sequence of events. *)
Definition elapsed (evs : list Event) : Z :=
  fold_right (fun ev total => match ev with
                              | Elapse ms => ms + total
                              | _ => total
                              end) 0 evs.

End AZVWebViewRuns.

(** * Properties of the recovery supervisor *)

Module AZVWebViewFacts.

Import AZVWebView.

(** Runs a handler on a symbolic state. *)
Ltac run_handler := unfold exec, execState; simpl.

(** Splits on every test the goal is still blocked on. *)
Ltac split_tests :=
  repeat match goal with
    | |- context [match ?x with _ => _ end] => destruct x eqn:?; simpl
    end.

Lemma exec_hardRemount (s : State) :
  exec hardRemount s =
  with_trace (trace s ++ [Remount]) (with_webKey (webKey s + 1) (with_isLoading true s)).
Proof. reflexivity. Qed.

Lemma exec_softReload (s : State) :
  exec softReload s =
  match webViewRef s with
  | Some _ => with_trace (trace s ++ [Reload]) (with_isLoading true s)
  | None => exec hardRemount s
  end.
Proof. unfold softReload. run_handler. destruct (webViewRef s); reflexivity. Qed.

Lemma exec_safeReload_debounced (hard : bool) (s : State) :
  clock s - lastReloadRef s < 1500 -> exec (safeReload hard) s = s.
Proof.
  intros Hd. unfold safeReload. run_handler.
  destruct (Z.ltb_spec (clock s - lastReloadRef s) 1500); [reflexivity | lia].
Qed.

Lemma exec_safeReload_accepted (hard : bool) (s : State) :
  1500 <= clock s - lastReloadRef s ->
  exec (safeReload hard) s =
  if hard || (reloadAttemptsRef s + 1 >=? 3)
  then exec hardRemount (with_reloadAttemptsRef 0 (counted s))
  else exec softReload (counted s).
Proof.
  intros Hd. unfold safeReload. run_handler.
  destruct (Z.ltb_spec (clock s - lastReloadRef s) 1500); [lia |]. simpl.
  destruct (hard || (reloadAttemptsRef s + 1 >=? 3)); reflexivity.
Qed.

(** Debounce of the iOS termination handler, which goes through [safeReload]. *)
Lemma onContentProcessDidTerminate_debounced (s : State) :
  clock s - lastReloadRef s < 1500 -> exec onContentProcessDidTerminate s = s.
Proof. apply exec_safeReload_debounced. Qed.

(** A termination signal outside the debounce window remounts whatever the
    attempt count, and leaves the count at 0. *)
Lemma onContentProcessDidTerminate_accepted (s : State) :
  1500 <= clock s - lastReloadRef s ->
  let s' := exec onContentProcessDidTerminate s in
  trace s' = trace s ++ [Remount] /\ webKey s' = webKey s + 1 /\
  reloadAttemptsRef s' = 0 /\ lastReloadRef s' = clock s.
Proof.
  intros Hd. unfold onContentProcessDidTerminate.
  rewrite exec_safeReload_accepted by exact Hd. simpl. repeat split.
Qed.

(** [onRenderProcessGone] never reads or writes the debounce and escalation
    refs: it always issues a command. *)
Lemma onRenderProcessGone_unconditional (didCrash : bool) (s : State) :
  let s' := exec (onRenderProcessGone didCrash) s in
  (exists e, trace s' = trace s ++ [e]) /\
  lastReloadRef s' = lastReloadRef s /\
  reloadAttemptsRef s' = reloadAttemptsRef s.
Proof.
  unfold onRenderProcessGone. destruct didCrash.
  - rewrite exec_hardRemount. simpl. repeat split. now exists Remount.
  - rewrite exec_softReload. destruct (webViewRef s); simpl; repeat split;
      [now exists Reload | now exists Remount].
Qed.

Lemma handleWebViewLoadEnd_resets (s : State) :
  reloadAttemptsRef (exec handleWebViewLoadEnd s) = 0.
Proof. reflexivity. Qed.

(** When [safeReload] itself decides on the remount, the count is 0 after. *)
Lemma safeReload_escalation_resets (hard : bool) (s : State) :
  1500 <= clock s - lastReloadRef s ->
  hard || (reloadAttemptsRef s + 1 >=? 3) = true ->
  let s' := exec (safeReload hard) s in
  trace s' = trace s ++ [Remount] /\ reloadAttemptsRef s' = 0.
Proof.
  intros Hd Hesc. rewrite exec_safeReload_accepted by exact Hd.
  rewrite Hesc. split; reflexivity.
Qed.

(** The refs [safeReload] and the crash handlers leave alone. *)
Lemma safeReload_pongCounterRef (hard : bool) (s : State) :
  pongCounterRef (exec (safeReload hard) s) = pongCounterRef s.
Proof.
  destruct (Z.lt_ge_cases (clock s - lastReloadRef s) 1500) as [Hd | Hd].
  - now rewrite exec_safeReload_debounced.
  - rewrite exec_safeReload_accepted by exact Hd.
    destruct (hard || _); [reflexivity |].
    rewrite exec_softReload. simpl. destruct (webViewRef s); reflexivity.
Qed.

Lemma onRenderProcessGone_pongCounterRef (didCrash : bool) (s : State) :
  pongCounterRef (exec (onRenderProcessGone didCrash) s) = pongCounterRef s.
Proof.
  unfold onRenderProcessGone. destruct didCrash; [reflexivity |].
  rewrite exec_softReload. destruct (webViewRef s); reflexivity.
Qed.

Lemma heartbeatTimeout_pongCounterRef (b : Z) (s : State) :
  pongCounterRef (exec (heartbeatTimeout b) s) = pongCounterRef s.
Proof.
  unfold heartbeatTimeout, exec, execState. simpl.
  destruct (pongCounterRef s =? b); [apply safeReload_pongCounterRef | reflexivity].
Qed.

Lemma exec_heartbeatTimeout (b : Z) (s : State) :
  exec (heartbeatTimeout b) s =
  if pongCounterRef s =? b then exec (safeReload false) s else s.
Proof.
  unfold heartbeatTimeout, exec, execState. simpl.
  destruct (pongCounterRef s =? b); reflexivity.
Qed.

Lemma exec_fireTimeout (index : nat) (s : State) :
  exec (fireTimeout index) s =
  match nth_error (timers s) index with
  | Some t =>
      if due t <=? clock s
      then exec (heartbeatTimeout (before t)) (with_timers (remove_nth index (timers s)) s)
      else s
  | None => s
  end.
Proof.
  unfold fireTimeout, exec, execState. simpl.
  destruct (nth_error (timers s) index) as [t |]; [| reflexivity].
  destruct (due t <=? clock s); reflexivity.
Qed.

Lemma exec_onAppStateChange_active (s : State) :
  exec (onAppStateChange active) s =
  with_timers (timers s ++ [mkTimer (clock s + 1200) (pongCounterRef s)])
    match webViewRef s with
    | Some _ =>
        with_trace (trace s ++ [InjectJavaScript (PongProbe (String_of_number (clock s)))]) s
    | None => s
    end.
Proof.
  unfold onAppStateChange. run_handler. destruct (webViewRef s); reflexivity.
Qed.

Lemma nth_error_snoc {A : Type} (l : list A) (x : A) :
  nth_error (l ++ [x]) (List.length l) = Some x.
Proof. induction l; simpl; auto. Qed.

Lemma remove_nth_snoc {A : Type} (l : list A) (x : A) :
  remove_nth (List.length l) (l ++ [x]) = l.
Proof. induction l; simpl; [reflexivity | now f_equal]. Qed.

(** X1: inside the debounce window [safeReload] returns at once, for a soft
    and for a forced request alike, and so does the termination handler:
    no ref changes and nothing is issued. *)
Theorem safeReload_debounce_uniform (hard : bool) (s : State) :
  clock s - lastReloadRef s < 1500 ->
  exec (safeReload hard) s = s /\ exec onContentProcessDidTerminate s = s.
Proof.
  intros Hd. split; [| unfold onContentProcessDidTerminate];
    unfold safeReload; run_handler;
    destruct (Z.ltb_spec (clock s - lastReloadRef s) 1500); reflexivity || lia.
Qed.

Lemma safeReload_debounce_uniform_witness :
  let s := elapse 1499 (exec (safeReload false) mounted) in
  exec (safeReload true) s = s /\ exec onContentProcessDidTerminate s = s.
Proof.
  apply (safeReload_debounce_uniform true
           (elapse 1499 (exec (safeReload false) mounted))).
  simpl. lia.
Defined.

(** X2: a forced request outside the debounce window remounts whatever the
    attempt count, records the time, and leaves the count at 0. *)
Theorem forced_request_remounts (s : State) :
  1500 <= clock s - lastReloadRef s ->
  let s' := exec (safeReload true) s in
  trace s' = trace s ++ [Remount] /\
  webKey s' = webKey s + 1 /\
  reloadAttemptsRef s' = 0 /\
  lastReloadRef s' = clock s.
Proof.
  intros Hd. unfold safeReload. run_handler.
  destruct (Z.ltb_spec (clock s - lastReloadRef s) 1500); [lia |].
  simpl. repeat split.
Qed.

Lemma forced_request_remounts_witness :
  let s := elapse 1500 (exec (safeReload false) mounted) in
  trace (exec (safeReload true) s) = [Reload; Remount] /\
  reloadAttemptsRef (exec (safeReload true) s) = 0.
Proof.
  pose proof (forced_request_remounts
                (elapse 1500 (exec (safeReload false) mounted))) as Hforced.
  cbv zeta in Hforced. cbv zeta.
  destruct Hforced as [Htrace [_ [Hcount _]]]; [simpl; lia |].
  split; [exact Htrace | exact Hcount].
Defined.

(** X3: whenever [safeReload] itself chooses the remount (a forced request,
    or the third counted attempt), the attempt count is 0 afterwards; and it
    is 0 after every load end. *)
Theorem safeReload_remount_resets_attempts (hard : bool) (s : State) :
  1500 <= clock s - lastReloadRef s ->
  hard = true \/ 2 <= reloadAttemptsRef s ->
  let s' := exec (safeReload hard) s in
  trace s' = trace s ++ [Remount] /\
  reloadAttemptsRef s' = 0 /\
  reloadAttemptsRef (exec handleWebViewLoadEnd s) = 0.
Proof.
  intros Hd Hesc. unfold safeReload. run_handler.
  destruct (Z.ltb_spec (clock s - lastReloadRef s) 1500); [lia |]. simpl.
  assert (Htest : hard || (reloadAttemptsRef s + 1 >=? 3) = true).
  { destruct Hesc as [-> | Hcount]; [reflexivity |].
    destruct (Z.geb_spec (reloadAttemptsRef s + 1) 3); [| lia].
    apply orb_true_r. }
  rewrite Htest. repeat split.
Qed.

Lemma safeReload_remount_resets_attempts_witness :
  let s := with_reloadAttemptsRef 2 mounted in
  trace (exec (safeReload false) s) = [Remount] /\
  reloadAttemptsRef (exec (safeReload false) s) = 0 /\
  reloadAttemptsRef (exec handleWebViewLoadEnd s) = 0.
Proof.
  apply (safeReload_remount_resets_attempts false (with_reloadAttemptsRef 2 mounted));
    [simpl; lia | right; simpl; lia].
Defined.

(** C1 (fails on [onRenderProcessGone]): 100 ms after an accepted recovery
    action, [safeReload] and the termination handler drop the request, but a
    render-process-gone signal still commands the renderer: a remount when
    [didCrash] is set, an in-place reload otherwise.  The debounce is not
    uniform over the crash signals. *)
Theorem renderProcessGone_ignores_debounce (JSON_parse : string -> option JSON) :
  let s1 := run JSON_parse [HttpError (Some 503); Elapse 100] mounted in
  trace s1 = [Reload] /\
  clock s1 - lastReloadRef s1 = 100 /\
  exec (safeReload false) s1 = s1 /\
  exec (safeReload true) s1 = s1 /\
  exec onContentProcessDidTerminate s1 = s1 /\
  trace (exec (onRenderProcessGone true) s1) = [Reload; Remount] /\
  webKey (exec (onRenderProcessGone true) s1) = webKey s1 + 1 /\
  trace (exec (onRenderProcessGone false) s1) = [Reload; Reload].
Proof. repeat split. Qed.

(** C2: from attempt count 0, three non-forced requests, the first outside
    the debounce window and each next one at least 1500 ms after the one
    before, with no load completion between them, reload in place twice and
    then remount; the attempt count is 0 afterwards. *)
Theorem three_requests_escalate (s : State) (w : WebView) (d1 d2 : Z) :
  reloadAttemptsRef s = 0 ->
  webViewRef s = Some w ->
  1500 <= clock s - lastReloadRef s ->
  1500 <= d1 ->
  1500 <= d2 ->
  let s1 := exec (safeReload false) s in
  let s2 := exec (safeReload false) (elapse d1 s1) in
  let s3 := exec (safeReload false) (elapse d2 s2) in
  trace s1 = trace s ++ [Reload] /\
  trace s2 = trace s ++ [Reload; Reload] /\
  trace s3 = trace s ++ [Reload; Reload; Remount] /\
  webKey s2 = webKey s /\
  webKey s3 = webKey s + 1 /\
  reloadAttemptsRef s3 = 0.
Proof.
  intros Hzero Href Hd0 Hd1 Hd2.
  rewrite (exec_safeReload_accepted false s) by exact Hd0.
  rewrite Hzero. simpl. rewrite exec_softReload. simpl. rewrite Href.
  rewrite exec_safeReload_accepted by (simpl; lia).
  simpl. rewrite Hzero. simpl. rewrite exec_softReload. simpl. rewrite Href.
  rewrite exec_safeReload_accepted by (simpl; lia).
  simpl. rewrite Hzero. simpl.
  rewrite <- !app_assoc. simpl. repeat split.
Qed.

Lemma three_requests_escalate_witness :
  let s1 := exec (safeReload false) mounted in
  let s2 := exec (safeReload false) (elapse 2000 s1) in
  let s3 := exec (safeReload false) (elapse 2000 s2) in
  trace s1 = trace mounted ++ [Reload] /\
  trace s2 = trace mounted ++ [Reload; Reload] /\
  trace s3 = trace mounted ++ [Reload; Reload; Remount] /\
  webKey s2 = webKey mounted /\
  webKey s3 = webKey mounted + 1 /\
  reloadAttemptsRef s3 = 0.
Proof.
  apply (three_requests_escalate mounted WebViewInstance 2000 2000);
    [reflexivity | reflexivity | simpl; lia | lia | lia].
Defined.

(** The scenario of the specification: 503 at t = 0, 2000 and 4000. *)
Example three_503_responses (JSON_parse : string -> option JSON) :
  trace (run JSON_parse
           [HttpError (Some 503); Elapse 2000; HttpError (Some 503); Elapse 2000;
            HttpError (Some 503)] mounted)
  = [Reload; Reload; Remount].
Proof. reflexivity. Qed.

(** C3: with the WebView mounted, a change of the app state to [active]
    injects exactly one pong probe, captures the pong counter and arms one
    timeout due 1200 ms later, touching nothing else.  A timeout that is due
    runs once: with the counter still at the captured value it calls
    [safeReload()] (non-forced), otherwise it does nothing; before it is due
    it does not run.  From attempt count 0 with no recovery action in the
    debounce window, a probe left unanswered until its timeout runs, 1200 ms
    or more after the injection, ends in one in-place reload. *)
Theorem heartbeat_probe (JSON_parse : string -> option JSON) (s : State) (w : WebView) :
  webViewRef s = Some w ->
  let s1 := exec (onAppStateChange active) s in
  trace s1 = trace s ++ [InjectJavaScript (PongProbe (String_of_number (clock s)))] /\
  timers s1 = timers s ++ [mkTimer (clock s + 1200) (pongCounterRef s)] /\
  s1 = with_timers (timers s1) (with_trace (trace s1) s) /\
  (forall (index : nat) (t : Timer) (s2 : State),
      nth_error (timers s2) index = Some t ->
      let rest := with_timers (remove_nth index (timers s2)) s2 in
      (due t <= clock s2 -> pongCounterRef s2 = before t ->
       exec (fireTimeout index) s2 = exec (safeReload false) rest) /\
      (due t <= clock s2 -> pongCounterRef s2 <> before t ->
       exec (fireTimeout index) s2 = rest) /\
      (clock s2 < due t -> exec (fireTimeout index) s2 = s2)) /\
  (forall delay,
     reloadAttemptsRef s = 0 ->
     1200 <= delay ->
     1500 <= clock s + delay - lastReloadRef s ->
     let s3 := run JSON_parse
                 [AppStateChange active; Elapse delay; TimeoutFires (List.length (timers s))] s in
     trace s3 = trace s1 ++ [Reload] /\ webKey s3 = webKey s /\ timers s3 = timers s).
Proof.
  intros Href. rewrite exec_onAppStateChange_active. rewrite Href. simpl.
  split; [reflexivity |]. split; [reflexivity |]. split; [reflexivity |]. split.
  - intros index t s2 Hnth. rewrite exec_fireTimeout, Hnth.
    rewrite exec_heartbeatTimeout. simpl. repeat split.
    + intros Hdue Heq. destruct (Z.leb_spec (due t) (clock s2)); [| lia].
      destruct (Z.eqb_spec (pongCounterRef s2) (before t)); [reflexivity | contradiction].
    + intros Hdue Hneq. destruct (Z.leb_spec (due t) (clock s2)); [| lia].
      destruct (Z.eqb_spec (pongCounterRef s2) (before t)); [contradiction | reflexivity].
    + intros Hearly. destruct (Z.leb_spec (due t) (clock s2)); [lia | reflexivity].
  - intros delay Hzero Hdelay Hquiet. unfold run. simpl fold_left.
    rewrite exec_onAppStateChange_active. rewrite Href.
    change (exec (update (elapse delay)) ?x) with (elapse delay x).
    rewrite exec_fireTimeout. simpl.
    rewrite nth_error_snoc. simpl.
    destruct (Z.leb_spec (clock s + 1200) (clock s + delay)); [| lia].
    rewrite exec_heartbeatTimeout. simpl. rewrite Z.eqb_refl.
    rewrite exec_safeReload_accepted by (simpl; lia).
    simpl. rewrite Hzero. simpl. rewrite exec_softReload. simpl. rewrite Href.
    simpl. rewrite remove_nth_snoc. repeat split.
Qed.

Lemma heartbeat_probe_witness :
  trace (exec (onAppStateChange active) mounted)
  = [InjectJavaScript (PongProbe "1700000000000")] /\
  trace (run (fun _ => None) [AppStateChange active; Elapse 1200; TimeoutFires 0] mounted)
  = [InjectJavaScript (PongProbe "1700000000000"); Reload].
Proof.
  pose proof (heartbeat_probe (fun _ => None) mounted WebViewInstance eq_refl)
    as [Hinject [_ [_ [_ Hfresh]]]].
  split; [exact Hinject |].
  apply (Hfresh 1200 eq_refl); [lia | simpl; lia].
Defined.

(** C4 (fails on [onRenderProcessGone]): after one counted soft attempt, a
    render-process-gone signal with [didCrash] remounts the WebView and
    leaves the attempt count at 1, while the same signal routed through
    [safeReload(true)], as the termination handler does, leaves it at 0. *)
Theorem renderProcessGone_crash_keeps_attempts (JSON_parse : string -> option JSON) :
  let s1 := run JSON_parse [HttpError (Some 503); Elapse 2000] mounted in
  let s2 := exec (onRenderProcessGone true) s1 in
  reloadAttemptsRef s1 = 1 /\
  trace s2 = trace s1 ++ [Remount] /\
  webKey s2 = webKey s1 + 1 /\
  reloadAttemptsRef s2 = 1 /\
  trace (exec onContentProcessDidTerminate s1) = trace s1 ++ [Remount] /\
  reloadAttemptsRef (exec onContentProcessDidTerminate s1) = 0 /\
  reloadAttemptsRef (exec handleWebViewLoadEnd s2) = 0.
Proof. repeat split. Qed.

(** C5: a status of 500 or more, or 0, makes exactly the call
    [safeReload()]: dropped inside the debounce window, one renderer command
    outside it.  Any other status, every 4xx among them, and a missing
    status change nothing and issue nothing. *)
Theorem onHttpError_policy (s : State) :
  (forall status, 500 <= status \/ status = 0 ->
     exec (onHttpError (Some status)) s = exec (safeReload false) s) /\
  (forall status, 500 <= status \/ status = 0 ->
     clock s - lastReloadRef s < 1500 ->
     exec (onHttpError (Some status)) s = s) /\
  (forall status, 500 <= status \/ status = 0 ->
     1500 <= clock s - lastReloadRef s ->
     exists e, (e = Reload \/ e = Remount) /\
       trace (exec (onHttpError (Some status)) s) = trace s ++ [e]) /\
  (forall status, status < 500 -> status <> 0 ->
     exec (onHttpError (Some status)) s = s) /\
  (forall status, 400 <= status <= 499 ->
     exec (onHttpError (Some status)) s = s) /\
  exec (onHttpError None) s = s.
Proof.
  assert (Hreq : forall status, 500 <= status \/ status = 0 ->
            exec (onHttpError (Some status)) s = exec (safeReload false) s).
  { intros status Hst. unfold onHttpError.
    destruct (Z.geb_spec status 500); [reflexivity |].
    destruct (Z.eqb_spec status 0); [reflexivity | lia]. }
  assert (Hnone : forall status, status < 500 -> status <> 0 ->
            exec (onHttpError (Some status)) s = s).
  { intros status Hlt Hnz. unfold onHttpError.
    destruct (Z.geb_spec status 500); [lia |].
    destruct (Z.eqb_spec status 0); [contradiction | reflexivity]. }
  repeat apply conj.
  - exact Hreq.
  - intros status Hst Hd. rewrite Hreq by exact Hst.
    now apply exec_safeReload_debounced.
  - intros status Hst Hd. rewrite Hreq by exact Hst.
    rewrite exec_safeReload_accepted by exact Hd. simpl.
    destruct (reloadAttemptsRef s + 1 >=? 3).
    + exists Remount. split; [now right | reflexivity].
    + rewrite exec_softReload. simpl. destruct (webViewRef s).
      * exists Reload. split; [now left | reflexivity].
      * exists Remount. split; [now right | reflexivity].
  - exact Hnone.
  - intros status Hst. apply Hnone; lia.
  - reflexivity.
Qed.

Section MessageFacts.

Variable JSON_parse : string -> option JSON.

Lemma handle_pongCounterRef_mono (ev : Event) (s : State) :
  pongCounterRef s <= pongCounterRef (exec (handle JSON_parse ev) s).
Proof.
  destruct ev as [ms | status | index | statusCode | | didCrash | | raw | ref];
    unfold handle.
  - run_handler; lia.
  - destruct status; try (run_handler; lia).
    rewrite exec_onAppStateChange_active. destruct (webViewRef s); run_handler; lia.
  - rewrite exec_fireTimeout.
    destruct (nth_error (timers s) index) as [t |]; [| lia].
    destruct (due t <=? clock s); [| lia].
    rewrite heartbeatTimeout_pongCounterRef. run_handler; lia.
  - destruct statusCode as [status |]; unfold onHttpError; [| run_handler; lia].
    destruct ((status >=? 500) || (status =? 0)); [| run_handler; lia].
    rewrite safeReload_pongCounterRef. lia.
  - unfold onContentProcessDidTerminate. rewrite safeReload_pongCounterRef. lia.
  - rewrite onRenderProcessGone_pongCounterRef. lia.
  - run_handler; lia.
  - unfold handleMessage. destruct (JSON_parse raw) as [data |]; [| run_handler; lia].
    destruct (strict_eq_string (optional_member data "t") "pong"); run_handler; lia.
  - run_handler; lia.
Qed.

Lemma run_pongCounterRef_mono (evs : list Event) (s : State) :
  pongCounterRef s <= pongCounterRef (run JSON_parse evs s).
Proof.
  revert s. induction evs as [| ev evs IH]; intros s; simpl; [lia |].
  etransitivity; [apply (handle_pongCounterRef_mono ev) | apply IH].
Qed.

(** C8: a message that parses to an object whose [t] is ["pong"] adds
    exactly one to the pong counter and does nothing else, whatever its
    token and other fields; no message, and no other event, ever lowers the
    counter. *)
Theorem pong_counter_counts_acks (s : State) :
  (forall raw data,
     JSON_parse raw = Some data ->
     optional_member data "t" = Some (JString "pong") ->
     exec (handleMessage JSON_parse raw) s
     = with_pongCounterRef (pongCounterRef s + 1) s) /\
  (forall raw token rest,
     JSON_parse raw = Some (JObject (("t", JString "pong") :: ("token", token) :: rest)) ->
     pongCounterRef (exec (handleMessage JSON_parse raw) s) = pongCounterRef s + 1) /\
  (forall raw, pongCounterRef s <= pongCounterRef (exec (handleMessage JSON_parse raw) s)) /\
  (forall evs, pongCounterRef s <= pongCounterRef (run JSON_parse evs s)).
Proof.
  repeat apply conj.
  - intros raw data Hparse Ht. unfold handleMessage. rewrite Hparse, Ht. reflexivity.
  - intros raw token rest Hparse. unfold handleMessage. rewrite Hparse. reflexivity.
  - intros raw. apply (handle_pongCounterRef_mono (Message raw)).
  - intros evs. apply run_pongCounterRef_mono.
Qed.

End MessageFacts.

(** C9: with a null ref, [softReload] does what [hardRemount] does, so a
    call of [safeReload] that gets past the debounce test always issues
    exactly one recovery command, a reload or a remount. *)
Theorem softReload_null_ref_remounts (s : State) :
  (webViewRef s = None ->
     exec softReload s = exec hardRemount s /\
     trace (exec softReload s) = trace s ++ [Remount] /\
     webKey (exec softReload s) = webKey s + 1) /\
  (forall hard, webViewRef s = None ->
     1500 <= clock s - lastReloadRef s ->
     trace (exec (safeReload hard) s) = trace s ++ [Remount]) /\
  (forall hard,
     1500 <= clock s - lastReloadRef s ->
     exists e, (e = Reload \/ e = Remount) /\
       trace (exec (safeReload hard) s) = trace s ++ [e]).
Proof.
  repeat apply conj.
  - intros Href. rewrite exec_softReload, Href. repeat apply conj; reflexivity.
  - intros hard Href Hd. rewrite exec_safeReload_accepted by exact Hd.
    destruct (hard || _); [reflexivity |].
    rewrite exec_softReload. simpl. rewrite Href. reflexivity.
  - intros hard Hd. rewrite exec_safeReload_accepted by exact Hd.
    destruct (hard || _).
    + exists Remount. split; [now right | reflexivity].
    + rewrite exec_softReload. simpl. destruct (webViewRef s).
      * exists Reload. split; [now left | reflexivity].
      * exists Remount. split; [now right | reflexivity].
Qed.

End AZVWebViewFacts.

(** * Properties of the fallback screen *)

Module ConnectionManagerWrapperFacts.

Import ConnectionManagerWrapper.

Section WrapperFacts.

Context {M : Type} `{ConnectionMonitor M}.

Ltac run_wrapper := unfold exec, execState; simpl.

Lemma exec_onConnectionChange (status : ConnectionStatus) (s : State M) :
  let s' := exec (onConnectionChange status) s in
  connectionMonitor s' = connectionMonitor s /\
  currentScreen s' =
    if isInitialAppLoad (connectionMonitor s)
       && (negb (isConnected status) || loadingTime_exceeds status 5000)
    then connection_error
    else if isConnected status && loadingTime_within status 5000
    then webview
    else currentScreen s.
Proof.
  unfold onConnectionChange. run_wrapper.
  destruct (isInitialAppLoad (connectionMonitor s)
            && (negb (isConnected status) || loadingTime_exceeds status 5000));
    [split; reflexivity |].
  destruct (isConnected status && loadingTime_within status 5000); split; reflexivity.
Qed.

Lemma loadingTime_exceeds_iff (status : ConnectionStatus) (bound : Z) :
  0 <= bound ->
  loadingTime_exceeds status bound = true <->
  exists t, loadingTime status = Some t /\ bound < t.
Proof.
  intros Hb. unfold loadingTime_exceeds. destruct (loadingTime status) as [t |].
  - rewrite andb_true_iff, negb_true_iff, Z.eqb_neq, Z.gtb_ltb, Z.ltb_lt. split.
    + intros [_ Hgt]. exists t. split; [reflexivity | exact Hgt].
    + intros [t' [Heq Hgt]]. injection Heq as <-. split; lia.
  - split; [discriminate | intros [t [Heq _]]; discriminate].
Qed.

(** C6: a status change moves the screen from [webview] to
    [connection_error] only when the monitor reports the initial load and
    the status is disconnected or carries a loading time above 5000 ms, and
    under those conditions it always shows [connection_error].  While the
    monitor reports that the initial load is over, no status change, and no
    sequence of them, brings a screen that is not [connection_error] to
    [connection_error]. *)
Theorem connection_error_needs_initial_load (status : ConnectionStatus) (s : State M) :
  let s' := exec (onConnectionChange status) s in
  let failing :=
    isConnected status = false \/ exists t, loadingTime status = Some t /\ 5000 < t in
  (currentScreen s = webview -> currentScreen s' = connection_error ->
     isInitialAppLoad (connectionMonitor s) = true /\ failing) /\
  (isInitialAppLoad (connectionMonitor s) = true -> failing ->
     currentScreen s' = connection_error) /\
  (isInitialAppLoad (connectionMonitor s) = false ->
     currentScreen s <> connection_error -> currentScreen s' <> connection_error) /\
  (isInitialAppLoad (connectionMonitor s) = false ->
     currentScreen s <> connection_error ->
     forall statuses,
       currentScreen (fold_left (fun st x => exec (onConnectionChange x) st) statuses s)
       <> connection_error).
Proof.
  assert (Hstep : forall st x,
            isInitialAppLoad (connectionMonitor st) = false ->
            currentScreen st <> connection_error ->
            currentScreen (exec (onConnectionChange x) st) <> connection_error).
  { intros st x Hinit Hscreen.
    destruct (exec_onConnectionChange x st) as [_ ->]. rewrite Hinit. simpl.
    destruct (isConnected x && loadingTime_within x 5000); [discriminate | exact Hscreen]. }
  assert (Hseq : forall statuses st,
            isInitialAppLoad (connectionMonitor st) = false ->
            currentScreen st <> connection_error ->
            currentScreen (fold_left (fun st' x => exec (onConnectionChange x) st')
                             statuses st)
            <> connection_error).
  { induction statuses as [| x xs IH]; intros st Hinit Hscreen; simpl.
    - exact Hscreen.
    - apply IH; [| now apply Hstep].
      destruct (exec_onConnectionChange x st) as [-> _]. exact Hinit. }
  destruct (exec_onConnectionChange status s) as [Hmon Hscr].
  cbv zeta. repeat apply conj.
  - intros Hweb Herr. rewrite Hscr, Hweb in Herr.
    destruct (isInitialAppLoad (connectionMonitor s)); simpl in Herr.
    + split; [reflexivity |].
      destruct (isConnected status); simpl in Herr; [| now left].
      destruct (loadingTime_exceeds status 5000) eqn:Hslow.
      * right. apply loadingTime_exceeds_iff; [lia | exact Hslow].
      * destruct (loadingTime_within status 5000); discriminate.
    + destruct (isConnected status && loadingTime_within status 5000); discriminate.
  - intros Hinit Hfail. rewrite Hscr, Hinit. simpl.
    destruct Hfail as [-> | Hslow]; [reflexivity |].
    apply loadingTime_exceeds_iff in Hslow; [| lia]. rewrite Hslow.
    now rewrite orb_true_r.
  - apply Hstep.
  - intros Hinit Hscreen statuses. now apply Hseq.
Qed.

(** What [handleTryAgain] calls on any monitor: after the wait, and only
    when the fetch settled first with an ok response,
    [setShouldShowErrorOnTimeout(true)], [reset()], the screen setter and
    the [onWebViewReload] prop. *)
Lemma handleTryAgain_calls (props : Props) (p : Probe) (s : State M) :
  let s' := exec (handleTryAgain props p) s in
  let m := elapse (waited 3000 p) (connectionMonitor s) in
  isRetrying s' = false /\
  match Promise_race 3000 p with
  | FetchFirst (Resolved status) =>
      if ok status then
        currentScreen s' = webview /\
        connectionMonitor s' = reset (setShouldShowErrorOnTimeout true m) /\
        called s' = called s ++ match onWebViewReload props with
                                | Some c => [c]
                                | None => []
                                end
      else untouched (waited 3000 p) s s'
  | _ => untouched (waited 3000 p) s s'
  end.
Proof.
  cbv zeta. unfold handleTryAgain, handleTryAgain_settled, untouched.
  destruct (Promise_race 3000 p) as [[status |] |]; run_wrapper;
    [destruct (ok status) |..]; try (repeat split; reflexivity).
  simpl. destruct (onWebViewReload props); rewrite ?app_nil_r; repeat split.
Qed.

End WrapperFacts.

(** The race is won by the fetch, with its settlement, or by the timer. *)
Lemma Promise_race_cases (timeoutMs : Z) (p : Probe) :
  Promise_race timeoutMs p = FetchFirst (settlement p)
  \/ Promise_race timeoutMs p = TimeoutFirst.
Proof.
  unfold Promise_race. destruct (settlesAfter p) as [d |]; [| right; reflexivity].
  destruct (_ || _); [left | right]; reflexivity.
Qed.

Lemma fetch_settles_first (timeoutMs d : Z) (p : Probe) :
  settlesAfter p = Some d -> d < timeoutMs ->
  Promise_race timeoutMs p = FetchFirst (settlement p) /\ waited timeoutMs p = d.
Proof.
  intros Hd Hlt. unfold waited, Promise_race. rewrite Hd.
  destruct (Z.ltb_spec d timeoutMs); [| lia]. split; reflexivity.
Qed.

Lemma timer_runs_first (timeoutMs : Z) (p : Probe) :
  settlesAfter p = None \/ (exists d, settlesAfter p = Some d /\ timeoutMs < d) ->
  Promise_race timeoutMs p = TimeoutFirst /\ waited timeoutMs p = timeoutMs.
Proof.
  intros [Hnever | (d & Hd & Hlate)]; unfold waited, Promise_race.
  - rewrite Hnever. split; reflexivity.
  - rewrite Hd. destruct (Z.ltb_spec d timeoutMs); [lia |].
    destruct (Z.eqb_spec d timeoutMs); [lia |]. split; reflexivity.
Qed.

(** The backend answers 200 after 800 ms. *)
Example retry_succeeds :
  exec (handleTryAgain {| onWebViewReload := Some WebViewReload |}
          {| settlesAfter := Some 800; settlement := Resolved 200;
             aheadOfTimerOnTie := false |}) onErrorScreen
  = {| currentScreen := webview;
       connectionMonitor :=
         {| initialAppLoad := true;
            received := [SetShouldShowErrorOnTimeout true; Reset] |};
       isRetrying := false; connected := false; called := [WebViewReload] |}.
Proof. reflexivity. Qed.

(** The backend answers 200, but only after 3500 ms. *)
Example retry_times_out :
  exec (handleTryAgain {| onWebViewReload := Some WebViewReload |}
          {| settlesAfter := Some 3500; settlement := Resolved 200;
             aheadOfTimerOnTie := false |}) onErrorScreen
  = onErrorScreen.
Proof. reflexivity. Qed.

(** The backend answers 503 at once. *)
Example retry_gets_503 :
  exec (handleTryAgain {| onWebViewReload := Some WebViewReload |}
          {| settlesAfter := Some 40; settlement := Resolved 503;
             aheadOfTimerOnTie := false |}) onErrorScreen
  = onErrorScreen.
Proof. reflexivity. Qed.

(** A slow first load: 6200 ms. *)
Example slow_initial_load_shows_error :
  currentScreen
    (exec (onConnectionChange
             {| isConnected := true; loadingTime := Some 6200; isSlow := false;
                url := None; timestamp := 1700000006200 |})
       (initialState {| initialAppLoad := true; received := [] |}))
  = connection_error.
Proof. reflexivity. Qed.

(** The same load once the initial load is over. *)
Example slow_later_load_stays :
  currentScreen
    (exec (onConnectionChange
             {| isConnected := true; loadingTime := Some 6200; isSlow := false;
                url := None; timestamp := 1700000006200 |})
       (initialState {| initialAppLoad := false; received := [] |}))
  = webview.
Proof. reflexivity. Qed.

End ConnectionManagerWrapperFacts.

(** * Properties of the navigation gate *)

Module WebViewServiceFacts.

Import ConnectionManagerWrapper WebViewService.

Section NavigationFacts.

Variable throws : Call -> option Exn.

(** The [try]/[catch] of [handleNavigationRequest] turns every throw of its
    body into the answer [false]. *)
Lemma handleNavigationRequest_completes
    (connectionManager : option ConnectionManagerHandle) (url : string)
    (calls : list Call) :
  exists b calls',
    handleNavigationRequest throws connectionManager url calls = (Normal b, calls') /\
    (forall e, fst (navigationBody throws connectionManager url calls) = Throw e ->
               b = false).
Proof.
  unfold handleNavigationRequest, try_catch.
  destruct (navigationBody throws connectionManager url calls) as [[b | e] calls'].
  - exists b, calls'. split; [reflexivity | discriminate].
  - exists false, calls'. split; [reflexivity | reflexivity].
Qed.

(** C10: when [global.connectionManager] is set, reports no connection and
    reports the error screen as active, [handleNavigationRequest] calls
    [showConnectionError()], makes no other call and answers [false], for
    every url and whether or not that call throws; with the handle the
    wrapper publishes, that call leaves the wrapper on [connection_error].
    For every handle, url and behaviour of the collaborators the function
    completes normally with a boolean, and that boolean is [false] whenever
    its body threw. *)
Theorem handleNavigationRequest_blocks_offline
    (h : ConnectionManagerHandle) (url : string) (calls : list Call) :
  (handle_isConnected h = false -> handle_isOnErrorScreen h = true ->
     handleNavigationRequest throws (Some h) url calls
     = (Normal false, calls ++ [ShowConnectionError])) /\
  (forall (M : Type) (s : State M),
     connected s = false -> currentScreen s = connection_error ->
     handleNavigationRequest throws (Some (publishedHandle s)) url calls
     = (Normal false, calls ++ [ShowConnectionError]) /\
     currentScreen (exec showConnectionError s) = connection_error) /\
  (forall connectionManager url' calls0,
     exists b calls',
       handleNavigationRequest throws connectionManager url' calls0 = (Normal b, calls') /\
       (forall e, fst (navigationBody throws connectionManager url' calls0) = Throw e ->
                  b = false)).
Proof.
  assert (Hblock : forall h0,
            handle_isConnected h0 = false -> handle_isOnErrorScreen h0 = true ->
            handleNavigationRequest throws (Some h0) url calls
            = (Normal false, calls ++ [ShowConnectionError])).
  { intros h0 Hconn Hscreen.
    unfold handleNavigationRequest, try_catch, navigationBody.
    rewrite Hconn, Hscreen. simpl. unfold js_bind, call, js_ret.
    destruct (throws ShowConnectionError); reflexivity. }
  repeat apply conj.
  - apply Hblock.
  - intros M s Hconn Hscreen. split; [| reflexivity].
    apply Hblock; unfold publishedHandle; simpl; [exact Hconn |].
    rewrite Hscreen. reflexivity.
  - intros connectionManager url' calls0. apply handleNavigationRequest_completes.
Qed.

End NavigationFacts.

(** A gate whose external-browser call throws still answers [false]. *)
Example external_browser_throwing :
  handleNavigationRequest
    (fun c => match c with
              | OpenInExternalBrowser _ => Some (Error "no browser")
              | _ => None
              end)
    None "https://example.org/" []
  = (Normal false, [OpenInExternalBrowser "https://example.org/"]).
Proof. reflexivity. Qed.

Example allowed_url_passes :
  handleNavigationRequest (fun _ => None) None "https://g21z9.azvmotors.kz/cars" []
  = (Normal true, []).
Proof. reflexivity. Qed.

Example offline_blocks_allowed_url :
  handleNavigationRequest (fun _ => None)
    (Some {| handle_isConnected := false; handle_isOnErrorScreen := true |})
    "https://g21z9.azvmotors.kz/cars" []
  = (Normal false, [ShowConnectionError]).
Proof. reflexivity. Qed.

End WebViewServiceFacts.

(** * Properties of the connection monitor *)

Module ConnectionMonitorServiceFacts.

Import ConnectionMonitorService.

Ltac run_world := unfold exec, Wrapper.exec, execState; simpl.

Lemma exec_seq (a b : Handler) (w : World) :
  exec (a ;; b) w = exec b (exec a w).
Proof.
  unfold exec, execState. simpl. destruct (runState a w) as [[] w']. reflexivity.
Qed.

Lemma exec_onConnectionChange_world (status : ConnectionStatus) (w : World) :
  exec (Wrapper.onConnectionChange (asReceived status)) w =
  {| Wrapper.currentScreen :=
       screenOn (isInitialLoad (Wrapper.connectionMonitor w)) status
         (Wrapper.currentScreen w);
     Wrapper.connectionMonitor := Wrapper.connectionMonitor w;
     Wrapper.isRetrying := Wrapper.isRetrying w;
     Wrapper.connected := isConnected status;
     Wrapper.called := Wrapper.called w |}.
Proof.
  unfold Wrapper.onConnectionChange, screenOn. run_world.
  unfold isInitialAppLoad.
  destruct (isInitialLoad (Wrapper.connectionMonitor w)
            && (negb (isConnected status)
                || Wrapper.loadingTime_exceeds (asReceived status) 5000));
    [reflexivity |].
  destruct (isConnected status && Wrapper.loadingTime_within (asReceived status) 5000);
    [reflexivity |].
  destruct w; reflexivity.
Qed.

Lemma screenOn_idempotent (initialLoad : bool) (status : ConnectionStatus)
    (screen : Wrapper.ScreenType) :
  screenOn initialLoad status (screenOn initialLoad status screen)
  = screenOn initialLoad status screen.
Proof.
  unfold screenOn.
  destruct (initialLoad && _); [reflexivity |].
  destruct (isConnected status && _); reflexivity.
Qed.

Lemma exec_forEach_deliver (ls : list ConnectionListener) (status : ConnectionStatus)
    (w : World) :
  exec (forEach ls (fun listener => deliver listener status)) w = delivered ls status w.
Proof.
  revert w. induction ls as [| l ls IH]; intros w.
  - unfold delivered. simpl. rewrite app_nil_r. destruct w as [? m ? ? ?].
    destruct m. reflexivity.
  - change (forEach (l :: ls) (fun listener => deliver listener status))
      with (deliver l status ;; forEach ls (fun listener => deliver listener status)).
    rewrite exec_seq, IH. destruct l as [| id].
    + unfold deliver. rewrite exec_seq, exec_onConnectionChange_world. unfold delivered. simpl.
      rewrite screenOn_idempotent, <- app_assoc. simpl.
      destruct (existsb _ ls); reflexivity.
    + unfold delivered. simpl. rewrite <- app_assoc. reflexivity.
Qed.

Lemma exec_updateConnectionStatus (status : PartialStatus) (w : World) :
  let published := spread (connectionStatus (Wrapper.connectionMonitor w)) status in
  exec (updateConnectionStatus status) w
  = delivered (listeners (Wrapper.connectionMonitor w)) published
      (exec (onService (with_connectionStatus published)) w).
Proof.
  unfold updateConnectionStatus. rewrite exec_seq.
  cbv zeta. rewrite <- exec_forEach_deliver. reflexivity.
Qed.

Lemma exec_showConnectionErrorIfManaged (w : World) :
  exec showConnectionErrorIfManaged w
  = if connectionManagerSet (Wrapper.connectionMonitor w)
    then exec Wrapper.showConnectionError w
    else w.
Proof.
  unfold showConnectionErrorIfManaged. run_world.
  destruct (connectionManagerSet (Wrapper.connectionMonitor w)); reflexivity.
Qed.

Lemma exec_bind_service (k : Service -> Handler) (w : World) :
  exec (s <- service ;; k s) w = exec (k (Wrapper.connectionMonitor w)) w.
Proof. reflexivity. Qed.

Lemma exec_onLoadEnd (url : string) (w : World) :
  let s := ended url (Wrapper.connectionMonitor w) in
  exec (onLoadEnd url) w = delivered (listeners s) (connectionStatus s) (withService s w).
Proof.
  cbv zeta. unfold onLoadEnd.
  rewrite exec_bind_service, !exec_seq, exec_updateConnectionStatus. cbv zeta.
  destruct w as [screen s retrying conn called]. destruct s as
    [ls st start thr timeout athr initial should clk sched next managed seen].
  unfold ended. destruct initial, timeout; reflexivity.
Qed.

Lemma exec_onLoadStart (url : string) (w : World) :
  let s := started url (Wrapper.connectionMonitor w) in
  exec (onLoadStart url) w = delivered (listeners s) (connectionStatus s) (withService s w).
Proof.
  cbv zeta. unfold onLoadStart.
  rewrite !exec_seq, exec_bind_service, exec_seq, exec_bind_service,
    exec_updateConnectionStatus. cbv zeta.
  destruct w as [screen s retrying conn called]. destruct s as
    [ls st start thr timeout athr initial should clk sched next managed seen].
  unfold started. destruct initial, should, timeout; reflexivity.
Qed.

Lemma exec_onLoadError (error : option NativeEvent) (url : option string) (w : World) :
  let s := failed url (Wrapper.connectionMonitor w) in
  exec (onLoadError error url) w
  = exec (checkIfServerIsDown error)
      (delivered (listeners s) (connectionStatus s) (withService s w)).
Proof.
  cbv zeta. unfold onLoadError.
  rewrite exec_bind_service, !exec_seq, exec_updateConnectionStatus. cbv zeta.
  reflexivity.
Qed.

Lemma screenOn_connected (initialLoad : bool) (status : ConnectionStatus)
    (screen : Wrapper.ScreenType) (t : Z) :
  isConnected status = true ->
  loadingTime status = Some t ->
  screenOn initialLoad status screen
  = if initialLoad && negb (t =? 0) && (t >? 5000) then Wrapper.connection_error
    else if negb (t =? 0) && (t <=? 5000) then Wrapper.webview
    else screen.
Proof.
  intros Hc Ht. unfold screenOn, Wrapper.loadingTime_exceeds, Wrapper.loadingTime_within.
  simpl. rewrite Hc, Ht. simpl. rewrite andb_assoc. reflexivity.
Qed.

Lemma screenOn_disconnected (initialLoad : bool) (status : ConnectionStatus)
    (screen : Wrapper.ScreenType) :
  isConnected status = false ->
  screenOn initialLoad status screen
  = if initialLoad then Wrapper.connection_error else screen.
Proof.
  intros Hc. unfold screenOn. rewrite Hc. simpl. rewrite andb_true_r. reflexivity.
Qed.

Lemma screenOn_no_loadingTime (initialLoad : bool) (status : ConnectionStatus)
    (screen : Wrapper.ScreenType) :
  isConnected status = true ->
  loadingTime status = None ->
  screenOn initialLoad status screen = screen.
Proof.
  intros Hc Ht. unfold screenOn, Wrapper.loadingTime_exceeds, Wrapper.loadingTime_within.
  simpl. rewrite Hc, Ht. simpl. rewrite andb_false_r. reflexivity.
Qed.

Lemma screen_delivered (s : Service) (status : ConnectionStatus) (w : World) :
  Wrapper.currentScreen (delivered (listeners s) status (withService s w))
  = if listening s then screenOn (isInitialLoad s) status (Wrapper.currentScreen w)
    else Wrapper.currentScreen w.
Proof. reflexivity. Qed.

Lemma service_delivered (s : Service) (status : ConnectionStatus) (w : World) :
  Wrapper.connectionMonitor (delivered (listeners s) status (withService s w))
  = with_notified (notified s ++ map (fun l => (l, status)) (listeners s)) s.
Proof. reflexivity. Qed.

Lemma clearAutoErrorTimeout_keeps (s : Service) :
  let s' := clearAutoErrorTimeout s in
  listeners s' = listeners s /\ isInitialLoad s' = isInitialLoad s /\
  shouldShowErrorOnTimeout s' = shouldShowErrorOnTimeout s /\
  connectionManagerSet s' = connectionManagerSet s /\
  clock s' = clock s /\ loadStartTime s' = loadStartTime s /\
  connectionStatus s' = connectionStatus s /\ notified s' = notified s /\
  nextHandle s' = nextHandle s /\ autoErrorThreshold s' = autoErrorThreshold s /\
  slowConnectionThreshold s' = slowConnectionThreshold s /\
  autoErrorTimeout s' = None.
Proof.
  unfold clearAutoErrorTimeout. destruct (autoErrorTimeout s) eqn:Ht;
    simpl; repeat apply conj; try reflexivity. exact Ht.
Qed.

Lemma after_onLoadEnd (url : string) (w : World) :
  let s := Wrapper.connectionMonitor w in
  let elapsed := clock s - loadStartTime s in
  let w' := exec (onLoadEnd url) w in
  isInitialLoad (Wrapper.connectionMonitor w') = false /\
  loadingTime (connectionStatus (Wrapper.connectionMonitor w')) = Some elapsed /\
  Wrapper.currentScreen w'
  = (if listening s && negb (elapsed =? 0) && (elapsed <=? 5000)
     then Wrapper.webview else Wrapper.currentScreen w).
Proof.
  cbv zeta. rewrite exec_onLoadEnd. cbv zeta.
  set (s := Wrapper.connectionMonitor w).
  destruct (clearAutoErrorTimeout_keeps s) as [Hls _].
  assert (Hlistening : listening (ended url s) = listening s).
  { unfold listening, ended. simpl. cbv zeta in Hls. rewrite Hls. reflexivity. }
  repeat apply conj; try reflexivity.
  rewrite screen_delivered, Hlistening.
  destruct (listening s); [| reflexivity].
  rewrite (screenOn_connected _ _ _ (clock s - loadStartTime s));
    [| reflexivity | reflexivity].
  reflexivity.
Qed.

Lemma after_onLoadError (error : option NativeEvent) (url : option string) (w : World) :
  let s := Wrapper.connectionMonitor w in
  let w' := exec (onLoadError error url) w in
  Wrapper.currentScreen w'
  = (if isServerDown error && connectionManagerSet s then Wrapper.connection_error
     else if listening s && isInitialLoad s then Wrapper.connection_error
     else Wrapper.currentScreen w) /\
  isInitialLoad (Wrapper.connectionMonitor w') = isInitialLoad s /\
  isConnected (connectionStatus (Wrapper.connectionMonitor w')) = false /\
  isSlowOrFailedConnection (Wrapper.connectionMonitor w') = true.
Proof.
  cbv zeta. rewrite exec_onLoadError. cbv zeta.
  set (s := Wrapper.connectionMonitor w).
  destruct (clearAutoErrorTimeout_keeps s) as (Hls & Hinit & _ & Hman & _).
  cbv zeta in Hls, Hinit, Hman.
  assert (Hlistening : listening (failed url s) = listening s).
  { unfold listening, failed. simpl. rewrite Hls. reflexivity. }
  assert (Hinit' : isInitialLoad (failed url s) = isInitialLoad s) by exact Hinit.
  assert (Hman' : connectionManagerSet (failed url s) = connectionManagerSet s)
    by exact Hman.
  assert (Hquiet :
            Wrapper.currentScreen
              (delivered (listeners (failed url s)) (connectionStatus (failed url s))
                 (withService (failed url s) w))
            = if listening s && isInitialLoad s then Wrapper.connection_error
              else Wrapper.currentScreen w).
  { rewrite screen_delivered, Hlistening, Hinit'.
    destruct (listening s); [| reflexivity].
    rewrite screenOn_disconnected by reflexivity. reflexivity. }
  assert (Hserv : Wrapper.connectionMonitor
                    (delivered (listeners (failed url s)) (connectionStatus (failed url s))
                       (withService (failed url s) w))
                  = with_notified
                      (notified (failed url s)
                       ++ map (fun l => (l, connectionStatus (failed url s)))
                            (listeners (failed url s)))
                      (failed url s)) by apply service_delivered.
  set (W := delivered (listeners (failed url s)) (connectionStatus (failed url s))
              (withService (failed url s) w)) in *.
  assert (HmanW : connectionManagerSet (Wrapper.connectionMonitor W)
                  = connectionManagerSet s) by (rewrite Hserv; exact Hman').
  assert (HinitW : isInitialLoad (Wrapper.connectionMonitor W) = isInitialLoad s)
    by (rewrite Hserv; exact Hinit').
  assert (HconnW : isConnected (connectionStatus (Wrapper.connectionMonitor W)) = false)
    by (rewrite Hserv; reflexivity).
  assert (HslowW : isSlowOrFailedConnection (Wrapper.connectionMonitor W) = true)
    by (rewrite Hserv; reflexivity).
  clearbody W.
  unfold checkIfServerIsDown. destruct (isServerDown error).
  - rewrite exec_showConnectionErrorIfManaged, HmanW.
    destruct (connectionManagerSet s); cbn [andb].
    + repeat apply conj; [reflexivity | exact HinitW | exact HconnW | exact HslowW].
    + repeat apply conj; [exact Hquiet | exact HinitW | exact HconnW | exact HslowW].
  - cbn [andb].
    repeat apply conj; [exact Hquiet | exact HinitW | exact HconnW | exact HslowW].
Qed.

(** X4: [onLoadEnd] clears the initial-load flag before it notifies, so the
    wrapper's listener never answers a load end with the error screen:
    with the listener registered the screen becomes [webview] when the load
    took between 1 and 5000 ms (whatever screen was up), and otherwise
    stays as it was. *)
Theorem onLoadEnd_screen (url : string) (w : World) :
  let s := Wrapper.connectionMonitor w in
  let elapsed := clock s - loadStartTime s in
  let w' := exec (onLoadEnd url) w in
  isInitialLoad (Wrapper.connectionMonitor w') = false /\
  loadingTime (connectionStatus (Wrapper.connectionMonitor w')) = Some elapsed /\
  Wrapper.currentScreen w'
  = (if listening s && negb (elapsed =? 0) && (elapsed <=? 5000)
     then Wrapper.webview else Wrapper.currentScreen w) /\
  (Wrapper.currentScreen w <> Wrapper.connection_error ->
   Wrapper.currentScreen w' <> Wrapper.connection_error).
Proof.
  cbv zeta. destruct (after_onLoadEnd url w) as (Hinit & Htime & Hscreen).
  cbv zeta in Hinit, Htime, Hscreen.
  repeat apply conj; [exact Hinit | exact Htime | exact Hscreen |].
  intros Hnot. rewrite Hscreen. destruct (_ && _ && _); [discriminate | exact Hnot].
Qed.

(** X5: the wrapper's listener answers every load error during the initial
    load with the error screen, whatever the error; once the initial load is
    over only an error classified as server-down shows it, and only through
    the global handle.  The flag itself is not touched by an error. *)
Theorem onLoadError_screen (error : option NativeEvent) (url : option string) (w : World) :
  let s := Wrapper.connectionMonitor w in
  let w' := exec (onLoadError error url) w in
  Wrapper.currentScreen w'
  = (if isServerDown error && connectionManagerSet s then Wrapper.connection_error
     else if listening s && isInitialLoad s then Wrapper.connection_error
     else Wrapper.currentScreen w) /\
  isInitialLoad (Wrapper.connectionMonitor w') = isInitialLoad s /\
  isConnected (connectionStatus (Wrapper.connectionMonitor w')) = false /\
  isSlowOrFailedConnection (Wrapper.connectionMonitor w') = true.
Proof. exact (after_onLoadError error url w). Qed.

(** X6: [onLoadStart] does not set [loadingTime], so the status it publishes
    still carries the loading time of the load before.  With the wrapper's
    listener registered, a load start alone therefore brings back [webview]
    when that earlier load took between 1 and 5000 ms, shows the error
    screen when it took longer and the initial load is still on, and
    changes no screen when there was no earlier loading time. *)
Theorem onLoadStart_republishes_loadingTime (url : string) (w : World) :
  let s := Wrapper.connectionMonitor w in
  let w' := exec (onLoadStart url) w in
  loadingTime (connectionStatus (Wrapper.connectionMonitor w'))
  = loadingTime (connectionStatus s) /\
  loadStartTime (Wrapper.connectionMonitor w') = clock s /\
  isSlowOrFailedConnection (Wrapper.connectionMonitor w') = false /\
  (loadingTime (connectionStatus s) = None ->
   Wrapper.currentScreen w' = Wrapper.currentScreen w) /\
  (forall t, listening s = true -> loadingTime (connectionStatus s) = Some t ->
     t <> 0 -> t <= 5000 -> Wrapper.currentScreen w' = Wrapper.webview) /\
  (forall t, listening s = true -> loadingTime (connectionStatus s) = Some t ->
     5000 < t -> isInitialLoad s = true ->
     Wrapper.currentScreen w' = Wrapper.connection_error).
Proof.
  cbv zeta. rewrite exec_onLoadStart. cbv zeta.
  set (s := Wrapper.connectionMonitor w).
  assert (Hshape : listeners (started url s) = listeners s /\
                   isInitialLoad (started url s) = isInitialLoad s /\
                   loadStartTime (started url s) = clock s).
  { unfold started, armAutoErrorTimeout, clearAutoErrorTimeout. simpl.
    destruct (isInitialLoad s && shouldShowErrorOnTimeout s), (autoErrorTimeout s);
      repeat split. }
  destruct Hshape as (Hls & Hinit & Hstart).
  assert (Hlistening : listening (started url s) = listening s).
  { unfold listening. rewrite Hls. reflexivity. }
  assert (Hstatus : connectionStatus (started url s)
                    = {| isConnected := true;
                         loadingTime := loadingTime (connectionStatus s);
                         isSlowConnection := false; requestUrl := Some url;
                         timestamp := clock s |}) by reflexivity.
  rewrite screen_delivered, service_delivered, Hlistening, Hinit, Hstatus.
  repeat apply conj.
  - reflexivity.
  - exact Hstart.
  - reflexivity.
  - intros Hnone. destruct (listening s); [| reflexivity].
    apply screenOn_no_loadingTime; [reflexivity | exact Hnone].
  - intros t -> Ht Hnz Hle.
    rewrite (screenOn_connected _ _ _ t) by (reflexivity || exact Ht).
    destruct (Z.eqb_spec t 0); [contradiction |].
    destruct (Z.gtb_spec t 5000); [lia |].
    destruct (Z.leb_spec t 5000); [| lia].
    rewrite andb_false_r. reflexivity.
  - intros t -> Ht Hgt ->.
    rewrite (screenOn_connected _ _ _ t) by (reflexivity || exact Ht).
    destruct (Z.eqb_spec t 0); [lia |].
    destruct (Z.gtb_spec t 5000); [reflexivity | lia].
Qed.

Lemma scheduled_clearAutoErrorTimeout (s : Service) :
  tidy s -> scheduled (clearAutoErrorTimeout s) = [].
Proof.
  unfold tidy, clearAutoErrorTimeout.
  destruct (scheduled s) as [| t [| t' rest]] eqn:Hs; intros Htidy.
  - destruct (autoErrorTimeout s); simpl; rewrite Hs; reflexivity.
  - rewrite Htidy. simpl. rewrite Hs. simpl. rewrite Nat.eqb_refl. reflexivity.
  - contradiction.
Qed.

Lemma exec_handleTryAgain (props : Wrapper.Props) (probe : Wrapper.Probe) (w : World) :
  let resumed := elapse (Wrapper.waited 3000 probe) (Wrapper.connectionMonitor w) in
  exec (Wrapper.handleTryAgain props probe) w
  = match Wrapper.Promise_race 3000 probe with
    | Wrapper.FetchFirst (Wrapper.Resolved status) =>
        if Wrapper.ok status then
          {| Wrapper.currentScreen := Wrapper.webview;
             Wrapper.connectionMonitor :=
               reset (setShouldShowErrorOnTimeout true resumed);
             Wrapper.isRetrying := false;
             Wrapper.connected := Wrapper.connected w;
             Wrapper.called :=
               Wrapper.called w ++ match Wrapper.onWebViewReload props with
                                   | Some c => [c]
                                   | None => []
                                   end |}
        else
          {| Wrapper.currentScreen := Wrapper.currentScreen w;
             Wrapper.connectionMonitor := resumed;
             Wrapper.isRetrying := false;
             Wrapper.connected := Wrapper.connected w;
             Wrapper.called := Wrapper.called w |}
    | _ =>
        {| Wrapper.currentScreen := Wrapper.currentScreen w;
           Wrapper.connectionMonitor := resumed;
           Wrapper.isRetrying := false;
           Wrapper.connected := Wrapper.connected w;
           Wrapper.called := Wrapper.called w |}
    end.
Proof.
  cbv zeta. unfold Wrapper.handleTryAgain, Wrapper.handleTryAgain_settled.
  destruct (Wrapper.Promise_race 3000 probe) as [[status |] |];
    [| reflexivity | reflexivity].
  unfold exec, execState. simpl. destruct (Wrapper.ok status); [| reflexivity].
  simpl. destruct (Wrapper.onWebViewReload props); rewrite ?app_nil_r; reflexivity.
Qed.

Lemma service_after_event (ev : Event) (w : World) :
  exists seen,
    Wrapper.connectionMonitor (exec (handle_event ev) w)
    = with_notified seen (serviceAfter ev (Wrapper.connectionMonitor w)).
Proof.
  set (s := Wrapper.connectionMonitor w).
  assert (Hself : s = with_notified (notified s) s) by (destruct s; reflexivity).
  destruct ev as [ms | url | url | error | h | | props probe | |]; unfold handle_event.
  - exists (notified s). reflexivity.
  - rewrite exec_onLoadStart. cbv zeta. rewrite service_delivered. eexists. reflexivity.
  - rewrite exec_onLoadEnd. cbv zeta. rewrite service_delivered. eexists. reflexivity.
  - rewrite exec_onLoadError. cbv zeta. unfold checkIfServerIsDown.
    destruct (isServerDown error).
    + rewrite exec_showConnectionErrorIfManaged.
      destruct (connectionManagerSet _);
        [change (Wrapper.connectionMonitor (exec Wrapper.showConnectionError ?x))
           with (Wrapper.connectionMonitor x) |];
        rewrite service_delivered; eexists; reflexivity.
    + change (exec (ret tt) ?x) with x. rewrite service_delivered. eexists. reflexivity.
  - exists (notified s). unfold fireTimeout. rewrite exec_bind_service. fold s.
    unfold serviceAfter.
    destruct (find (fun t => Nat.eqb (handle t) h) (scheduled s)) as [t |];
      [| exact Hself].
    destruct (due t <=? clock s); [| exact Hself].
    rewrite exec_seq, exec_showConnectionErrorIfManaged.
    destruct (connectionManagerSet _); reflexivity.
  - exists (notified s). reflexivity.
  - assert (Hany : forall x : Service, x = with_notified (notified x) x)
      by (intros x; destruct x; reflexivity).
    rewrite exec_handleTryAgain. cbv zeta. unfold serviceAfter. fold s.
    destruct (Wrapper.Promise_race 3000 probe) as [[status |] |];
      [destruct (Wrapper.ok status) |..];
      cbn [Wrapper.connectionMonitor]; eexists; apply Hany.
  - exists (notified s). exact Hself.
  - exists (notified s). exact Hself.
Qed.

Lemma tidy_with_notified (seen : list (ConnectionListener * ConnectionStatus))
    (s : Service) :
  tidy (with_notified seen s) <-> tidy s.
Proof. reflexivity. Qed.

Lemma tidy_empty (s : Service) : scheduled s = [] -> tidy s.
Proof. unfold tidy. intros ->. exact I. Qed.

Lemma started_shape (url : string) (s : Service) :
  tidy s ->
  let s' := started url s in
  listeners s' = listeners s /\
  isInitialLoad s' = isInitialLoad s /\
  shouldShowErrorOnTimeout s' = shouldShowErrorOnTimeout s /\
  connectionManagerSet s' = connectionManagerSet s /\
  clock s' = clock s /\
  loadStartTime s' = clock s /\
  autoErrorThreshold s' = autoErrorThreshold s /\
  (if isInitialLoad s && shouldShowErrorOnTimeout s
   then scheduled s' = [mkTimeout (nextHandle s) (clock s + autoErrorThreshold s)]
        /\ autoErrorTimeout s' = Some (nextHandle s)
   else scheduled s' = [] /\ autoErrorTimeout s' = None).
Proof.
  intros Htidy. cbv zeta.
  pose proof (scheduled_clearAutoErrorTimeout (with_loadStartTime (clock s) s) Htidy)
    as Hclear.
  destruct (clearAutoErrorTimeout_keeps (with_loadStartTime (clock s) s))
    as (Hls & Hinit & Hshould & Hman & Hclock & Hstart & _ & _ & Hnext & Hthr & _ & Hnone).
  cbv zeta in *. simpl in Hls, Hinit, Hshould, Hman, Hclock, Hstart, Hnext, Hthr.
  unfold started.
  set (c := clearAutoErrorTimeout (with_loadStartTime (clock s) s)) in *.
  clearbody c.
  destruct (isInitialLoad s && shouldShowErrorOnTimeout s);
    unfold armAutoErrorTimeout, setTimeout; simpl;
    rewrite ?Hclear, ?Hnext, ?Hthr, ?Hclock;
    repeat apply conj; assumption || reflexivity.
Qed.

Lemma exec_service_fireTimeout (h : nat) (w : World) :
  let s := Wrapper.connectionMonitor w in
  exec (fireTimeout h) w
  = match find (fun t => Nat.eqb (handle t) h) (scheduled s) with
    | Some t =>
        if due t <=? clock s
        then exec showConnectionErrorIfManaged (withService (clearTimeout h s) w)
        else w
    | None => w
    end.
Proof.
  cbv zeta. unfold fireTimeout. rewrite exec_bind_service.
  destruct (find _ _) as [t |]; [| reflexivity].
  destruct (due t <=? _); [| reflexivity].
  rewrite exec_seq. reflexivity.
Qed.

Lemma monitor_elapse (ms : Z) (w : World) :
  Wrapper.connectionMonitor (exec (handle_event (Elapse ms)) w)
  = with_clock (clock (Wrapper.connectionMonitor w) + ms) (Wrapper.connectionMonitor w).
Proof. reflexivity. Qed.

Lemma scheduled_with_clock (c : Z) (s : Service) :
  scheduled (with_clock c s) = scheduled s.
Proof. reflexivity. Qed.

(** X7: from a service with no orphan timer, [onLoadStart] leaves exactly
    one pending timer, due [autoErrorThreshold] after the load start, when
    the initial load is on and automatic errors are enabled, and none
    otherwise; the timer does nothing before it is due; once due it shows the
    error screen if the global handle is set, and is gone. *)
Theorem onLoadStart_arms_timer (url : string) (w : World) :
  let s := Wrapper.connectionMonitor w in
  let w' := exec (onLoadStart url) w in
  let s' := Wrapper.connectionMonitor w' in
  tidy s ->
  (isInitialLoad s && shouldShowErrorOnTimeout s = true ->
     scheduled s' = [mkTimeout (nextHandle s) (clock s + autoErrorThreshold s)] /\
     autoErrorTimeout s' = Some (nextHandle s) /\
     (forall ms, ms < autoErrorThreshold s ->
        exec (fireTimeout (nextHandle s))
          (exec (handle_event (Elapse ms)) w')
        = exec (handle_event (Elapse ms)) w') /\
     (forall ms, autoErrorThreshold s <= ms ->
        let w2 := exec (fireTimeout (nextHandle s))
                    (exec (handle_event (Elapse ms)) w') in
        scheduled (Wrapper.connectionMonitor w2) = [] /\
        Wrapper.currentScreen w2
        = if connectionManagerSet s then Wrapper.connection_error
          else Wrapper.currentScreen w')) /\
  (isInitialLoad s && shouldShowErrorOnTimeout s = false ->
     scheduled s' = [] /\ autoErrorTimeout s' = None).
Proof.
  cbv zeta. intros Htidy.
  destruct (started_shape url _ Htidy)
    as (_ & _ & _ & Hman & Hclock & _ & _ & Hsched).
  cbv zeta in Hman, Hclock, Hsched.
  assert (Hserv : exists seen,
            Wrapper.connectionMonitor (exec (onLoadStart url) w)
            = with_notified seen (started url (Wrapper.connectionMonitor w))).
  { rewrite exec_onLoadStart. cbv zeta. rewrite service_delivered. eexists. reflexivity. }
  destruct Hserv as [seen Hserv].
  set (w' := exec (onLoadStart url) w) in *.
  set (s := Wrapper.connectionMonitor w) in *.
  set (s1 := started url s) in *.
  split.
  - intros Harm. rewrite Harm in Hsched. destruct Hsched as [Hsch Hauto].
    assert (Hsch' : scheduled (Wrapper.connectionMonitor w')
                    = [mkTimeout (nextHandle s) (clock s + autoErrorThreshold s)])
      by (rewrite Hserv; exact Hsch).
    assert (Hclock' : clock (Wrapper.connectionMonitor w') = clock s)
      by (rewrite Hserv; exact Hclock).
    assert (Hman' : connectionManagerSet (Wrapper.connectionMonitor w')
                    = connectionManagerSet s) by (rewrite Hserv; exact Hman).
    clearbody w' s1.
    repeat apply conj.
    + exact Hsch'.
    + rewrite Hserv. exact Hauto.
    + intros ms Hms. rewrite exec_service_fireTimeout.
      rewrite monitor_elapse, scheduled_with_clock, Hsch'.
      cbn [find handle]. rewrite Nat.eqb_refl. cbn [due clock with_clock].
      rewrite Hclock'.
      destruct (Z.leb_spec (clock s + autoErrorThreshold s) (clock s + ms)); [lia |].
      reflexivity.
    + intros ms Hms. rewrite exec_service_fireTimeout.
      rewrite monitor_elapse, scheduled_with_clock, Hsch'.
      cbn [find handle]. rewrite Nat.eqb_refl. cbn [due clock with_clock].
      rewrite Hclock'.
      destruct (Z.leb_spec (clock s + autoErrorThreshold s) (clock s + ms)); [| lia].
      rewrite exec_showConnectionErrorIfManaged.
      cbn [Wrapper.connectionMonitor withService].
      change (connectionManagerSet (clearTimeout (nextHandle s) ?x))
        with (connectionManagerSet x).
      change (connectionManagerSet (with_clock ?c ?x)) with (connectionManagerSet x).
      rewrite Hman'.
      assert (Hgone : scheduled (clearTimeout (nextHandle s)
                                   (with_clock (clock (Wrapper.connectionMonitor w') + ms)
                                      (Wrapper.connectionMonitor w'))) = []).
      { unfold clearTimeout. cbn [scheduled with_scheduled with_clock].
        rewrite Hsch'. cbn [filter handle]. rewrite Nat.eqb_refl. reflexivity. }
      destruct (connectionManagerSet s); split; solve [exact Hgone | reflexivity].
  - intros Hnot. rewrite Hnot in Hsched. destruct Hsched as [Hsch Hauto].
    rewrite Hserv. split; [exact Hsch | exact Hauto].
Qed.

Lemma onLoadStart_arms_timer_witness :
  let w' := exec (onLoadStart "https://g21z9.azvmotors.kz") (launched 1700000000000) in
  scheduled (Wrapper.connectionMonitor w') = [mkTimeout 1 1700000005000] /\
  Wrapper.currentScreen
    (exec (fireTimeout 1) (exec (handle_event (Elapse 5000)) w'))
  = Wrapper.connection_error.
Proof.
  cbv zeta.
  destruct (onLoadStart_arms_timer "https://g21z9.azvmotors.kz" (launched 1700000000000) I)
    as [Harmed _].
  destruct (Harmed eq_refl) as (Hsched & _ & _ & Hfires).
  split; [exact Hsched |].
  destruct (Hfires 5000) as [_ Hscreen]; [simpl; lia |]. exact Hscreen.
Defined.

Lemma tidy_serviceAfter (ev : Event) (s : Service) :
  tidy s -> tidy (serviceAfter ev s).
Proof.
  intros Htidy. destruct ev as [ms | url | url | error | h | | props probe | |];
    unfold serviceAfter; try exact Htidy.
  - destruct (started_shape url s Htidy) as (_ & _ & _ & _ & _ & _ & _ & Hsched).
    cbv zeta in Hsched. unfold tidy.
    destruct (isInitialLoad s && shouldShowErrorOnTimeout s);
      destruct Hsched as [-> Hhandle]; [exact Hhandle | exact I].
  - apply tidy_empty. unfold ended. simpl. now apply scheduled_clearAutoErrorTimeout.
  - apply tidy_empty. unfold failed. simpl. now apply scheduled_clearAutoErrorTimeout.
  - destruct (find _ (scheduled s)) as [t |]; [| exact Htidy].
    destruct (due t <=? clock s); [| exact Htidy].
    unfold tidy, clearTimeout in *. simpl.
    destruct (scheduled s) as [| t0 [| t1 rest]]; simpl; [exact I | | contradiction].
    destruct (Nat.eqb (handle t0) h); simpl; [exact I | exact Htidy].
  - cbv zeta.
    destruct (Wrapper.Promise_race 3000 probe) as [[status |] |]; try exact Htidy.
    destruct (Wrapper.ok status); [| exact Htidy].
    apply tidy_empty. unfold reset. simpl.
    now apply (scheduled_clearAutoErrorTimeout
                 (with_loadStartTime 0
                    (setShouldShowErrorOnTimeout true
                       (elapse (Wrapper.waited 3000 probe) s)))).
Qed.

(** X8: no orphan timers.  If every pending timer of the service is the one
    [autoErrorTimeout] holds, this stays so whatever happens: load starts,
    ends and errors, timers firing, retries, screen navigation; in
    particular at most one automatic-error timer is ever pending. *)
Theorem no_orphan_timers (evs : list Event) (w : World) :
  tidy (Wrapper.connectionMonitor w) ->
  tidy (Wrapper.connectionMonitor (run evs w)) /\
  (List.length (scheduled (Wrapper.connectionMonitor (run evs w))) <= 1)%nat.
Proof.
  revert w. induction evs as [| ev evs IH]; intros w Htidy.
  - split; [exact Htidy |]. unfold tidy in Htidy. simpl.
    destruct (scheduled (Wrapper.connectionMonitor w)) as [| t [| t' rest]];
      simpl; [lia | lia | contradiction].
  - simpl. apply IH.
    destruct (service_after_event ev w) as [seen ->].
    apply tidy_with_notified. now apply tidy_serviceAfter.
Qed.

Lemma no_orphan_timers_witness :
  (List.length
     (scheduled
        (Wrapper.connectionMonitor
           (run [LoadStart "https://g21z9.azvmotors.kz"; Elapse 300;
                 LoadStart "https://g21z9.azvmotors.kz"; Elapse 400;
                 LoadError None; LoadStart "https://g21z9.azvmotors.kz"]
              (launched 1700000000000)))) <= 1)%nat.
Proof.
  apply (no_orphan_timers
           [LoadStart "https://g21z9.azvmotors.kz"; Elapse 300;
            LoadStart "https://g21z9.azvmotors.kz"; Elapse 400;
            LoadError None; LoadStart "https://g21z9.azvmotors.kz"]
           (launched 1700000000000)).
  exact I.
Defined.

Lemma after_onLoadStart (url : string) (w : World) :
  tidy (Wrapper.connectionMonitor w) ->
  let s := Wrapper.connectionMonitor w in
  Wrapper.currentScreen (exec (onLoadStart url) w)
  = if listening s
    then screenOn (isInitialLoad s)
           {| isConnected := true; loadingTime := loadingTime (connectionStatus s);
              isSlowConnection := false; requestUrl := Some url;
              timestamp := clock s |}
           (Wrapper.currentScreen w)
    else Wrapper.currentScreen w.
Proof.
  intros Htidy. cbv zeta. rewrite exec_onLoadStart. cbv zeta.
  destruct (started_shape url _ Htidy) as (Hls & Hinit & _).
  cbv zeta in Hls, Hinit. rewrite screen_delivered.
  unfold listening. rewrite Hls, Hinit. reflexivity.
Qed.

Lemma screenOn_after_initial_load (status : ConnectionStatus)
    (screen : Wrapper.ScreenType) :
  screen <> Wrapper.connection_error ->
  screenOn false status screen <> Wrapper.connection_error.
Proof.
  intros Hnot. unfold screenOn. simpl.
  destruct (isConnected status && _); [discriminate | exact Hnot].
Qed.

Lemma initial_load_over_serviceAfter (ev : Event) (s : Service) :
  isInitialLoad s = false -> scheduled s = [] ->
  isInitialLoad (serviceAfter ev s) = false /\ scheduled (serviceAfter ev s) = [].
Proof.
  intros Hinit Hsched. pose proof (tidy_empty s Hsched) as Htidy.
  destruct ev as [ms | url | url | error | h | | props probe | |];
    unfold serviceAfter; try (split; assumption).
  - destruct (started_shape url s Htidy) as (_ & Hi & _ & _ & _ & _ & _ & Hs).
    cbv zeta in Hi, Hs. rewrite Hinit in Hs. simpl in Hs.
    split; [rewrite Hi; exact Hinit | apply Hs].
  - split; [reflexivity |]. unfold ended. simpl.
    now apply scheduled_clearAutoErrorTimeout.
  - destruct (clearAutoErrorTimeout_keeps s) as (_ & Hi & _).
    split; [unfold failed; simpl; cbv zeta in Hi; rewrite Hi; exact Hinit |].
    unfold failed. simpl. now apply scheduled_clearAutoErrorTimeout.
  - rewrite Hsched. simpl. split; assumption.
  - cbv zeta.
    destruct (Wrapper.Promise_race 3000 probe) as [[status |] |]; try (split; assumption).
    destruct (Wrapper.ok status); [| split; assumption].
    destruct (clearAutoErrorTimeout_keeps
                (with_loadStartTime 0
                   (setShouldShowErrorOnTimeout true
                      (elapse (Wrapper.waited 3000 probe) s))))
      as (_ & Hi & _).
    split.
    + unfold reset. simpl. cbv zeta in Hi. rewrite Hi. exact Hinit.
    + unfold reset. simpl.
      apply (scheduled_clearAutoErrorTimeout
               (with_loadStartTime 0
                  (setShouldShowErrorOnTimeout true
                     (elapse (Wrapper.waited 3000 probe) s)))).
      apply tidy_empty. exact Hsched.
Qed.

Lemma quiet_event_keeps_screen (ev : Event) (w : World) :
  isInitialLoad (Wrapper.connectionMonitor w) = false ->
  scheduled (Wrapper.connectionMonitor w) = [] ->
  quiet ev = true ->
  Wrapper.currentScreen w <> Wrapper.connection_error ->
  Wrapper.currentScreen (exec (handle_event ev) w) <> Wrapper.connection_error.
Proof.
  intros Hinit Hsched Hquiet Hnot.
  pose proof (tidy_empty _ Hsched) as Htidy.
  destruct ev as [ms | url | url | error | h | | props probe | |];
    unfold handle_event; try exact Hnot.
  - rewrite (after_onLoadStart url w Htidy). cbv zeta. rewrite Hinit.
    destruct (listening _); [| exact Hnot].
    now apply screenOn_after_initial_load.
  - destruct (after_onLoadEnd url w) as (_ & _ & Hscreen). cbv zeta in Hscreen.
    rewrite Hscreen. destruct (_ && _ && _); [discriminate | exact Hnot].
  - destruct (after_onLoadError error None w) as (Hscreen & _). cbv zeta in Hscreen.
    rewrite Hscreen, Hinit. simpl in Hquiet.
    apply negb_true_iff in Hquiet. rewrite Hquiet, andb_false_r. exact Hnot.
  - unfold fireTimeout. rewrite exec_bind_service, Hsched. exact Hnot.
  - rewrite exec_handleTryAgain. cbv zeta.
    destruct (Wrapper.Promise_race 3000 probe) as [[status |] |]; try exact Hnot.
    destruct (Wrapper.ok status); [discriminate | exact Hnot].
  - discriminate.
  - discriminate.
Qed.

(** X9: once the initial load has ended the flag stays cleared and no
    automatic-error timer is ever pending again, whatever events follow; and
    as long as no server-down error arrives and the user does not navigate
    back from the manual instructions, the error screen does not come up. *)
Theorem after_initial_load (evs : list Event) (w : World) :
  isInitialLoad (Wrapper.connectionMonitor w) = false ->
  scheduled (Wrapper.connectionMonitor w) = [] ->
  let w' := run evs w in
  isInitialLoad (Wrapper.connectionMonitor w') = false /\
  scheduled (Wrapper.connectionMonitor w') = [] /\
  (forallb quiet evs = true ->
   Wrapper.currentScreen w <> Wrapper.connection_error ->
   Wrapper.currentScreen w' <> Wrapper.connection_error).
Proof.
  revert w. induction evs as [| ev evs IH]; intros w Hinit Hsched; cbv zeta.
  - repeat split; auto.
  - simpl run.
    destruct (service_after_event ev w) as [seen Hserv].
    destruct (initial_load_over_serviceAfter ev _ Hinit Hsched) as [Hinit' Hsched'].
    assert (Hi : isInitialLoad (Wrapper.connectionMonitor (exec (handle_event ev) w))
                 = false) by (rewrite Hserv; exact Hinit').
    assert (Hs : scheduled (Wrapper.connectionMonitor (exec (handle_event ev) w)) = [])
      by (rewrite Hserv; exact Hsched').
    destruct (IH _ Hi Hs) as (Hfinal1 & Hfinal2 & Hfinal3).
    cbv zeta in Hfinal1, Hfinal2, Hfinal3.
    repeat apply conj; [exact Hfinal1 | exact Hfinal2 |].
    intros Hquiet Hnot. simpl in Hquiet. apply andb_true_iff in Hquiet.
    destruct Hquiet as [Hq Hqs].
    apply Hfinal3; [exact Hqs |].
    now apply quiet_event_keeps_screen.
Qed.

Lemma after_initial_load_witness :
  let w := run [LoadStart "https://g21z9.azvmotors.kz"; Elapse 900;
                LoadEnd "https://g21z9.azvmotors.kz"] (launched 1700000000000) in
  let w' := run [LoadStart "https://g21z9.azvmotors.kz"; Elapse 9000; TimeoutFires 1;
                 LoadError (Some (mkNativeEvent (Some "net::ERR_CACHE_MISS") None));
                 LoadStart "https://g21z9.azvmotors.kz"; Elapse 7000;
                 LoadEnd "https://g21z9.azvmotors.kz"] w in
  isInitialLoad (Wrapper.connectionMonitor w') = false /\
  scheduled (Wrapper.connectionMonitor w') = [] /\
  Wrapper.currentScreen w' <> Wrapper.connection_error.
Proof.
  cbv zeta.
  pose proof (after_initial_load
                [LoadStart "https://g21z9.azvmotors.kz"; Elapse 9000; TimeoutFires 1;
                 LoadError (Some (mkNativeEvent (Some "net::ERR_CACHE_MISS") None));
                 LoadStart "https://g21z9.azvmotors.kz"; Elapse 7000;
                 LoadEnd "https://g21z9.azvmotors.kz"]
                (run [LoadStart "https://g21z9.azvmotors.kz"; Elapse 900;
                      LoadEnd "https://g21z9.azvmotors.kz"] (launched 1700000000000))
                eq_refl eq_refl) as (H1 & H2 & H3).
  cbv zeta in H1, H2, H3.
  repeat apply conj; [exact H1 | exact H2 |].
  apply H3; [reflexivity | discriminate].
Defined.

(** X10: a first load that succeeds, but only after the automatic-error
    timer has fired, leaves the user on the error screen: the timer shows it
    through the global handle, and the load end, arriving more than 5000 ms
    after the load start, does not take it down although the status it
    publishes says connected. *)
Theorem slow_first_load_stays_on_error (url : string) (d1 d2 : Z) (w : World) :
  let s := Wrapper.connectionMonitor w in
  tidy s ->
  listening s = true ->
  connectionManagerSet s = true ->
  isInitialLoad s = true ->
  shouldShowErrorOnTimeout s = true ->
  autoErrorThreshold s <= d1 ->
  5000 < d1 + d2 ->
  let w' := run [LoadStart url; Elapse d1; TimeoutFires (nextHandle s); Elapse d2;
                 LoadEnd url] w in
  Wrapper.currentScreen w' = Wrapper.connection_error /\
  isInitialLoad (Wrapper.connectionMonitor w') = false /\
  loadingTime (connectionStatus (Wrapper.connectionMonitor w')) = Some (d1 + d2).
Proof.
  cbv zeta. intros Htidy Hlistening Hman Hinit Hshould Hd1 Hslow.
  unfold run. cbn [fold_left handle_event].
  destruct (started_shape url _ Htidy)
    as (Hls1 & _ & _ & Hman1 & Hclock1 & Hstart1 & _ & Hsched1).
  cbv zeta in Hls1, Hman1, Hclock1, Hstart1, Hsched1.
  rewrite Hinit, Hshould in Hsched1. destruct Hsched1 as [Hsched1 _].
  assert (Hserv : exists seen,
            Wrapper.connectionMonitor (exec (onLoadStart url) w)
            = with_notified seen (started url (Wrapper.connectionMonitor w))).
  { rewrite exec_onLoadStart. cbv zeta. rewrite service_delivered. eexists. reflexivity. }
  destruct Hserv as [seen Hserv].
  set (s := Wrapper.connectionMonitor w) in *.
  set (w1 := exec (onLoadStart url) w) in *.
  set (w2 := exec (onService (fun s0 => with_clock (clock s0 + d1) s0)) w1).
  assert (Hmon2 : Wrapper.connectionMonitor w2
                  = with_clock (clock s + d1) (with_notified seen (started url s))).
  { unfold w2. change (Wrapper.connectionMonitor (exec (onService ?f) ?x))
      with (f (Wrapper.connectionMonitor x)).
    cbv beta. rewrite Hserv. cbn [clock with_notified]. rewrite Hclock1. reflexivity. }
  assert (Hfire : exec (fireTimeout (nextHandle s)) w2
                  = exec Wrapper.showConnectionError
                      (withService (clearTimeout (nextHandle s)
                                      (Wrapper.connectionMonitor w2)) w2)).
  { rewrite exec_service_fireTimeout, Hmon2.
    cbn [scheduled with_clock with_notified clock]. rewrite Hsched1.
    cbn [find handle]. rewrite Nat.eqb_refl. cbn [due].
    destruct (Z.leb_spec (clock s + autoErrorThreshold s) (clock s + d1)); [| lia].
    rewrite exec_showConnectionErrorIfManaged.
    cbn [Wrapper.connectionMonitor withService].
    change (connectionManagerSet (clearTimeout ?h ?x)) with (connectionManagerSet x).
    cbn [connectionManagerSet with_clock with_notified]. rewrite Hman1, Hman.
    reflexivity. }
  rewrite Hfire.
  set (w3 := exec Wrapper.showConnectionError _).
  assert (Hscreen3 : Wrapper.currentScreen w3 = Wrapper.connection_error) by reflexivity.
  assert (Hmon3 : Wrapper.connectionMonitor w3
                  = clearTimeout (nextHandle s) (Wrapper.connectionMonitor w2))
    by reflexivity.
  set (w4 := exec (onService (fun s0 => with_clock (clock s0 + d2) s0)) w3).
  assert (Hscreen4 : Wrapper.currentScreen w4 = Wrapper.connection_error) by exact Hscreen3.
  assert (Hclock4 : clock (Wrapper.connectionMonitor w4) = clock s + d1 + d2).
  { unfold w4. change (Wrapper.connectionMonitor (exec (onService ?f) ?x))
      with (f (Wrapper.connectionMonitor x)).
    cbv beta. rewrite Hmon3, Hmon2. reflexivity. }
  assert (Hstart4 : loadStartTime (Wrapper.connectionMonitor w4) = clock s).
  { unfold w4. change (Wrapper.connectionMonitor (exec (onService ?f) ?x))
      with (f (Wrapper.connectionMonitor x)).
    cbv beta. rewrite Hmon3, Hmon2. exact Hstart1. }
  clearbody w4.
  destruct (after_onLoadEnd url w4) as (Hinit5 & Htime5 & Hscreen5).
  cbv zeta in Hinit5, Htime5, Hscreen5.
  rewrite Hclock4, Hstart4 in Htime5, Hscreen5.
  replace (clock s + d1 + d2 - clock s) with (d1 + d2) in Htime5, Hscreen5 by lia.
  repeat apply conj; [| exact Hinit5 | exact Htime5].
  rewrite Hscreen5, Hscreen4.
  destruct (Z.leb_spec (d1 + d2) 5000); [lia |].
  rewrite andb_false_r. reflexivity.
Qed.

Lemma slow_first_load_stays_on_error_witness :
  Wrapper.currentScreen
    (run [LoadStart "https://g21z9.azvmotors.kz"; Elapse 5000; TimeoutFires 1;
          Elapse 1200; LoadEnd "https://g21z9.azvmotors.kz"] (launched 1700000000000))
  = Wrapper.connection_error.
Proof.
  apply (slow_first_load_stays_on_error "https://g21z9.azvmotors.kz" 5000 1200
           (launched 1700000000000));
    solve [exact I | reflexivity | simpl; lia | lia].
Defined.

(** X11: each of [onLoadStart], [onLoadEnd] and [onLoadError] notifies every
    registered listener exactly once, in registration order, and hands all
    of them the status that is then the current one; the list of listeners
    itself is not changed. *)
Theorem callbacks_notify_every_listener (url : string) (error : option NativeEvent)
    (w : World) :
  let s := Wrapper.connectionMonitor w in
  let told (w' : World) :=
    let s' := Wrapper.connectionMonitor w' in
    notified s' = notified s ++ map (fun l => (l, connectionStatus s')) (listeners s)
    /\ listeners s' = listeners s in
  told (exec (onLoadStart url) w) /\
  told (exec (onLoadEnd url) w) /\
  told (exec (onLoadError error (Some url)) w).
Proof.
  cbv zeta. set (s := Wrapper.connectionMonitor w).
  assert (Hstart : listeners (started url s) = listeners s
                   /\ notified (started url s) = notified s).
  { unfold started, armAutoErrorTimeout, clearAutoErrorTimeout. simpl.
    destruct (isInitialLoad s && shouldShowErrorOnTimeout s), (autoErrorTimeout s);
      split; reflexivity. }
  assert (Hend : listeners (ended url s) = listeners s
                 /\ notified (ended url s) = notified s).
  { unfold ended, clearAutoErrorTimeout. simpl.
    destruct (autoErrorTimeout s); split; reflexivity. }
  assert (Hfail : listeners (failed (Some url) s) = listeners s
                  /\ notified (failed (Some url) s) = notified s).
  { unfold failed, clearAutoErrorTimeout. simpl.
    destruct (autoErrorTimeout s); split; reflexivity. }
  repeat apply conj.
  - rewrite exec_onLoadStart. cbv zeta. rewrite service_delivered. fold s.
    cbn [notified listeners connectionStatus with_notified].
    destruct Hstart as [-> ->]. reflexivity.
  - rewrite exec_onLoadStart. cbv zeta. rewrite service_delivered. fold s. apply Hstart.
  - rewrite exec_onLoadEnd. cbv zeta. rewrite service_delivered. fold s.
    cbn [notified listeners connectionStatus with_notified].
    destruct Hend as [-> ->]. reflexivity.
  - rewrite exec_onLoadEnd. cbv zeta. rewrite service_delivered. fold s. apply Hend.
  - rewrite exec_onLoadError. cbv zeta. unfold checkIfServerIsDown.
    destruct (isServerDown error);
      [rewrite exec_showConnectionErrorIfManaged; destruct (connectionManagerSet _);
       [change (Wrapper.connectionMonitor (exec Wrapper.showConnectionError ?x))
          with (Wrapper.connectionMonitor x) |] |
       change (exec (ret tt) ?x) with x];
      rewrite service_delivered; fold s;
      cbn [notified listeners connectionStatus with_notified];
      destruct Hfail as [-> ->]; reflexivity.
  - rewrite exec_onLoadError. cbv zeta. unfold checkIfServerIsDown.
    destruct (isServerDown error);
      [rewrite exec_showConnectionErrorIfManaged; destruct (connectionManagerSet _);
       [change (Wrapper.connectionMonitor (exec Wrapper.showConnectionError ?x))
          with (Wrapper.connectionMonitor x) |] |
       change (exec (ret tt) ?x) with x];
      rewrite service_delivered; fold s; apply Hfail.
Qed.

Lemma service_after_successful_retry (props : Wrapper.Props) (probe : Wrapper.Probe)
    (d status : Z) (w : World) :
  Wrapper.settlesAfter probe = Some d -> d < 3000 ->
  Wrapper.settlement probe = Wrapper.Resolved status -> Wrapper.ok status = true ->
  exec (Wrapper.handleTryAgain props probe) w
  = {| Wrapper.currentScreen := Wrapper.webview;
       Wrapper.connectionMonitor :=
         reset (setShouldShowErrorOnTimeout true (elapse d (Wrapper.connectionMonitor w)));
       Wrapper.isRetrying := false;
       Wrapper.connected := Wrapper.connected w;
       Wrapper.called :=
         Wrapper.called w ++ match Wrapper.onWebViewReload props with
                             | Some c => [c]
                             | None => []
                             end |}.
Proof.
  intros Hd Hlt Hres Hok. rewrite exec_handleTryAgain. cbv zeta.
  destruct (ConnectionManagerWrapperFacts.fetch_settles_first 3000 d probe Hd Hlt)
    as [-> ->].
  rewrite Hres, Hok. reflexivity.
Qed.

Lemma service_after_failed_retry (props : Wrapper.Props) (probe : Wrapper.Probe)
    (w : World) :
  match Wrapper.Promise_race 3000 probe with
  | Wrapper.FetchFirst (Wrapper.Resolved status) => Wrapper.ok status = false
  | _ => True
  end ->
  Wrapper.untouched (Wrapper.waited 3000 probe) w
    (exec (Wrapper.handleTryAgain props probe) w).
Proof.
  intros Hfailed. rewrite exec_handleTryAgain. cbv zeta. unfold Wrapper.untouched.
  destruct (Wrapper.Promise_race 3000 probe) as [[status |] |];
    [rewrite Hfailed |..]; repeat split.
Qed.

(** The fields of the service after [reset()], whatever timer was pending. *)
Lemma reset_fields (s : Service) :
  let s' := reset s in
  clock s' = clock s /\
  shouldShowErrorOnTimeout s' = shouldShowErrorOnTimeout s /\
  isInitialLoad s' = isInitialLoad s /\
  listeners s' = listeners s /\
  slowConnectionThreshold s' = slowConnectionThreshold s /\
  notified s' = notified s /\
  loadStartTime s' = 0 /\
  autoErrorTimeout s' = None /\
  scheduled s'
  = match autoErrorTimeout s with
    | Some h => filter (fun t => negb (Nat.eqb (handle t) h)) (scheduled s)
    | None => scheduled s
    end /\
  connectionStatus s'
  = {| isConnected := true; loadingTime := None; isSlowConnection := false;
       requestUrl := None; timestamp := clock s |}.
Proof.
  destruct s as [ls st start thr timeout athr initial should clk sched next managed seen].
  cbv zeta. unfold reset, clearAutoErrorTimeout.
  destruct timeout; repeat apply conj; reflexivity.
Qed.

(** X12: a retry whose probe succeeds after [d] ms leaves the real service,
    [d] ms after the press, with automatic errors enabled, no pending
    timer, [loadStartTime] 0 and a fresh connected status stamped with the
    time the probe settled, while the initial-load flag, the listeners, the
    slow threshold and the deliveries are untouched and no listener is
    told; so if the initial load was still on, the next load start arms the
    timer again, due [autoErrorThreshold] after that time. *)
Theorem successful_retry_on_service (props : Wrapper.Props) (probe : Wrapper.Probe)
    (d status : Z) (url : string) (w : World) :
  Wrapper.settlesAfter probe = Some d -> d < 3000 ->
  Wrapper.settlement probe = Wrapper.Resolved status -> Wrapper.ok status = true ->
  tidy (Wrapper.connectionMonitor w) ->
  let s := Wrapper.connectionMonitor w in
  let w' := exec (Wrapper.handleTryAgain props probe) w in
  let s' := Wrapper.connectionMonitor w' in
  Wrapper.currentScreen w' = Wrapper.webview /\
  clock s' = clock s + d /\
  shouldShowErrorOnTimeout s' = true /\
  isInitialLoad s' = isInitialLoad s /\
  scheduled s' = [] /\
  loadStartTime s' = 0 /\
  connectionStatus s'
  = {| isConnected := true; loadingTime := None; isSlowConnection := false;
       requestUrl := None; timestamp := clock s + d |} /\
  listeners s' = listeners s /\
  slowConnectionThreshold s' = slowConnectionThreshold s /\
  notified s' = notified s /\
  scheduled (Wrapper.connectionMonitor (exec (onLoadStart url) w'))
  = (if isInitialLoad s
     then [mkTimeout (nextHandle s) (clock s + d + autoErrorThreshold s)] else []).
Proof.
  intros Hd Hlt Hres Hok Htidy. cbv zeta.
  rewrite (service_after_successful_retry props probe d status w Hd Hlt Hres Hok).
  cbn [Wrapper.currentScreen Wrapper.connectionMonitor].
  set (s := Wrapper.connectionMonitor w) in *.
  set (s1 := setShouldShowErrorOnTimeout true (elapse d s)).
  set (s0 := with_loadStartTime 0 s1).
  assert (Htidy0 : tidy s0) by exact Htidy.
  pose proof (scheduled_clearAutoErrorTimeout s0 Htidy0) as Hclear.
  destruct (clearAutoErrorTimeout_keeps s0)
    as (Hls & Hinit & Hshould & Hman & Hclock & Hstart & _ & Hseen & Hnext & Hthr
        & Hslow & Hnone).
  cbv zeta in Hls, Hinit, Hshould, Hman, Hclock, Hstart, Hseen, Hnext, Hthr, Hslow, Hnone.
  assert (Hreset : reset s1
                   = with_connectionStatus
                       {| isConnected := true; loadingTime := None;
                          isSlowConnection := false; requestUrl := None;
                          timestamp := clock (clearAutoErrorTimeout s0) |}
                       (clearAutoErrorTimeout s0)) by reflexivity.
  assert (HXc : clock (reset s1) = clock s + d) by (rewrite Hreset; exact Hclock).
  repeat apply conj.
  - reflexivity.
  - exact HXc.
  - rewrite Hreset. exact Hshould.
  - rewrite Hreset. exact Hinit.
  - rewrite Hreset. exact Hclear.
  - rewrite Hreset. exact Hstart.
  - rewrite Hreset. cbn [connectionStatus with_connectionStatus].
    rewrite Hclock. reflexivity.
  - rewrite Hreset. exact Hls.
  - rewrite Hreset. exact Hslow.
  - rewrite Hreset. exact Hseen.
  - match goal with
    | |- context [exec (onLoadStart url) ?x] =>
        destruct (service_after_event (LoadStart url) x) as [seen Hafter]
    end.
    cbn [handle_event serviceAfter Wrapper.connectionMonitor] in Hafter.
    rewrite Hafter. cbn [scheduled with_notified].
    assert (HXi : isInitialLoad (reset s1) = isInitialLoad s)
      by (rewrite Hreset; exact Hinit).
    assert (HXs : shouldShowErrorOnTimeout (reset s1) = true)
      by (rewrite Hreset; exact Hshould).
    assert (HXn : nextHandle (reset s1) = nextHandle s) by (rewrite Hreset; exact Hnext).
    assert (HXt : autoErrorThreshold (reset s1) = autoErrorThreshold s)
      by (rewrite Hreset; exact Hthr).
    assert (Htidy1 : tidy (reset s1)).
    { apply tidy_empty. rewrite Hreset. exact Hclear. }
    destruct (started_shape url _ Htidy1) as (_ & _ & _ & _ & _ & _ & _ & Hsched).
    cbv zeta in Hsched. rewrite HXi, HXs, HXn, HXc, HXt, andb_true_r in Hsched.
    destruct (isInitialLoad s); apply Hsched.
Qed.

Lemma successful_retry_on_service_witness :
  let w := run [LoadStart "https://g21z9.azvmotors.kz"; Elapse 300; LoadError None]
             (launched 1700000000000) in
  let w' := exec (Wrapper.handleTryAgain
                    {| Wrapper.onWebViewReload := Some Wrapper.WebViewReload |}
                    {| Wrapper.settlesAfter := Some 800;
                       Wrapper.settlement := Wrapper.Resolved 200;
                       Wrapper.aheadOfTimerOnTie := false |}) w in
  Wrapper.currentScreen w = Wrapper.connection_error /\
  Wrapper.currentScreen w' = Wrapper.webview /\
  timestamp (connectionStatus (Wrapper.connectionMonitor w')) = 1700000001100 /\
  scheduled (Wrapper.connectionMonitor
               (exec (onLoadStart "https://g21z9.azvmotors.kz") w'))
  = [mkTimeout 2 1700000006100].
Proof.
  cbv zeta. split; [reflexivity |].
  pose proof (successful_retry_on_service
                {| Wrapper.onWebViewReload := Some Wrapper.WebViewReload |}
                {| Wrapper.settlesAfter := Some 800;
                   Wrapper.settlement := Wrapper.Resolved 200;
                   Wrapper.aheadOfTimerOnTie := false |}
                800 200 "https://g21z9.azvmotors.kz"
                (run [LoadStart "https://g21z9.azvmotors.kz"; Elapse 300; LoadError None]
                   (launched 1700000000000))
                eq_refl eq_refl eq_refl eq_refl I) as Hretry.
  cbv zeta in Hretry.
  destruct Hretry as (Hscreen & _ & _ & _ & _ & _ & Hstatus & _ & _ & _ & Harmed).
  split; [exact Hscreen |]. split; [rewrite Hstatus; reflexivity | exact Harmed].
Defined.

(** C7: the retry races the fetch against a 3000 ms timer and goes on when
    the race has settled.  When the fetch settles first, after [d] ms, with
    an ok response, then at that time the service has automatic errors on
    timeout enabled and is reset ([loadStartTime] 0, no automatic-error
    timer held or pending, a fresh connected status stamped with that
    time), the screen is [webview] and the [onWebViewReload] prop, when
    given, has been called once.  When the fetch rejects, answers with a
    status that is not ok, or does not settle before the timer, the screen,
    the parent and the service are as they were but for the time that has
    passed.  [isRetrying] is false at the end either way. *)
Theorem handleTryAgain_outcome (props : Wrapper.Props) (p : Wrapper.Probe) (w : World) :
  let s := Wrapper.connectionMonitor w in
  let w' := exec (Wrapper.handleTryAgain props p) w in
  let s' := Wrapper.connectionMonitor w' in
  let unchanged := fun ms : Z =>
    Wrapper.currentScreen w' = Wrapper.currentScreen w /\
    Wrapper.called w' = Wrapper.called w /\
    s' = with_clock (clock s + ms) s in
  Wrapper.isRetrying w' = false /\
  (forall d status,
     Wrapper.settlesAfter p = Some d -> d < 3000 ->
     Wrapper.settlement p = Wrapper.Resolved status -> Wrapper.ok status = true ->
     Wrapper.currentScreen w' = Wrapper.webview /\
     Wrapper.called w' = Wrapper.called w ++ match Wrapper.onWebViewReload props with
                                             | Some c => [c]
                                             | None => []
                                             end /\
     clock s' = clock s + d /\
     shouldShowErrorOnTimeout s' = true /\
     loadStartTime s' = 0 /\
     autoErrorTimeout s' = None /\
     scheduled s'
     = match autoErrorTimeout s with
       | Some h => filter (fun t => negb (Nat.eqb (handle t) h)) (scheduled s)
       | None => scheduled s
       end /\
     connectionStatus s'
     = {| isConnected := true; loadingTime := None; isSlowConnection := false;
          requestUrl := None; timestamp := clock s + d |} /\
     isSlowOrFailedConnection s' = false /\
     isInitialLoad s' = isInitialLoad s /\
     listeners s' = listeners s /\
     notified s' = notified s) /\
  (Wrapper.onWebViewReload props = Some Wrapper.WebViewReload ->
   forall d status,
     Wrapper.settlesAfter p = Some d -> d < 3000 ->
     Wrapper.settlement p = Wrapper.Resolved status -> Wrapper.ok status = true ->
     Wrapper.called w' = Wrapper.called w ++ [Wrapper.WebViewReload]) /\
  (Wrapper.settlement p = Wrapper.Rejected -> unchanged (Wrapper.waited 3000 p)) /\
  (forall status,
     Wrapper.settlement p = Wrapper.Resolved status -> Wrapper.ok status = false ->
     unchanged (Wrapper.waited 3000 p)) /\
  (Wrapper.settlesAfter p = None -> unchanged 3000) /\
  (forall d, Wrapper.settlesAfter p = Some d -> 3000 < d -> unchanged 3000).
Proof.
  cbv zeta.
  assert (Hfailed : forall ms,
            Wrapper.untouched ms w (exec (Wrapper.handleTryAgain props p) w) ->
            Wrapper.currentScreen (exec (Wrapper.handleTryAgain props p) w)
            = Wrapper.currentScreen w /\
            Wrapper.called (exec (Wrapper.handleTryAgain props p) w) = Wrapper.called w /\
            Wrapper.connectionMonitor (exec (Wrapper.handleTryAgain props p) w)
            = with_clock (clock (Wrapper.connectionMonitor w) + ms)
                (Wrapper.connectionMonitor w)).
  { intros ms (Hscreen & Hsame & Hcalled). repeat split; assumption. }
  repeat apply conj.
  - rewrite exec_handleTryAgain. cbv zeta.
    destruct (Wrapper.Promise_race 3000 p) as [[status |] |];
      [destruct (Wrapper.ok status) |..]; reflexivity.
  - intros d status Hd Hlt Hres Hok.
    rewrite (service_after_successful_retry props p d status w Hd Hlt Hres Hok).
    cbn [Wrapper.currentScreen Wrapper.connectionMonitor Wrapper.called].
    destruct (reset_fields
                (setShouldShowErrorOnTimeout true (elapse d (Wrapper.connectionMonitor w))))
      as (Hclock & Hshould & Hinit & Hls & _ & Hseen & Hstart & Hnone & Hsched & Hstatus).
    cbv zeta in Hclock, Hshould, Hinit, Hls, Hseen, Hstart, Hnone, Hsched, Hstatus.
    repeat apply conj; try reflexivity; assumption.
  - intros Hprop d status Hd Hlt Hres Hok.
    rewrite (service_after_successful_retry props p d status w Hd Hlt Hres Hok), Hprop.
    reflexivity.
  - intros Hrej. apply Hfailed, service_after_failed_retry.
    destruct (ConnectionManagerWrapperFacts.Promise_race_cases 3000 p) as [-> | ->];
      [rewrite Hrej |]; exact I.
  - intros status Hres Hbad. apply Hfailed, service_after_failed_retry.
    destruct (ConnectionManagerWrapperFacts.Promise_race_cases 3000 p) as [-> | ->];
      [rewrite Hres; exact Hbad | exact I].
  - intros Hnever.
    destruct (ConnectionManagerWrapperFacts.timer_runs_first 3000 p (or_introl Hnever))
      as [Hrace Hwait].
    apply Hfailed. rewrite <- Hwait. apply service_after_failed_retry.
    rewrite Hrace. exact I.
  - intros d Hd Hlate.
    destruct (ConnectionManagerWrapperFacts.timer_runs_first 3000 p
                (or_intror (ex_intro _ d (conj Hd Hlate)))) as [Hrace Hwait].
    apply Hfailed. rewrite <- Hwait. apply service_after_failed_retry.
    rewrite Hrace. exact I.
Qed.

(** X13: [dispose] leaves no listener and, when there was no orphan timer, no
    pending timer; disposing twice is disposing once; the initial-load flag
    and the automatic-error switch survive it. *)
Theorem dispose_is_clean (s : Service) :
  dispose (dispose s) = dispose s /\
  listeners (dispose s) = [] /\
  autoErrorTimeout (dispose s) = None /\
  loadStartTime (dispose s) = 0 /\
  isInitialLoad (dispose s) = isInitialLoad s /\
  shouldShowErrorOnTimeout (dispose s) = shouldShowErrorOnTimeout s /\
  (tidy s -> scheduled (dispose s) = []).
Proof.
  assert (Hall : dispose (dispose s) = dispose s /\
                 listeners (dispose s) = [] /\
                 autoErrorTimeout (dispose s) = None /\
                 loadStartTime (dispose s) = 0 /\
                 isInitialLoad (dispose s) = isInitialLoad s /\
                 shouldShowErrorOnTimeout (dispose s) = shouldShowErrorOnTimeout s).
  { destruct s as [ls st start thr timeout athr initial should clk sched next managed seen].
    unfold dispose, reset, clearAutoErrorTimeout. simpl.
    destruct timeout; repeat split. }
  destruct Hall as (H1 & H2 & H3 & H4 & H5 & H6).
  repeat apply conj; try assumption.
  intros Htidy. unfold dispose, reset.
  cbn [scheduled with_connectionStatus].
  apply scheduled_clearAutoErrorTimeout. apply tidy_empty.
  cbn [scheduled with_loadStartTime].
  apply (scheduled_clearAutoErrorTimeout (with_listeners [] s)). exact Htidy.
Qed.

Lemma indexOf_absent (x : ConnectionListener) (l : list ConnectionListener) :
  existsb (ConnectionListener_eqb x) l = false -> indexOf x l = None.
Proof.
  induction l as [| y l IH]; simpl; [reflexivity |].
  intros Hex. apply orb_false_iff in Hex. destruct Hex as [Hxy Hrest].
  assert (Hyx : ConnectionListener_eqb y x = false).
  { destruct x, y; simpl in *; try discriminate; try reflexivity.
    rewrite Nat.eqb_sym. exact Hxy. }
  rewrite Hyx, (IH Hrest). reflexivity.
Qed.

Lemma indexOf_snoc_absent (x : ConnectionListener) (l : list ConnectionListener) :
  existsb (ConnectionListener_eqb x) l = false ->
  indexOf x (l ++ [x]) = Some (List.length l).
Proof.
  induction l as [| y l IH]; simpl.
  - intros _. destruct x; simpl; [reflexivity | rewrite Nat.eqb_refl; reflexivity].
  - intros Hex. apply orb_false_iff in Hex. destruct Hex as [Hxy Hrest].
    assert (Hyx : ConnectionListener_eqb y x = false).
    { destruct x, y; simpl in *; try discriminate; try reflexivity.
      rewrite Nat.eqb_sym. exact Hxy. }
    rewrite Hyx, (IH Hrest). reflexivity.
Qed.

Lemma ConnectionListener_eqb_eq (a b : ConnectionListener) :
  ConnectionListener_eqb a b = true <-> a = b.
Proof.
  destruct a as [| i], b as [| j]; simpl; split; try discriminate; try reflexivity.
  - intros H. apply Nat.eqb_eq in H. now subst.
  - intros H. injection H as ->. apply Nat.eqb_refl.
Qed.

Lemma registrations_removed (x y : ConnectionListener) (l : list ConnectionListener) :
  registrations y
    (match indexOf x l with
     | Some index => AZVWebView.remove_nth index l
     | None => l
     end)
  = if ConnectionListener_eqb y x then Nat.pred (registrations y l)
    else registrations y l.
Proof.
  unfold registrations. induction l as [| z l IH]; simpl.
  - destruct (ConnectionListener_eqb y x); reflexivity.
  - destruct (ConnectionListener_eqb z x) eqn:Hzx.
    + apply ConnectionListener_eqb_eq in Hzx. subst z. simpl.
      destruct (ConnectionListener_eqb y x); reflexivity.
    + destruct (indexOf x l) as [index |]; simpl.
      * destruct (ConnectionListener_eqb y z) eqn:Hyz; simpl.
        -- apply ConnectionListener_eqb_eq in Hyz. subst z. rewrite Hzx in *.
           rewrite IH. reflexivity.
        -- exact IH.
      * destruct (ConnectionListener_eqb y z) eqn:Hyz; simpl; [| exact IH].
        apply ConnectionListener_eqb_eq in Hyz. subst z. rewrite Hzx. reflexivity.
Qed.

(** X14: [removeListener] takes away exactly one registration of the
    listener it is given (none when it is not registered) and leaves the
    registrations of every other listener alone; removing a listener just
    added to a service that did not have it gives back the service.  The
    wrapper's unmount therefore undoes the registration of its mount, but
    leaves the slow threshold at 5000 and the global handle set. *)
Theorem removeListener_one_registration (x : ConnectionListener) (s : Service) :
  (forall y, registrations y (listeners (removeListener x s))
             = if ConnectionListener_eqb y x then Nat.pred (registrations y (listeners s))
               else registrations y (listeners s)) /\
  (listening s = false ->
   removeListener connectionListener (addListener connectionListener s) = s) /\
  (forall w : World,
     listening (Wrapper.connectionMonitor w) = false ->
     let w' := exec unmount (exec mount w) in
     listeners (Wrapper.connectionMonitor w') = listeners (Wrapper.connectionMonitor w) /\
     slowConnectionThreshold (Wrapper.connectionMonitor w') = 5000 /\
     connectionManagerSet (Wrapper.connectionMonitor w') = true).
Proof.
  assert (Hround : forall l : list ConnectionListener,
            existsb (ConnectionListener_eqb connectionListener) l = false ->
            AZVWebView.remove_nth (List.length l) (l ++ [connectionListener]) = l).
  { induction l as [| y l IH]; simpl; [reflexivity |].
    intros Hex. apply orb_false_iff in Hex. destruct Hex as [_ Hrest].
    now rewrite IH. }
  repeat apply conj.
  - intros y. unfold removeListener.
    rewrite <- registrations_removed.
    destruct (indexOf x (listeners s)); reflexivity.
  - intros Habsent. unfold listening in Habsent.
    unfold removeListener, addListener. cbn [listeners with_listeners].
    rewrite (indexOf_snoc_absent _ _ Habsent). rewrite (Hround _ Habsent).
    destruct s; reflexivity.
  - intros w Habsent. cbv zeta. unfold listening in Habsent.
    unfold unmount, mount. unfold exec, execState. simpl.
    unfold removeListener. simpl.
    rewrite (indexOf_snoc_absent _ _ Habsent). simpl.
    rewrite (Hround _ Habsent). repeat split.
Qed.

End ConnectionMonitorServiceFacts.

(** * Properties of runs of the supervisor *)

Module AZVWebViewRunsFacts.

Import AZVWebView AZVWebViewRuns AZVWebViewFacts.

Lemma recoveries_snoc (t : list Effect) (e : Effect) :
  recoveries (t ++ [e]) = (recoveries t + if isRecovery e then 1 else 0)%nat.
Proof.
  unfold recoveries. rewrite filter_app, length_app. simpl.
  destruct (isRecovery e); reflexivity.
Qed.

(** Either [safeReload] is inside the debounce window and does nothing, or it
    is outside, records the time and issues one recovery command. *)
Lemma safeReload_cases (hard : bool) (s : State) :
  let s' := exec (safeReload hard) s in
  (clock s - lastReloadRef s < 1500 /\ s' = s) \/
  (1500 <= clock s - lastReloadRef s /\
   recoveries (trace s') = S (recoveries (trace s)) /\
   lastReloadRef s' = clock s /\
   clock s' = clock s /\
   reloadAttemptsRef s'
   = (if hard || (reloadAttemptsRef s + 1 >=? 3) then 0 else reloadAttemptsRef s + 1) /\
   pongCounterRef s' = pongCounterRef s /\
   timers s' = timers s /\
   webViewRef s' = webViewRef s).
Proof.
  cbv zeta. destruct (Z.lt_ge_cases (clock s - lastReloadRef s) 1500) as [Hd | Hd].
  - left. split; [exact Hd | now apply exec_safeReload_debounced].
  - right. split; [exact Hd |].
    rewrite exec_safeReload_accepted by exact Hd.
    destruct (hard || (reloadAttemptsRef s + 1 >=? 3)).
    + rewrite exec_hardRemount. simpl. rewrite recoveries_snoc. simpl.
      repeat split. lia.
    + rewrite exec_softReload. simpl. destruct (webViewRef s) eqn:Href.
      * simpl. rewrite recoveries_snoc. simpl. repeat split; try assumption. lia.
      * rewrite exec_hardRemount. simpl. rewrite recoveries_snoc. simpl.
        repeat split; try assumption. lia.
Qed.

Section Runs.

Variable JSON_parse : string -> option JSON.

Lemma exec_handleMessage (raw : string) (s : State) :
  exec (handleMessage JSON_parse raw) s
  = match JSON_parse raw with
    | Some data =>
        if strict_eq_string (optional_member data "t") "pong"
        then with_pongCounterRef (pongCounterRef s + 1) s
        else with_trace (trace s ++ [HandleWebViewMessage raw]) s
    | None => with_trace (trace s ++ [HandleWebViewMessage raw]) s
    end.
Proof.
  unfold handleMessage. destruct (JSON_parse raw) as [data |]; [| reflexivity].
  destruct (strict_eq_string _ _); reflexivity.
Qed.

Lemma run_app (evs1 evs2 : list Event) (s : State) :
  run JSON_parse (evs1 ++ evs2) s = run JSON_parse evs2 (run JSON_parse evs1 s).
Proof. unfold run. apply fold_left_app. Qed.

Lemma run_cons (ev : Event) (evs : list Event) (s : State) :
  run JSON_parse (ev :: evs) s = run JSON_parse evs (exec (handle JSON_parse ev) s).
Proof. reflexivity. Qed.

(** What one event does to the attempt counter. *)
Lemma attempts_after_event (ev : Event) (s : State) :
  0 <= reloadAttemptsRef s <= 2 ->
  0 <= reloadAttemptsRef (exec (handle JSON_parse ev) s) <= 2.
Proof.
  intros Hbound.
  assert (Hsafe : forall hard st,
            0 <= reloadAttemptsRef st <= 2 ->
            0 <= reloadAttemptsRef (exec (safeReload hard) st) <= 2).
  { intros hard st Hst. destruct (safeReload_cases hard st) as [[_ ->] | Hacc];
      [exact Hst |].
    destruct Hacc as (_ & _ & _ & _ & -> & _).
    destruct hard; simpl; [lia |].
    destruct (Z.geb_spec (reloadAttemptsRef st + 1) 3); lia. }
  destruct ev as [ms | status | index | statusCode | | didCrash | | raw | ref];
    unfold handle.
  - exact Hbound.
  - destruct status; try exact Hbound.
    rewrite exec_onAppStateChange_active. destruct (webViewRef s); exact Hbound.
  - rewrite exec_fireTimeout.
    destruct (nth_error (timers s) index) as [t |]; [| exact Hbound].
    destruct (due t <=? clock s); [| exact Hbound].
    rewrite exec_heartbeatTimeout.
    destruct (_ =? _); [apply Hsafe |]; exact Hbound.
  - destruct statusCode as [status |]; unfold onHttpError; [| exact Hbound].
    destruct ((status >=? 500) || (status =? 0)); [apply Hsafe |]; exact Hbound.
  - apply Hsafe. exact Hbound.
  - destruct (onRenderProcessGone_unconditional didCrash s) as (_ & _ & Hsame).
    cbv zeta in Hsame. rewrite Hsame. exact Hbound.
  - unfold exec, execState. simpl. lia.
  - rewrite exec_handleMessage. destruct (JSON_parse raw) as [data |];
      [destruct (strict_eq_string _ _) |]; exact Hbound.
  - exact Hbound.
Qed.

(** X15: the attempt counter never reaches 3: if it is 0, 1 or 2 it is 0, 1
    or 2 after any sequence of events, crash signals and load ends
    included. *)
Theorem attempts_stay_below_three (evs : list Event) (s : State) :
  0 <= reloadAttemptsRef s <= 2 ->
  0 <= reloadAttemptsRef (run JSON_parse evs s) <= 2.
Proof.
  revert s. induction evs as [| ev evs IH]; intros s Hbound; simpl; [exact Hbound |].
  apply IH. now apply attempts_after_event.
Qed.

(** What one debounced event does to the clock, the time of the last action
    and the number of recovery commands. *)
Lemma debounced_event_cases (ev : Event) (s : State) :
  debounced ev = true ->
  let s' := exec (handle JSON_parse ev) s in
  let passed := match ev with Elapse ms => ms | _ => 0 end in
  0 <= passed /\
  ((recoveries (trace s') = recoveries (trace s) /\
    lastReloadRef s' = lastReloadRef s /\
    clock s' = clock s + passed) \/
   (1500 <= clock s - lastReloadRef s /\
    recoveries (trace s') = S (recoveries (trace s)) /\
    lastReloadRef s' = clock s /\
    clock s' = clock s /\ passed = 0)).
Proof.
  intros Hkind. cbv zeta.
  assert (Hsafe : forall hard st,
            (recoveries (trace (exec (safeReload hard) st)) = recoveries (trace st) /\
             lastReloadRef (exec (safeReload hard) st) = lastReloadRef st /\
             clock (exec (safeReload hard) st) = clock st + 0) \/
            (1500 <= clock st - lastReloadRef st /\
             recoveries (trace (exec (safeReload hard) st)) = S (recoveries (trace st)) /\
             lastReloadRef (exec (safeReload hard) st) = clock st /\
             clock (exec (safeReload hard) st) = clock st /\ 0 = 0)).
  { intros hard st. destruct (safeReload_cases hard st) as [[_ ->] | Hacc].
    - left. repeat split. lia.
    - right. destruct Hacc as (Hd & Hrec & Hlast & Hclock & _). repeat split; assumption. }
  assert (Hstill : forall st : State,
            recoveries (trace st) = recoveries (trace st) /\
            lastReloadRef st = lastReloadRef st /\ clock st = clock st + 0)
    by (intros st; repeat split; lia).
  destruct ev as [ms | status | index | statusCode | | didCrash | | raw | ref];
    unfold handle; try discriminate.
  - simpl in Hkind. apply Z.leb_le in Hkind. split; [exact Hkind |].
    left. repeat split.
  - split; [lia |]. destruct status; try (left; apply Hstill).
    rewrite exec_onAppStateChange_active. left.
    destruct (webViewRef s); simpl; [rewrite recoveries_snoc; simpl |];
      repeat split; lia.
  - split; [lia |]. rewrite exec_fireTimeout.
    destruct (nth_error (timers s) index) as [t |]; [| left; apply Hstill].
    destruct (due t <=? clock s); [| left; apply Hstill].
    rewrite exec_heartbeatTimeout.
    destruct (_ =? _); [| left; repeat split; simpl; lia].
    apply (Hsafe false (with_timers (remove_nth index (timers s)) s)).
  - split; [lia |]. destruct statusCode as [status |]; unfold onHttpError;
      [| left; apply Hstill].
    destruct ((status >=? 500) || (status =? 0)); [apply Hsafe | left; apply Hstill].
  - split; [lia |]. apply Hsafe.
  - split; [lia |]. left. unfold exec, execState. simpl.
    rewrite recoveries_snoc. simpl. repeat split; lia.
  - split; [lia |]. left. rewrite exec_handleMessage.
    destruct (JSON_parse raw) as [data |]; [destruct (strict_eq_string _ _) |];
      simpl; rewrite ?recoveries_snoc; simpl; repeat split; lia.
  - split; [lia |]. left. repeat split. simpl. lia.
Qed.

Lemma elapsed_nonneg (evs : list Event) :
  forallb debounced evs = true -> 0 <= elapsed evs.
Proof.
  induction evs as [| ev evs IH]; simpl; [lia |].
  intros Hall. apply andb_true_iff in Hall. destruct Hall as [Hev Hrest].
  specialize (IH Hrest). destruct ev; try exact IH.
  simpl in Hev. apply Z.leb_le in Hev. lia.
Qed.

Lemma elapsed_cons (ev : Event) (evs : list Event) :
  elapsed (ev :: evs) = match ev with Elapse ms => ms | _ => 0 end + elapsed evs.
Proof. destruct ev; reflexivity. Qed.

(** While the debounce window of the last action is open, nothing more is
    issued. *)
Lemma window_open_run (evs : list Event) (s : State) :
  forallb debounced evs = true ->
  clock s + elapsed evs - lastReloadRef s < 1500 ->
  recoveries (trace (run JSON_parse evs s)) = recoveries (trace s).
Proof.
  revert s. induction evs as [| ev evs IH]; intros s Hall Hopen; [reflexivity |].
  simpl in Hall. apply andb_true_iff in Hall. destruct Hall as [Hev Hrest].
  pose proof (elapsed_nonneg evs Hrest) as Hpos.
  rewrite elapsed_cons in Hopen.
  destruct (debounced_event_cases ev s Hev) as [Hpassed Hcases].
  cbv zeta in Hpassed, Hcases. simpl run.
  destruct Hcases as [(Hrec & Hlast & Hclock) | (Hd & _)]; [| lia].
  rewrite IH; [exact Hrec | exact Hrest |]. rewrite Hlast, Hclock. lia.
Qed.

(** X16: however many failures arrive, events that go through [safeReload]
    (HTTP errors, heartbeat timeouts, termination signals) issue at most one
    recovery command in any stretch of less than 1500 ms. *)
Theorem burst_issues_one_recovery (evs : list Event) (s : State) :
  forallb debounced evs = true ->
  elapsed evs < 1500 ->
  (recoveries (trace (run JSON_parse evs s)) <= S (recoveries (trace s)))%nat.
Proof.
  revert s. induction evs as [| ev evs IH]; intros s Hall Hshort; [simpl; lia |].
  simpl in Hall. apply andb_true_iff in Hall. destruct Hall as [Hev Hrest].
  pose proof (elapsed_nonneg evs Hrest) as Hpos.
  rewrite elapsed_cons in Hshort.
  destruct (debounced_event_cases ev s Hev) as [Hpassed Hcases].
  cbv zeta in Hpassed, Hcases. simpl run.
  destruct Hcases as [(Hrec & _ & _) | (_ & Hrec & Hlast & Hclock & _)].
  - rewrite <- Hrec. apply IH; [exact Hrest | lia].
  - rewrite window_open_run; [lia | exact Hrest |]. rewrite Hlast, Hclock. lia.
Qed.

(** X17: one acknowledgement anywhere between the probe and its timeout,
    whatever else happens in between, makes the timeout harmless: when it
    runs it only leaves the list of pending timeouts. *)
Theorem pong_before_timeout_suppresses_recovery (before after : list Event)
    (raw : string) (data : JSON) (s : State) :
  JSON_parse raw = Some data ->
  optional_member data "t" = Some (JString "pong") ->
  let probed := exec (onAppStateChange active) s in
  let later := run JSON_parse (before ++ Message raw :: after) probed in
  nth_error (timers probed) (List.length (timers s))
  = Some (mkTimer (clock s + 1200) (pongCounterRef s)) /\
  forall index t,
    nth_error (timers later) index = Some t ->
    AZVWebView.before t = pongCounterRef s ->
    exec (fireTimeout index) later
    = (if due t <=? clock later
       then with_timers (remove_nth index (timers later)) later
       else later).
Proof.
  intros Hparse Hpong. cbv zeta. split.
  - rewrite exec_onAppStateChange_active. simpl.
    destruct (webViewRef s); simpl; apply nth_error_snoc.
  - intros index t Hnth Hbefore. 
    rewrite exec_fireTimeout, Hnth.
    destruct (due t <=? _); [| reflexivity].
    rewrite exec_heartbeatTimeout. cbn [pongCounterRef with_timers].
    assert (Hgrown : pongCounterRef s
                     < pongCounterRef
                         (run JSON_parse (before ++ Message raw :: after)
                            (exec (onAppStateChange active) s))).
    { rewrite run_app, run_cons.
      set (mid := run JSON_parse before (exec (onAppStateChange active) s)).
      pose proof (run_pongCounterRef_mono JSON_parse after
                    (exec (handle JSON_parse (Message raw)) mid)) as Hafter.
      pose proof (run_pongCounterRef_mono JSON_parse before
                    (exec (onAppStateChange active) s)) as Hbeforemono.
      fold mid in Hbeforemono.
      assert (Hprobe : pongCounterRef (exec (onAppStateChange active) s)
                       = pongCounterRef s).
      { rewrite exec_onAppStateChange_active. destruct (webViewRef s); reflexivity. }
      assert (Hmsg : pongCounterRef (exec (handle JSON_parse (Message raw)) mid)
                     = pongCounterRef mid + 1).
      { unfold handle. rewrite exec_handleMessage, Hparse, Hpong. reflexivity. }
      lia. }
    rewrite Hbefore.
    destruct (Z.eqb_spec
                (pongCounterRef
                   (run JSON_parse (before ++ Message raw :: after)
                      (exec (onAppStateChange active) s)))
                (pongCounterRef s)); [lia | reflexivity].
Qed.

End Runs.

Lemma attempts_stay_below_three_witness :
  0 <= reloadAttemptsRef
         (run (fun _ => None)
            [HttpError (Some 503); Elapse 2000; RenderProcessGone true; Elapse 2000;
             HttpError (Some 500); Elapse 2000; ContentProcessDidTerminate]
            mounted) <= 2.
Proof.
  apply (attempts_stay_below_three (fun _ => None)
           [HttpError (Some 503); Elapse 2000; RenderProcessGone true; Elapse 2000;
            HttpError (Some 500); Elapse 2000; ContentProcessDidTerminate]
           mounted).
  simpl. lia.
Defined.

Lemma burst_issues_one_recovery_witness :
  let evs := [HttpError (Some 503); Elapse 400; HttpError (Some 502); Elapse 400;
              ContentProcessDidTerminate; Elapse 400; HttpError (Some 0)] in
  (recoveries (trace (run (fun _ => None) evs mounted)) <= 1)%nat.
Proof.
  cbv zeta.
  apply (burst_issues_one_recovery (fun _ => None)
           [HttpError (Some 503); Elapse 400; HttpError (Some 502); Elapse 400;
            ContentProcessDidTerminate; Elapse 400; HttpError (Some 0)]
           mounted); [reflexivity | simpl; lia].
Defined.

(** A parser for concrete runs: every message is a pong. *)
Lemma pong_before_timeout_suppresses_recovery_witness :
  let parse := fun _ : string =>
                 Some (JObject [("t", JString "pong"); ("token", JString "1")]) in
  let later := run parse [Elapse 700; Message "ack"; Elapse 500]
                 (exec (onAppStateChange active) mounted) in
  exec (fireTimeout 0) later = with_timers [] later.
Proof.
  cbv zeta.
  destruct (pong_before_timeout_suppresses_recovery
              (fun _ => Some (JObject [("t", JString "pong"); ("token", JString "1")]))
              [Elapse 700] [Elapse 500] "ack"
              (JObject [("t", JString "pong"); ("token", JString "1")])
              mounted eq_refl eq_refl) as [_ Hquiet].
  exact (Hquiet 0%nat (mkTimer 1700000001200 0) eq_refl eq_refl).
Defined.

(** X18: over accepted non-forced requests the attempt counter cycles
    0, 1, 2, 0: with the WebView mounted such a request reloads in place
    when the counter is 0 or 1 and remounts, returning the counter to 0,
    exactly when it is 2. *)
Theorem accepted_request_cycles (s : State) (w : WebView) :
  0 <= reloadAttemptsRef s <= 2 ->
  webViewRef s = Some w ->
  1500 <= clock s - lastReloadRef s ->
  let s' := exec (safeReload false) s in
  trace s' = trace s ++ [if reloadAttemptsRef s =? 2 then Remount else Reload] /\
  reloadAttemptsRef s' = (reloadAttemptsRef s + 1) mod 3 /\
  lastReloadRef s' = clock s.
Proof.
  intros Hbound Href Hd. cbv zeta.
  rewrite exec_safeReload_accepted by exact Hd. simpl.
  destruct (Z.geb_spec (reloadAttemptsRef s + 1) 3) as [Hge | Hlt].
  - assert (Htwo : reloadAttemptsRef s = 2) by lia. rewrite Htwo. repeat split.
  - rewrite exec_softReload. simpl. rewrite Href.
    destruct (Z.eqb_spec (reloadAttemptsRef s) 2); [lia |].
    simpl. repeat split.
    rewrite Z.mod_small; lia.
Qed.

Lemma accepted_request_cycles_witness :
  let s := with_reloadAttemptsRef 2 mounted in
  trace (exec (safeReload false) s) = [Remount] /\
  reloadAttemptsRef (exec (safeReload false) s) = 0.
Proof.
  pose proof (accepted_request_cycles (with_reloadAttemptsRef 2 mounted) WebViewInstance)
    as Hcycle.
  cbv zeta in Hcycle. cbv zeta.
  destruct Hcycle as (Htrace & Hcount & _);
    [simpl; lia | reflexivity | simpl; lia |].
  split; [exact Htrace | exact Hcount].
Defined.

End AZVWebViewRunsFacts.

(** * Properties of the URL rules *)

Module UrlServiceFacts.

Import AppConstants UrlService.

Lemma substring_here (p b : string) :
  substring 0 (String.length p) (p ++ b) = p.
Proof. induction p as [| c p IH]; simpl; [destruct b; reflexivity | now rewrite IH]. Qed.

Lemma substring_inside (a p b : string) :
  substring (String.length a) (String.length p) (a ++ p ++ b) = p.
Proof. induction a as [| c a IH]; simpl; [apply substring_here | exact IH]. Qed.

Lemma substring_prefix_split (p s : string) :
  substring 0 (String.length p) s = p -> exists b, s = (p ++ b)%string.
Proof.
  revert s. induction p as [| c p IH]; intros s Hsub.
  - exists s. reflexivity.
  - destruct s as [| d s]; simpl in Hsub; [discriminate |].
    injection Hsub as -> Hrest. destruct (IH s Hrest) as [b ->].
    exists b. reflexivity.
Qed.

Lemma substring_split (n : nat) (p s : string) :
  substring n (String.length p) s = p -> exists a b, s = (a ++ p ++ b)%string.
Proof.
  revert s. induction n as [| n IH]; intros s Hsub.
  - destruct (substring_prefix_split p s Hsub) as [b ->]. exists ""%string, b. reflexivity.
  - destruct s as [| d s].
    + simpl in Hsub. destruct p; [| discriminate].
      exists ""%string, ""%string. reflexivity.
    + simpl in Hsub. destruct (IH s Hsub) as (a & b & ->).
      exists (String d a), b. reflexivity.
Qed.

(** [includes] is containment. *)
Lemma includes_iff (s part : string) :
  includes s part = true <-> exists a b, s = (a ++ part ++ b)%string.
Proof.
  unfold includes. split.
  - destruct (index 0 part s) as [m |] eqn:Hindex; [| discriminate].
    intros _. apply index_correct1 in Hindex. exact (substring_split m part s Hindex).
  - intros (a & b & ->). destruct (index 0 part (a ++ part ++ b)) eqn:Hindex;
      [reflexivity |].
    destruct part as [| c part].
    + apply index_correct4 in Hindex. lia.
    + exfalso.
      apply (index_correct3 0 (String.length a) _ _ Hindex); [discriminate | lia |].
      apply substring_inside.
Qed.

Lemma startsWith_iff (s part : string) :
  startsWith s part = true <-> exists b, s = (part ++ b)%string.
Proof.
  unfold startsWith. rewrite prefix_correct. split.
  - apply substring_prefix_split.
  - intros [b ->]. apply substring_here.
Qed.

Lemma append_assoc (a b c : string) : ((a ++ b) ++ c = a ++ b ++ c)%string.
Proof. induction a as [| x a IH]; simpl; [reflexivity | now rewrite IH]. Qed.

Lemma includes_embedded (pre s post part : string) :
  includes s part = true -> includes (pre ++ s ++ post)%string part = true.
Proof.
  rewrite !includes_iff. intros (a & b & ->).
  exists (pre ++ a)%string, (b ++ post)%string.
  now rewrite !append_assoc.
Qed.

Lemma existsb_includes_embedded (pre s post : string) (l : list string) :
  existsb (fun part => includes s part) l = true ->
  existsb (fun part => includes (pre ++ s ++ post)%string part) l = true.
Proof.
  induction l as [| part l IH]; simpl; [discriminate |].
  intros Hex. apply orb_true_iff in Hex. apply orb_true_iff.
  destruct Hex as [Hhere | Hrest]; [left; now apply includes_embedded | right; now apply IH].
Qed.

(** Every entry of [allowedProtocols] contains an entry of [allowedUrls]. *)
Lemma protocol_implies_allowed (url : string) :
  existsb (fun protocol => startsWith url protocol) allowedProtocols = true ->
  existsb (fun allowedUrl => includes url allowedUrl) allowedUrls = true.
Proof.
  intros Hp. unfold allowedProtocols in Hp. cbn [existsb] in Hp.
  rewrite !orb_true_iff, !startsWith_iff in Hp.
  assert (Hvia : forall host b,
            url = (("http://" ++ host) ++ b)%string -> includes url host = true).
  { intros host b ->. apply includes_iff. exists "http://"%string, b.
    now rewrite append_assoc. }
  unfold allowedUrls. cbn [existsb].
  destruct Hp as [[b Hb] | [[b Hb] | [[b Hb] | [[b Hb] | Hnone]]]]; [| | | | discriminate].
  - rewrite (Hvia "172.20.10.5:3000"%string b Hb). cbn [orb].
    rewrite !orb_true_r. reflexivity.
  - rewrite (Hvia "192.168.0.11:3000"%string b Hb). cbn [orb].
    rewrite !orb_true_r. reflexivity.
  - rewrite (Hvia "localhost:3000"%string b Hb). cbn [orb].
    rewrite !orb_true_r. reflexivity.
  - rewrite (Hvia "127.0.0.1:3000"%string b Hb). cbn [orb].
    rewrite !orb_true_r. reflexivity.
Qed.

Lemma isAllowedUrl_containment (url : string) :
  isAllowedUrl url = existsb (fun allowedUrl => includes url allowedUrl) allowedUrls.
Proof.
  unfold isAllowedUrl.
  destruct (existsb (fun allowedUrl => includes url allowedUrl) allowedUrls) eqn:Hin;
    [reflexivity |].
  destruct (existsb (fun protocol => startsWith url protocol) allowedProtocols) eqn:Hp;
    [| reflexivity].
  rewrite (protocol_implies_allowed url Hp) in Hin. discriminate.
Qed.

(** X19: the allow-list is matched by containment anywhere in the URL: the
    [allowedProtocols] prefixes never allow a URL that [allowedUrls] does
    not already allow, and a URL that is allowed stays allowed with anything
    put before or after it, so any URL that mentions an allowed host, for
    instance in its query, is allowed. *)
Theorem isAllowedUrl_is_containment (url : string) :
  isAllowedUrl url = existsb (fun allowedUrl => includes url allowedUrl) allowedUrls /\
  (forall pre post,
     isAllowedUrl url = true -> isAllowedUrl (pre ++ url ++ post)%string = true) /\
  (forall other, isAllowedUrl (other ++ "localhost:3000")%string = true).
Proof.
  repeat apply conj.
  - apply isAllowedUrl_containment.
  - intros pre post. rewrite !isAllowedUrl_containment.
    apply existsb_includes_embedded.
  - intros other. rewrite isAllowedUrl_containment.
    assert (Hin : includes (other ++ "localhost:3000")%string "localhost:3000" = true).
    { apply includes_iff. exists other, ""%string. reflexivity. }
    unfold allowedUrls. cbn [existsb]. rewrite Hin. cbn [orb].
    rewrite !orb_true_r. reflexivity.
Qed.

(** X20: [formatUrlForLogging] returns a url of at most 100 UTF-16 code
    units as it is, and otherwise its first 100 code units followed by three
    dots: the result never has more than 103 code units, and always starts
    like the url. *)
Theorem formatUrlForLogging_bounds (url : list CodeUnit) :
  (List.length (formatUrlForLogging url) <= 103)%nat /\
  ((List.length url <= 100)%nat -> formatUrlForLogging url = url) /\
  ((100 < List.length url)%nat ->
     List.length (formatUrlForLogging url) = 103%nat /\
     exists head rest,
       List.length head = 100%nat /\ url = head ++ rest /\
       formatUrlForLogging url = head ++ codeUnits "...").
Proof.
  unfold formatUrlForLogging.
  destruct (Nat.ltb_spec 100 (List.length url)) as [Hlong | Hshort].
  - assert (Hhead : List.length (firstn 100 url) = 100%nat)
      by (rewrite length_firstn; lia).
    repeat apply conj.
    + rewrite length_app, Hhead. cbn [codeUnits list_ascii_of_string map List.length]. lia.
    + lia.
    + intros _. split; [rewrite length_app, Hhead; reflexivity |].
      exists (firstn 100 url), (skipn 100 url).
      repeat split; [exact Hhead | symmetry; apply firstn_skipn].
  - repeat apply conj; [lia | reflexivity | lia].
Qed.

Section LinkingFacts.

Variable canOpenURL : string -> WebViewService.Completion bool.
Variable openURL : string -> WebViewService.Completion unit.

(** X21: the service asks before it opens, and opens only what it was
    asked about: [Linking.openURL] is called for a url only after
    [Linking.canOpenURL] has answered true for that same url, and
    [handleSpecialUrls] never calls [Linking] for a url without a special
    scheme.  It answers true exactly when the scheme is special, the url can
    be opened and opening it did not fail; no rejection escapes. *)
Theorem linking_is_asked_first (url : string) :
  (fst (handleSpecialUrls canOpenURL openURL url) = true <->
   isSpecialScheme url = true /\
   canOpenURL url = WebViewService.Normal true /\
   openURL url = WebViewService.Normal tt) /\
  (isSpecialScheme url = false ->
   handleSpecialUrls canOpenURL openURL url = (false, [])) /\
  (forall u calls,
     calls = snd (handleSpecialUrls canOpenURL openURL url)
     \/ calls = openInExternalBrowser canOpenURL url
     \/ calls = snd (handleDeepLink canOpenURL openURL url) ->
     In (OpenURL u) calls ->
     u = url /\ canOpenURL url = WebViewService.Normal true
     /\ calls = [CanOpenURL url; OpenURL url]).
Proof.
  split; [| split].
  - unfold handleSpecialUrls. destruct (isSpecialScheme url).
    + destruct (canOpenURL url) as [[|] | e]; simpl.
      * destruct (openURL url) as [[] | e]; simpl.
        -- split; [intros _; repeat split | reflexivity].
        -- split; [discriminate | intros (_ & _ & Hbad); discriminate].
      * split; [discriminate | intros (_ & Hbad & _); discriminate].
      * split; [discriminate | intros (_ & Hbad & _); discriminate].
    + simpl. split; [discriminate | intros (Hbad & _); discriminate].
  - intros Hplain. unfold handleSpecialUrls. rewrite Hplain. reflexivity.
  - intros u calls Hcalls Hin.
    assert (Hopened : forall l,
              l = [CanOpenURL url; OpenURL url] \/ l = [CanOpenURL url] \/ l = [] ->
              In (OpenURL u) l -> u = url /\ l = [CanOpenURL url; OpenURL url]).
    { intros l [-> | [-> | ->]] Hl; simpl in Hl.
      - destruct Hl as [Hbad | [Heq | []]]; [discriminate |].
        injection Heq as ->. split; reflexivity.
      - destruct Hl as [Hbad | []]. discriminate.
      - contradiction. }
    unfold handleSpecialUrls, openInExternalBrowser, handleDeepLink in Hcalls.
    destruct (canOpenURL url) as [[|] | e] eqn:Hcan.
    + assert (Hshape : calls = [CanOpenURL url; OpenURL url] \/ calls = [CanOpenURL url]
                       \/ calls = []).
      { destruct Hcalls as [-> | [-> | ->]];
          [destruct (isSpecialScheme url); [destruct (openURL url) |] | |
           destruct (openURL url)]; simpl; auto. }
      destruct (Hopened calls Hshape Hin) as [-> ->]. repeat split.
    + exfalso.
      assert (Hshape : calls = [CanOpenURL url] \/ calls = []).
      { destruct Hcalls as [-> | [-> | ->]];
          [destruct (isSpecialScheme url) | |]; simpl; auto. }
      destruct Hshape as [-> | ->]; simpl in Hin; [destruct Hin as [Hbad | []] |];
        [discriminate | contradiction].
    + exfalso.
      assert (Hshape : calls = [CanOpenURL url] \/ calls = []).
      { destruct Hcalls as [-> | [-> | ->]];
          [destruct (isSpecialScheme url) | |]; simpl; auto. }
      destruct Hshape as [-> | ->]; simpl in Hin; [destruct Hin as [Hbad | []] |];
        [discriminate | contradiction].
Qed.

End LinkingFacts.

Section NavigationAgainstUrlRules.

Variable throws : WebViewService.Call -> option WebViewService.Exn.

Lemma navigation_shape (cm : option ConnectionManagerWrapper.ConnectionManagerHandle)
    (url : string) (calls : list WebViewService.Call) :
  WebViewService.handleNavigationRequest throws cm url calls
  = (WebViewService.Normal true, calls) /\
  (match cm with
   | Some h => negb (ConnectionManagerWrapper.handle_isConnected h)
               && ConnectionManagerWrapper.handle_isOnErrorScreen h
   | None => false
   end) = false /\
  isSpecialScheme url = false /\
  (isAllowedUrl url = true
   \/ includes url "securepayments.fortebank.com" = true
   \/ (includes url "payment=" = true /\
       (includes url "success" = true \/ includes url "failed" = true
        \/ includes url "declined" = true)))
  \/
  exists c,
    WebViewService.handleNavigationRequest throws cm url calls
    = (WebViewService.Normal false, calls ++ [c]).
Proof.
  unfold WebViewService.handleNavigationRequest, WebViewService.try_catch,
    WebViewService.navigationBody.
  set (blocked := match cm with Some h => _ | None => false end).
  assert (Hcall : forall c,
            exists c',
              (let (r, calls') :=
                 WebViewService.js_bind (WebViewService.call throws c)
                   (fun _ => WebViewService.js_ret false) calls in
               match r with
               | WebViewService.Normal v => (WebViewService.Normal v, calls')
               | WebViewService.Throw e => WebViewService.js_ret false calls'
               end) = (WebViewService.Normal false, calls ++ [c'])).
  { intros c. exists c.
    unfold WebViewService.js_bind, WebViewService.call, WebViewService.js_ret.
    destruct (throws c); reflexivity. }
  destruct blocked eqn:Hblocked; [right; apply Hcall |].
  destruct (isSpecialScheme url) eqn:Hspecial; [right; apply Hcall |].
  destruct (isAllowedUrl url) eqn:Hallowed.
  { left. repeat split. left. reflexivity. }
  destruct (includes url "securepayments.fortebank.com") eqn:Hforte.
  { left. repeat split. right. left. reflexivity. }
  destruct (includes url "payment=") eqn:Hpayment; cbn [andb].
  - destruct (includes url "success") eqn:Hsuccess; cbn [orb].
    { left. repeat split. right. right. split; [reflexivity | left; reflexivity]. }
    destruct (includes url "failed") eqn:Hfailed; cbn [orb].
    { left. repeat split. right. right.
      split; [reflexivity | right; left; reflexivity]. }
    destruct (includes url "declined") eqn:Hdeclined.
    { left. repeat split. right. right.
      split; [reflexivity | right; right; reflexivity]. }
    right. apply Hcall.
  - right. apply Hcall.
Qed.

(** X22: [handleNavigationRequest] either lets the WebView load the url and
    calls nobody, or refuses and makes exactly one call on a collaborator.
    It lets a url load only if the scheme is not special and the url is on
    the allow-list or is one of the payment urls, so never a url that
    [getUrlType] classifies as external.  Whenever [processNavigationRequest]
    would continue, so does [handleNavigationRequest] unless the connection
    gate blocks.  A url that has a special scheme and also contains an
    allowed address is classified as a WebView url and yet both navigation
    functions refuse to load it. *)
Theorem navigation_loads_or_hands_off
    (cm : option ConnectionManagerWrapper.ConnectionManagerHandle)
    (url : string) (calls : list WebViewService.Call) :
  (WebViewService.handleNavigationRequest throws cm url calls
   = (WebViewService.Normal true, calls)
   \/ exists c,
        WebViewService.handleNavigationRequest throws cm url calls
        = (WebViewService.Normal false, calls ++ [c])) /\
  (fst (WebViewService.handleNavigationRequest throws cm url calls)
   = WebViewService.Normal true ->
   isSpecialScheme url = false /\ getUrlType url <> EXTERNAL /\
   (isAllowedUrl url = true
    \/ includes url "securepayments.fortebank.com" = true
    \/ includes url "payment=" = true)) /\
  (forall canOpenURL openURL,
     shouldContinue (fst (processNavigationRequest canOpenURL openURL url)) = true ->
     shouldHandleUrl url = true /\ getUrlType url = WEBVIEW /\
     snd (processNavigationRequest canOpenURL openURL url) = [] /\
     WebViewService.handleNavigationRequest throws None url calls
     = (WebViewService.Normal true, calls)) /\
  (isSpecialScheme url = true -> isAllowedUrl url = true ->
   getUrlType url = WEBVIEW /\
   WebViewService.handleNavigationRequest throws None url calls
   = (WebViewService.Normal false, calls ++ [WebViewService.HandleSpecialUrls url]) /\
   forall canOpenURL openURL,
     shouldContinue (fst (processNavigationRequest canOpenURL openURL url)) = false).
Proof.
  split; [| split; [| split]].
  - destruct (navigation_shape cm url calls) as [(Hloads & _) | Hrefused];
      [left; exact Hloads | right; exact Hrefused].
  - intros Hanswer.
    destruct (navigation_shape cm url calls)
      as [(_ & _ & Hspecial & Hwhy) | [c Hrefused]].
    + split; [exact Hspecial |]. split.
      * unfold getUrlType. rewrite Hspecial.
        destruct (isAllowedUrl url); discriminate.
      * destruct Hwhy as [H | [H | [H _]]]; auto.
    + rewrite Hrefused in Hanswer. discriminate.
  - intros canOpenURL openURL.
    unfold processNavigationRequest, shouldHandleUrl, getUrlType,
      WebViewService.handleNavigationRequest, WebViewService.try_catch,
      WebViewService.navigationBody.
    destruct (isSpecialScheme url) eqn:Hspecial.
    + destruct (handleSpecialUrls canOpenURL openURL url). simpl. discriminate.
    + destruct (isAllowedUrl url) eqn:Hallowed; simpl; [| discriminate].
      intros _. repeat split.
  - intros Hspecial Hallowed.
    unfold processNavigationRequest, getUrlType,
      WebViewService.handleNavigationRequest, WebViewService.try_catch,
      WebViewService.navigationBody.
    rewrite Hspecial, Hallowed. repeat apply conj.
    + reflexivity.
    + simpl. unfold WebViewService.js_bind, WebViewService.call, WebViewService.js_ret.
      destruct (throws (WebViewService.HandleSpecialUrls url)); reflexivity.
    + intros canOpenURL openURL.
      destruct (handleSpecialUrls canOpenURL openURL url). reflexivity.
Qed.

End NavigationAgainstUrlRules.

End UrlServiceFacts.

(** * Properties of the token, logout and page-load handlers *)

Module WebViewServiceHandlersFacts.

Import WebViewService WebViewServiceHandlers.

Ltac fields :=
  cbn [fst snd webViewRef callbacks storage world timeouts trace
       with_trace with_world with_storage with_timeouts with_webViewRef with_callbacks
       connectionMonitor].

Lemma lookup_without_same (key : string) (items : list (string * string)) :
  lookup key (without key items) = None.
Proof.
  induction items as [| [k v] rest IH]; simpl; [reflexivity |].
  destruct (String.eqb k key) eqn:Hk; simpl; [exact IH |].
  rewrite Hk. exact IH.
Qed.

Lemma lookup_without_other (key other : string) (items : list (string * string)) :
  String.eqb key other = false ->
  lookup other (without key items) = lookup other items.
Proof.
  intros Hother. induction items as [| [k v] rest IH]; simpl; [reflexivity |].
  destruct (String.eqb k key) eqn:Hk; simpl.
  - apply String.eqb_eq in Hk. subst k. rewrite Hother. exact IH.
  - destruct (String.eqb k other); [reflexivity | exact IH].
Qed.

Lemma lookup_without (key other : string) (items : list (string * string)) :
  lookup other (without key items)
  = if String.eqb other key then None else lookup other items.
Proof.
  destruct (String.eqb other key) eqn:Hk.
  - apply String.eqb_eq in Hk. subst other. apply lookup_without_same.
  - apply lookup_without_other. rewrite String.eqb_sym. exact Hk.
Qed.

(** The two tests of [handleAccessToken] are complementary. *)
Lemma token_tests_complementary (data : option string) :
  negb (truthy data) || equals data "null" || equals data "undefined"
  = negb (truthy data && negb (equals data "null") && negb (equals data "undefined")).
Proof.
  destruct data as [s |]; simpl; [| reflexivity].
  destruct (String.eqb s ""), (String.eqb s "null"), (String.eqb s "undefined");
    reflexivity.
Qed.

Lemma valid_token (token : string) :
  token <> "" -> token <> "null" -> token <> "undefined" ->
  truthy (Some token) && negb (equals (Some token) "null")
  && negb (equals (Some token) "undefined") = true.
Proof.
  intros Hempty Hnull Hundefined. unfold truthy, equals.
  apply String.eqb_neq in Hempty, Hnull, Hundefined.
  rewrite Hempty, Hnull, Hundefined. reflexivity.
Qed.

Lemma executeJavaScript_adds (code : Script) (st : State) :
  executeJavaScript code st
  = (Normal tt,
     with_timeouts (timeouts st ++ queued code st)
       (with_trace (trace st ++ sent code st) st)).
Proof.
  unfold executeJavaScript, sent, queued, emit, setTimeout, change.
  destruct st as [ref cbs items w pending t]. fields.
  destruct ref; unfold with_timeouts, with_trace; fields;
    rewrite ?app_nil_r; reflexivity.
Qed.

Lemma onMonitor_sets (f : Monitor.Service -> Monitor.Service) (st : State) :
  onMonitor f st
  = (Normal tt,
     with_world (Monitor.withService (f (connectionMonitor st)) (world st)) st).
Proof. reflexivity. Qed.

Section StorageFacts.

Variable rejects : StorageCall -> option Exn.
Variable saveTokenToBackend : string -> string -> bool.

Lemma handleLogout_cases (data : option string) (st : State) :
  let st0 := with_world (Monitor.withService
                           (Monitor.setShouldShowErrorOnTimeout false (connectionMonitor st))
                           (world st)) st in
  handleLogout rejects data st =
  match rejects (RemoveItem "fcm_token") with
  | Some e =>
      executeJavaScript (LogoutResult false (describe e))
        (with_trace (trace st ++ [Storage (RemoveItem "fcm_token")]) st0)
  | None =>
      match rejects (RemoveItem "access_token") with
      | Some e =>
          executeJavaScript (LogoutResult false (describe e))
            (with_trace (trace st ++ [Storage (RemoveItem "fcm_token");
                                      Storage (RemoveItem "access_token")])
               (with_storage (without "fcm_token" (storage st)) st0))
      | None =>
          match rejects (RemoveItem "user_data") with
          | Some e =>
              executeJavaScript (LogoutResult false (describe e))
                (with_trace (trace st ++ [Storage (RemoveItem "fcm_token");
                                          Storage (RemoveItem "access_token");
                                          Storage (RemoveItem "user_data")])
                   (with_storage (without "access_token"
                                    (without "fcm_token" (storage st))) st0))
          | None =>
              executeJavaScript (LogoutResult true "Logout completed successfully")
                (with_trace (trace st ++ [Storage (RemoveItem "fcm_token");
                                          Storage (RemoveItem "access_token");
                                          Storage (RemoveItem "user_data")])
                   (with_storage (without "user_data"
                                    (without "access_token"
                                       (without "fcm_token" (storage st)))) st0))
          end
      end
  end.
Proof.
  cbv zeta. unfold handleLogout, removeItem, tryCatch, andThen, emit, onMonitor, change.
  destruct st as [ref cbs items w pending t]. fields.
  destruct (rejects (RemoveItem "fcm_token")).
  { rewrite !executeJavaScript_adds. reflexivity. }
  destruct (rejects (RemoveItem "access_token")).
  { rewrite !executeJavaScript_adds. fields. cbn [app].
    rewrite <- !app_assoc. reflexivity. }
  destruct (rejects (RemoveItem "user_data")).
  { rewrite !executeJavaScript_adds. fields. cbn [app].
    rewrite <- !app_assoc. reflexivity. }
  rewrite !executeJavaScript_adds. fields. cbn [app].
  rewrite <- !app_assoc. reflexivity.
Qed.

(** X23: [handleLogout] never rejects; it always switches the automatic
    error screen off and leaves the screen itself alone, and it hands
    exactly one result script to [executeJavaScript].  When no removal
    rejects, the three keys are gone from the store, every other key keeps
    its value, and the script reports success.  The removals run in order
    and stop at the first rejection: when removing [fcm_token] rejects the
    store is unchanged, so the access token stays stored, and when removing
    [access_token] rejects only [fcm_token] is gone; whichever removal
    rejects, the script reports the failure. *)
Theorem handleLogout_outcome (data : option string) (st : State) :
  result (handleLogout rejects data) st = Normal tt /\
  Monitor.shouldShowErrorOnTimeout (connectionMonitor (run (handleLogout rejects data) st))
  = false /\
  Wrapper.currentScreen (world (run (handleLogout rejects data) st))
  = Wrapper.currentScreen (world st) /\
  (rejects (RemoveItem "fcm_token") = None ->
   rejects (RemoveItem "access_token") = None ->
   rejects (RemoveItem "user_data") = None ->
   (forall key,
      lookup key (storage (run (handleLogout rejects data) st))
      = if String.eqb key "fcm_token" || String.eqb key "access_token"
           || String.eqb key "user_data"
        then None else lookup key (storage st)) /\
   trace (run (handleLogout rejects data) st)
   = trace st ++ [Storage (RemoveItem "fcm_token"); Storage (RemoveItem "access_token");
                  Storage (RemoveItem "user_data")]
     ++ sent (LogoutResult true "Logout completed successfully") st /\
   timeouts (run (handleLogout rejects data) st)
   = timeouts st ++ queued (LogoutResult true "Logout completed successfully") st) /\
  (forall e,
     rejects (RemoveItem "fcm_token") = Some e ->
     storage (run (handleLogout rejects data) st) = storage st /\
     trace (run (handleLogout rejects data) st)
     = trace st ++ [Storage (RemoveItem "fcm_token")]
       ++ sent (LogoutResult false (describe e)) st /\
     timeouts (run (handleLogout rejects data) st)
     = timeouts st ++ queued (LogoutResult false (describe e)) st) /\
  (forall e,
     rejects (RemoveItem "fcm_token") = None ->
     rejects (RemoveItem "access_token") = Some e ->
     storage (run (handleLogout rejects data) st) = without "fcm_token" (storage st) /\
     lookup "access_token" (storage (run (handleLogout rejects data) st))
     = lookup "access_token" (storage st) /\
     trace (run (handleLogout rejects data) st)
     = trace st ++ [Storage (RemoveItem "fcm_token"); Storage (RemoveItem "access_token")]
       ++ sent (LogoutResult false (describe e)) st /\
     timeouts (run (handleLogout rejects data) st)
     = timeouts st ++ queued (LogoutResult false (describe e)) st) /\
  (forall e,
     rejects (RemoveItem "fcm_token") = None ->
     rejects (RemoveItem "access_token") = None ->
     rejects (RemoveItem "user_data") = Some e ->
     storage (run (handleLogout rejects data) st)
     = without "access_token" (without "fcm_token" (storage st)) /\
     lookup "user_data" (storage (run (handleLogout rejects data) st))
     = lookup "user_data" (storage st) /\
     trace (run (handleLogout rejects data) st)
     = trace st ++ [Storage (RemoveItem "fcm_token"); Storage (RemoveItem "access_token");
                    Storage (RemoveItem "user_data")]
       ++ sent (LogoutResult false (describe e)) st /\
     timeouts (run (handleLogout rejects data) st)
     = timeouts st ++ queued (LogoutResult false (describe e)) st).
Proof.
  unfold run, result. rewrite handleLogout_cases. cbv zeta.
  destruct st as [ref cbs items w pending t].
  destruct (rejects (RemoveItem "fcm_token")) as [e1 |];
    [| destruct (rejects (RemoveItem "access_token")) as [e2 |];
       [| destruct (rejects (RemoveItem "user_data")) as [e3 |]]];
    rewrite executeJavaScript_adds; unfold sent, queued, now; fields;
    cbn [Monitor.withService Wrapper.connectionMonitor Wrapper.currentScreen
         Monitor.setShouldShowErrorOnTimeout Monitor.with_shouldShowErrorOnTimeout
         Monitor.shouldShowErrorOnTimeout Monitor.clock].
  - repeat apply conj; try reflexivity.
    + intros Hbad. discriminate.
    + intros e He. injection He as <-. rewrite <- !app_assoc. repeat split.
    + intros e Hbad. discriminate.
    + intros e Hbad. discriminate.
  - repeat apply conj; try reflexivity.
    + intros _ Hbad. discriminate.
    + intros e Hbad. discriminate.
    + intros e _ He. injection He as <-. rewrite <- !app_assoc.
      repeat apply conj; try reflexivity.
      apply lookup_without_other. reflexivity.
    + intros e _ Hbad. discriminate.
  - repeat apply conj; try reflexivity.
    + intros _ _ Hbad. discriminate.
    + intros e Hbad. discriminate.
    + intros e _ Hbad. discriminate.
    + intros e _ _ He. injection He as <-. rewrite <- !app_assoc.
      repeat apply conj; try reflexivity.
      rewrite !lookup_without. reflexivity.
  - repeat apply conj; try reflexivity.
    + intros _ _ _. repeat apply conj.
      * intros key. rewrite !lookup_without.
        destruct (String.eqb key "fcm_token"), (String.eqb key "access_token"),
          (String.eqb key "user_data"); reflexivity.
      * rewrite <- !app_assoc. reflexivity.
      * reflexivity.
    + intros e Hbad. discriminate.
    + intros e _ Hbad. discriminate.
    + intros e _ _ Hbad. discriminate.
Qed.

Lemma setItem_cases (key value : string) (st : State) :
  setItem rejects key value st =
  match rejects (SetItem key value) with
  | Some e => (Throw e, with_trace (trace st ++ [Storage (SetItem key value)]) st)
  | None =>
      (Normal tt,
       with_storage ((key, value) :: without key (storage st))
         (with_trace (trace st ++ [Storage (SetItem key value)]) st))
  end.
Proof.
  unfold setItem, andThen, emit, change. fields.
  destruct (rejects (SetItem key value)); reflexivity.
Qed.

Lemma getAccessToken_cases (st : State) :
  getAccessToken rejects st =
  match webViewRef st with
  | None => (Normal None, st)
  | Some _ =>
      match rejects (GetItem "access_token") with
      | Some _ =>
          (Normal None, with_trace (trace st ++ [Storage (GetItem "access_token")]) st)
      | None =>
          if truthy (lookup "access_token" (storage st))
          then (Normal (lookup "access_token" (storage st)),
                with_trace (trace st ++ [Storage (GetItem "access_token")]) st)
          else (Normal None,
                with_trace (trace st ++ [Storage (GetItem "access_token");
                                         InjectJavaScript PostAccessToken]) st)
      end
  end.
Proof.
  unfold getAccessToken, getItem, tryCatch, andThen, emit, change, done.
  destruct st as [ref cbs items w pending t]. fields.
  destruct ref as [v |]; [| reflexivity].
  destruct (rejects (GetItem "access_token")); [reflexivity |].
  fields. destruct (truthy (lookup "access_token" items)); [reflexivity |].
  fields. unfold with_trace. fields. rewrite <- app_assoc. reflexivity.
Qed.

Lemma storing_handlers_agree (token : string) (st : State) :
  token <> "" -> token <> "null" -> token <> "undefined" ->
  handleAccessToken rejects (Some token) st
  = handleAccessTokenResponse rejects (Some token) st /\
  handleAccessToken rejects (Some token) st
  = let st0 := with_trace (trace st ++ [Storage (SetItem "access_token" token)])
                 (with_world
                    (Monitor.withService
                       (Monitor.setShouldShowErrorOnTimeout false (connectionMonitor st))
                       (world st)) st) in
    (Normal tt,
     match rejects (SetItem "access_token" token) with
     | Some _ => st0
     | None => with_storage (("access_token", token) :: without "access_token" (storage st))
                 st0
     end).
Proof.
  intros Hempty Hnull Hundefined.
  pose proof (valid_token token Hempty Hnull Hundefined) as Hvalid.
  unfold handleAccessToken, handleAccessTokenResponse.
  rewrite token_tests_complementary, Hvalid. cbn [negb].
  unfold tryCatch, andThen. rewrite onMonitor_sets, setItem_cases.
  destruct (rejects (SetItem "access_token" token)); split; reflexivity.
Qed.

(** X24: a token that is a non-empty string other than the texts
    [null] and [undefined] is stored under [access_token] by
    [handleAccessToken] and by [handleAccessTokenResponse] alike, with the
    automatic error screen switched off and no script injected; with the
    WebView reference set, [getAccessToken] then answers with that token
    from the store, without asking the page. *)
Theorem access_token_round_trip (token : string) (st : State) :
  token <> "" -> token <> "null" -> token <> "undefined" ->
  webViewRef st <> None ->
  rejects (SetItem "access_token" token) = None ->
  rejects (GetItem "access_token") = None ->
  handleAccessTokenResponse rejects (Some token) st
  = handleAccessToken rejects (Some token) st /\
  result (handleAccessToken rejects (Some token)) st = Normal tt /\
  lookup "access_token" (storage (run (handleAccessToken rejects (Some token)) st))
  = Some token /\
  Monitor.shouldShowErrorOnTimeout
    (connectionMonitor (run (handleAccessToken rejects (Some token)) st)) = false /\
  trace (run (handleAccessToken rejects (Some token)) st)
  = trace st ++ [Storage (SetItem "access_token" token)] /\
  timeouts (run (handleAccessToken rejects (Some token)) st) = timeouts st /\
  getAccessToken rejects (run (handleAccessToken rejects (Some token)) st)
  = (Normal (Some token),
     with_trace (trace st ++ [Storage (SetItem "access_token" token);
                              Storage (GetItem "access_token")])
       (run (handleAccessToken rejects (Some token)) st)).
Proof.
  intros Hempty Hnull Hundefined Href Hset Hget.
  destruct (storing_handlers_agree token st Hempty Hnull Hundefined) as [Hsame Hstored].
  rewrite Hset in Hstored. cbv zeta in Hstored.
  split; [symmetry; exact Hsame |].
  unfold run, result. rewrite Hstored. fields.
  assert (Hfound : lookup "access_token"
                     (("access_token", token) :: without "access_token" (storage st))
                   = Some token) by reflexivity.
  repeat apply conj; try reflexivity.
  rewrite getAccessToken_cases. fields. rewrite Hget, Hfound.
  destruct (webViewRef st) as [v |]; [| contradiction].
  assert (Htruthy : truthy (Some token) = true).
  { unfold truthy. apply String.eqb_neq in Hempty. rewrite Hempty. reflexivity. }
  rewrite Htruthy. unfold with_trace. fields. rewrite <- app_assoc. reflexivity.
Qed.

(** X25: when [data] is [null], [undefined], empty or one of the texts
    [null] and [undefined], [handleAccessToken] stores nothing, leaves the
    monitor alone and hands one script to [executeJavaScript], the one that
    makes the page post [accessTokenResponse]; for such data
    [handleAccessTokenResponse] does nothing at all.  Whatever the data,
    [handleAccessTokenResponse] completes normally, injects nothing and
    arms no timer, so the exchange ends there. *)
Theorem absent_token_is_asked_for_once (data : option string) (st : State) :
  negb (truthy data) || equals data "null" || equals data "undefined" = true ->
  handleAccessToken rejects data st
  = (Normal tt,
     with_timeouts (timeouts st ++ queued PostAccessTokenResponse st)
       (with_trace (trace st ++ sent PostAccessTokenResponse st) st)) /\
  handleAccessTokenResponse rejects data st = (Normal tt, st) /\
  (forall (any : option string) (code : Script),
     result (handleAccessTokenResponse rejects any) st = Normal tt /\
     injections code (trace (run (handleAccessTokenResponse rejects any) st))
     = injections code (trace st) /\
     timeouts (run (handleAccessTokenResponse rejects any) st) = timeouts st).
Proof.
  intros Habsent.
  assert (Hvalid : truthy data && negb (equals data "null")
                   && negb (equals data "undefined") = false).
  { rewrite token_tests_complementary in Habsent.
    apply negb_true_iff in Habsent. exact Habsent. }
  repeat apply conj.
  - unfold handleAccessToken. rewrite Habsent, Hvalid.
    unfold tryCatch, andThen, done. rewrite executeJavaScript_adds. reflexivity.
  - unfold handleAccessTokenResponse. rewrite Hvalid. reflexivity.
  - intros any code. unfold handleAccessTokenResponse, run, result.
    destruct (truthy any && negb (equals any "null") && negb (equals any "undefined"));
      [| repeat split].
    unfold tryCatch, andThen, done. rewrite onMonitor_sets.
    destruct any as [token |]; [| repeat split].
    rewrite setItem_cases.
    destruct (rejects (SetItem "access_token" token)); fields;
      (repeat apply conj; [reflexivity | | reflexivity]);
      unfold injections; rewrite filter_app, length_app; cbn [filter List.length];
      apply Nat.add_0_r.
Qed.

Lemma sendFCMTokenToBackend_cases (fcmToken : string) (st : State) :
  sendFCMTokenToBackend rejects saveTokenToBackend fcmToken st =
  match webViewRef st with
  | None => (Normal false, st)
  | Some _ =>
      match rejects (GetItem "access_token") with
      | Some _ =>
          (Normal false, with_trace (trace st ++ [Storage (GetItem "access_token")]) st)
      | None =>
          match lookup "access_token" (storage st) with
          | Some token =>
              if String.eqb token "" then
                (Normal false,
                 with_trace (trace st ++ [Storage (GetItem "access_token");
                                          InjectJavaScript PostAccessToken]) st)
              else if saveTokenToBackend fcmToken token then
                match rejects (SetItem "fcm_token" fcmToken) with
                | Some _ =>
                    (Normal false,
                     with_trace (trace st ++ [Storage (GetItem "access_token");
                                              SaveTokenToBackend fcmToken token;
                                              Storage (SetItem "fcm_token" fcmToken)]) st)
                | None =>
                    (Normal true,
                     with_storage (("fcm_token", fcmToken) :: without "fcm_token" (storage st))
                       (with_trace (trace st ++ [Storage (GetItem "access_token");
                                                 SaveTokenToBackend fcmToken token;
                                                 Storage (SetItem "fcm_token" fcmToken)]) st))
                end
              else
                (Normal false,
                 with_trace (trace st ++ [Storage (GetItem "access_token");
                                          SaveTokenToBackend fcmToken token]) st)
          | None =>
              (Normal false,
               with_trace (trace st ++ [Storage (GetItem "access_token");
                                        InjectJavaScript PostAccessToken]) st)
          end
      end
  end.
Proof.
  unfold sendFCMTokenToBackend, tryCatch, andThen at 1.
  rewrite getAccessToken_cases.
  destruct st as [ref cbs items w pending t]. fields.
  destruct ref as [v |]; [| reflexivity].
  destruct (rejects (GetItem "access_token")); [reflexivity |].
  destruct (lookup "access_token" items) as [token |]; [| reflexivity].
  unfold truthy at 1. destruct (String.eqb token "") eqn:Hempty; cbn [negb];
    [reflexivity |].
  unfold truthy. rewrite Hempty. cbn [negb].
  unfold andThen, emit, change, done. fields.
  destruct (saveTokenToBackend fcmToken token).
  - rewrite setItem_cases. fields.
    destruct (rejects (SetItem "fcm_token" fcmToken)); unfold with_trace, with_storage;
      fields; rewrite <- !app_assoc; reflexivity.
  - unfold with_trace. fields. rewrite <- !app_assoc. reflexivity.
Qed.

(** X26: [sendFCMTokenToBackend] never rejects.  Without a WebView
    reference it answers false and does nothing, not even reading the
    store, whether or not an access token is stored.  It answers true only
    if a non-empty access token is stored and the backend accepted the FCM
    token sent with it, and then [fcm_token] holds the FCM token.  The
    backend is only ever called with the stored access token. *)
Theorem sendFCMTokenToBackend_outcome (fcmToken : string) (st : State) :
  (exists answer,
     result (sendFCMTokenToBackend rejects saveTokenToBackend fcmToken) st = Normal answer) /\
  (webViewRef st = None ->
   sendFCMTokenToBackend rejects saveTokenToBackend fcmToken st = (Normal false, st)) /\
  (result (sendFCMTokenToBackend rejects saveTokenToBackend fcmToken) st = Normal true ->
   exists token,
     webViewRef st <> None /\
     lookup "access_token" (storage st) = Some token /\ token <> "" /\
     saveTokenToBackend fcmToken token = true /\
     lookup "fcm_token"
       (storage (run (sendFCMTokenToBackend rejects saveTokenToBackend fcmToken) st))
     = Some fcmToken /\
     trace (run (sendFCMTokenToBackend rejects saveTokenToBackend fcmToken) st)
     = trace st ++ [Storage (GetItem "access_token"); SaveTokenToBackend fcmToken token;
                    Storage (SetItem "fcm_token" fcmToken)]) /\
  (forall fcm token,
     In (SaveTokenToBackend fcm token)
       (trace (run (sendFCMTokenToBackend rejects saveTokenToBackend fcmToken) st)) ->
     In (SaveTokenToBackend fcm token) (trace st)
     \/ (fcm = fcmToken /\ lookup "access_token" (storage st) = Some token)).
Proof.
  unfold run, result. rewrite sendFCMTokenToBackend_cases.
  assert (Hold : forall fcm token extra,
            In (SaveTokenToBackend fcm token) (trace st ++ extra) ->
            (forall e, In e extra -> e = SaveTokenToBackend fcm token ->
                       fcm = fcmToken /\ lookup "access_token" (storage st) = Some token) ->
            In (SaveTokenToBackend fcm token) (trace st)
            \/ (fcm = fcmToken /\ lookup "access_token" (storage st) = Some token)).
  { intros fcm token extra Hin Hextra. apply in_app_or in Hin.
    destruct Hin as [Hin | Hin]; [left; exact Hin | right].
    apply (Hextra _ Hin). reflexivity. }
  destruct (webViewRef st) as [v |] eqn:Href.
  2:{ repeat apply conj.
      - exists false. reflexivity.
      - reflexivity.
      - discriminate.
      - intros fcm token Hin. left. exact Hin. }
  destruct (rejects (GetItem "access_token")).
  { repeat apply conj.
    - exists false. reflexivity.
    - discriminate.
    - discriminate.
    - fields. intros fcm token Hin. apply (Hold _ _ _ Hin).
      intros eff [<- | []] Hbad. discriminate. }
  destruct (lookup "access_token" (storage st)) as [stored |] eqn:Hstored.
  2:{ repeat apply conj.
      - exists false. reflexivity.
      - discriminate.
      - discriminate.
      - fields. intros fcm token Hin. apply (Hold _ _ _ Hin).
        intros eff [<- | [<- | []]] Hbad; discriminate. }
  destruct (String.eqb stored "") eqn:Hempty.
  { repeat apply conj.
    - exists false. reflexivity.
    - discriminate.
    - discriminate.
    - fields. intros fcm token Hin. apply (Hold _ _ _ Hin).
      intros eff [<- | [<- | []]] Hbad; discriminate. }
  apply String.eqb_neq in Hempty.
  destruct (saveTokenToBackend fcmToken stored) eqn:Hsaved.
  - destruct (rejects (SetItem "fcm_token" fcmToken)).
    + repeat apply conj.
      * exists false. reflexivity.
      * discriminate.
      * discriminate.
      * fields. intros fcm token Hin. apply (Hold _ _ _ Hin).
        intros eff [<- | [<- | [<- | []]]] Hsame; try discriminate.
        injection Hsame as -> ->. split; reflexivity.
    + repeat apply conj.
      * exists true. reflexivity.
      * discriminate.
      * intros _. exists stored. fields.
        repeat apply conj; try reflexivity; try assumption. discriminate.
      * fields. intros fcm token Hin. apply (Hold _ _ _ Hin).
        intros eff [<- | [<- | [<- | []]]] Hsame; try discriminate.
        injection Hsame as -> ->. split; reflexivity.
  - repeat apply conj.
    + exists false. reflexivity.
    + discriminate.
    + discriminate.
    + fields. intros fcm token Hin. apply (Hold _ _ _ Hin).
      intros eff [<- | [<- | []]] Hsame; try discriminate.
      injection Hsame as -> ->. split; reflexivity.
Qed.

End StorageFacts.

Lemma access_token_round_trip_witness :
  let st := setWebViewRef AZVWebView.WebViewInstance
              (constructed (Monitor.launched 1700000000000)) in
  let stored := run (handleAccessToken (fun _ => None) (Some "eyJhbGciOi")) st in
  lookup "access_token" (storage stored) = Some "eyJhbGciOi" /\
  result (getAccessToken (fun _ => None)) stored = Normal (Some "eyJhbGciOi").
Proof.
  cbv zeta.
  assert (Hempty : "eyJhbGciOi" <> "") by discriminate.
  assert (Hnull : "eyJhbGciOi" <> "null") by discriminate.
  assert (Hundefined : "eyJhbGciOi" <> "undefined") by discriminate.
  assert (Href : webViewRef (setWebViewRef AZVWebView.WebViewInstance
                               (constructed (Monitor.launched 1700000000000))) <> None)
    by (simpl; discriminate).
  destruct (access_token_round_trip (fun _ => None) "eyJhbGciOi"
              (setWebViewRef AZVWebView.WebViewInstance
                 (constructed (Monitor.launched 1700000000000)))
              Hempty Hnull Hundefined Href eq_refl eq_refl)
    as (_ & _ & Hstored & _ & _ & _ & Hget).
  split; [exact Hstored |]. unfold result. rewrite Hget. reflexivity.
Defined.

Lemma absent_token_is_asked_for_once_witness :
  let st := setWebViewRef AZVWebView.WebViewInstance
              (constructed (Monitor.launched 1700000000000)) in
  trace (run (handleAccessToken (fun _ => None) (Some "null")) st)
  = [InjectJavaScript PostAccessTokenResponse] /\
  handleAccessTokenResponse (fun _ => None) (Some "null") st = (Normal tt, st).
Proof.
  cbv zeta.
  destruct (absent_token_is_asked_for_once (fun _ => None) (Some "null")
              (setWebViewRef AZVWebView.WebViewInstance
                 (constructed (Monitor.launched 1700000000000))) eq_refl)
    as (Hasked & Hnothing & _).
  split; [| exact Hnothing]. unfold run. rewrite Hasked. reflexivity.
Defined.

Lemma Script_eqb_refl (code : Script) : Script_eqb code code = true.
Proof.
  destruct code as [| success message | | |]; simpl; try reflexivity.
  rewrite Bool.eqb_reflx, String.eqb_refl. reflexivity.
Qed.

Lemma injections_snoc (code : Script) (t : list Effect) (e : Effect) :
  injections code (t ++ [e])
  = (injections code t + if isInjection code e then 1 else 0)%nat.
Proof.
  unfold injections. rewrite filter_app, length_app. cbn [filter].
  destruct (isInjection code e); reflexivity.
Qed.

(** X27: a script handed to [executeJavaScript] is injected at most once.
    With the WebView reference set it is injected at once and no timer is
    armed.  Without the reference nothing is injected and one timer is
    armed, due 100 ms later; before that the timer does nothing, and when
    it runs the script is injected if the reference has been set by then
    and dropped if not, the timer is gone and no further retry is armed. *)
Theorem executeJavaScript_retries_once (code : Script) (st later : State) :
  webViewRef st = None ->
  timeouts later = timeouts (run (executeJavaScript code) st) ->
  (forall attached,
     webViewRef attached <> None ->
     executeJavaScript code attached
     = (Normal tt, with_trace (trace attached ++ [InjectJavaScript code]) attached)) /\
  trace (run (executeJavaScript code) st) = trace st /\
  timeouts (run (executeJavaScript code) st)
  = timeouts st ++ [mkTimeout (now st + 100) (RetryInjection code)] /\
  (now later < now st + 100 ->
   fireTimeout (List.length (timeouts st)) later = (Normal tt, later)) /\
  (now st + 100 <= now later ->
   fireTimeout (List.length (timeouts st)) later
   = (Normal tt,
      with_trace (trace later ++ sent code later) (with_timeouts (timeouts st) later)) /\
   injections code (trace (run (fireTimeout (List.length (timeouts st))) later))
   = (injections code (trace later)
      + match webViewRef later with Some _ => 1 | None => 0 end)%nat).
Proof.
  intros Href Hlater.
  assert (Hrun : run (executeJavaScript code) st
                 = with_timeouts
                     (timeouts st ++ [mkTimeout (now st + 100) (RetryInjection code)])
                     (with_trace (trace st ++ []) st)).
  { unfold run. rewrite executeJavaScript_adds. unfold sent, queued.
    rewrite Href. reflexivity. }
  rewrite Hrun in Hlater |- *. cbn [timeouts trace with_timeouts with_trace] in Hlater |- *.
  assert (Hfire : fireTimeout (List.length (timeouts st)) later
                  = if now st + 100 <=? now later
                    then (Normal tt,
                          with_trace (trace later ++ sent code later)
                            (with_timeouts (timeouts st) later))
                    else (Normal tt, later)).
  { unfold fireTimeout. rewrite Hlater, AZVWebViewFacts.nth_error_snoc.
    cbn [due callback]. destruct (now st + 100 <=? now later); [| reflexivity].
    rewrite AZVWebViewFacts.remove_nth_snoc.
    unfold retryInjection, sent, emit, change, done.
    destruct later as [ref cbs items w pending t]. fields.
    destruct ref; unfold with_trace, with_timeouts; fields; rewrite ?app_nil_r;
      reflexivity. }
  repeat apply conj.
  - intros attached Hattached. rewrite executeJavaScript_adds.
    unfold sent, queued. destruct attached as [ref cbs items w pending t]. fields.
    destruct ref; [| contradiction].
    unfold with_timeouts, with_trace. fields. rewrite app_nil_r. reflexivity.
  - apply app_nil_r.
  - reflexivity.
  - intros Hearly. rewrite Hfire.
    destruct (Z.leb_spec (now st + 100) (now later)); [lia | reflexivity].
  - intros Hdue. unfold run. rewrite Hfire.
    destruct (Z.leb_spec (now st + 100) (now later)); [| lia].
    split; [reflexivity |].
    fields. unfold sent. destruct (webViewRef later).
    + rewrite injections_snoc. cbn [isInjection]. rewrite Script_eqb_refl. reflexivity.
    + rewrite app_nil_r. symmetry. apply Nat.add_0_r.
Qed.

Lemma executeJavaScript_retries_once_witness :
  let st := constructed (Monitor.launched 1700000000000) in
  let waiting := run (executeJavaScript InjectionScript) st in
  let later := setWebViewRef AZVWebView.WebViewInstance
                 (run (monitor (Monitor.handle_event (Monitor.Elapse 100))) waiting) in
  trace waiting = [] /\
  fireTimeout 0 later
  = (Normal tt, with_trace [InjectJavaScript InjectionScript] (with_timeouts [] later)).
Proof.
  cbv zeta.
  destruct (executeJavaScript_retries_once InjectionScript
              (constructed (Monitor.launched 1700000000000))
              (setWebViewRef AZVWebView.WebViewInstance
                 (run (monitor (Monitor.handle_event (Monitor.Elapse 100)))
                    (run (executeJavaScript InjectionScript)
                       (constructed (Monitor.launched 1700000000000)))))
              eq_refl eq_refl)
    as (_ & Hquiet & _ & _ & Hfires).
  split; [exact Hquiet |].
  destruct Hfires as [Hfired _]; [vm_compute; discriminate |]. exact Hfired.
Defined.

Lemma clock_after_load (ev : Monitor.Event) (w : Monitor.World) :
  match ev with
  | Monitor.LoadStart _ | Monitor.LoadEnd _ | Monitor.LoadError _ => True
  | _ => False
  end ->
  Monitor.clock (Wrapper.connectionMonitor (Monitor.exec (Monitor.handle_event ev) w))
  = Monitor.clock (Wrapper.connectionMonitor w).
Proof.
  intros Hload.
  destruct (ConnectionMonitorServiceFacts.service_after_event ev w) as [seen Hafter].
  rewrite Hafter. cbn [Monitor.clock Monitor.with_notified].
  destruct (ConnectionMonitorServiceFacts.clearAutoErrorTimeout_keeps
              (Wrapper.connectionMonitor w)) as (_ & _ & _ & _ & Hclock & _).
  cbv zeta in Hclock.
  destruct ev; try contradiction; cbn [Monitor.serviceAfter].
  - unfold Monitor.started.
    destruct (ConnectionMonitorServiceFacts.clearAutoErrorTimeout_keeps
                (Monitor.with_loadStartTime
                   (Monitor.clock (Wrapper.connectionMonitor w))
                   (Wrapper.connectionMonitor w))) as (_ & _ & _ & _ & Hclock' & _).
    cbv zeta in Hclock'.
    destruct (Monitor.isInitialLoad (Wrapper.connectionMonitor w)
              && Monitor.shouldShowErrorOnTimeout (Wrapper.connectionMonitor w));
      cbn [Monitor.clock Monitor.with_connectionStatus Monitor.armAutoErrorTimeout
           Monitor.setTimeout Monitor.with_autoErrorTimeout Monitor.with_nextHandle
           Monitor.with_scheduled];
      rewrite Hclock'; reflexivity.
  - unfold Monitor.ended.
    cbn [Monitor.clock Monitor.with_connectionStatus Monitor.with_isInitialLoad].
    exact Hclock.
  - unfold Monitor.failed. cbn [Monitor.clock Monitor.with_connectionStatus].
    exact Hclock.
Qed.

(** X28: the page-load callbacks of the service are the monitor's load
    events: what [handleLoadStart], [handleLoadEnd] and [handleError] do to
    the monitor and to the wrapper's screen is what [onLoadStart],
    [onLoadEnd] and [onLoadError] do.  Every [handleLoadEnd] also ends the
    initial load, hands the optimization script to [executeJavaScript] and
    arms the token request for one second later; when that timer runs the
    request is injected if the WebView reference is set and otherwise
    dropped, with no retry. *)
Theorem page_loads_reach_monitor (url : string) (error : option Monitor.NativeEvent)
    (st : State) :
  world (run (handleLoadStart url) st) = Monitor.run [Monitor.LoadStart url] (world st) /\
  world (run (handleLoadEnd url) st) = Monitor.run [Monitor.LoadEnd url] (world st) /\
  world (run (handleError error) st) = Monitor.run [Monitor.LoadError error] (world st) /\
  Monitor.isInitialLoad (connectionMonitor (run (handleLoadEnd url) st)) = false /\
  trace (run (handleLoadEnd url) st)
  = trace st ++ (if onLoadEnd (callbacks st) then [Called (OnLoadEnd url)] else [])
    ++ sent InjectionScript st
    ++ (if onWebViewReady (callbacks st) then [Called OnWebViewReady] else []) /\
  timeouts (run (handleLoadEnd url) st)
  = timeouts st ++ queued InjectionScript st
    ++ [mkTimeout (now st + 1000) RequestAccessToken] /\
  (forall later index d,
     nth_error (timeouts later) index = Some (mkTimeout d RequestAccessToken) ->
     d <= now later ->
     fireTimeout index later
     = (Normal tt,
        with_trace (trace later
                    ++ match webViewRef later with
                       | Some _ => [InjectJavaScript SendAccessToken]
                       | None => []
                       end)
          (with_timeouts (AZVWebView.remove_nth index (timeouts later)) later))).
Proof.
  pose proof (clock_after_load (Monitor.LoadEnd url) (world st) I) as Hclock.
  destruct (ConnectionMonitorServiceFacts.after_onLoadEnd url (world st)) as [Hinitial _].
  cbn [Monitor.handle_event] in Hclock.
  set (w' := Monitor.exec (Monitor.onLoadEnd url) (world st)) in *.
  assert (Hend : handleLoadEnd url st
                 = (Normal tt,
                    with_timeouts
                      (timeouts st ++ queued InjectionScript st
                       ++ [mkTimeout (now st + 1000) RequestAccessToken])
                      (with_trace
                         (trace st
                          ++ (if onLoadEnd (callbacks st) then [Called (OnLoadEnd url)] else [])
                          ++ sent InjectionScript st
                          ++ (if onWebViewReady (callbacks st)
                              then [Called OnWebViewReady] else []))
                         (with_world w' st)))).
  { unfold handleLoadEnd, notifyWebViewReady, injectOptimizationScript, optionalCallback,
      monitor, tryCatch, andThen, emit, setTimeout, change, done.
    fold w'. unfold now, sent, queued, now.
    destruct st as [ref cbs items w pending t]. fields. cbn [world] in Hclock.
    destruct cbs as [ready start finish err]. cbn [onLoadEnd onWebViewReady].
    destruct finish, ready; fields; rewrite executeJavaScript_adds;
      unfold sent, queued, now; fields; cbn [onWebViewReady]; fields;
      rewrite ?Hclock; destruct ref; unfold with_timeouts, with_trace; fields;
      rewrite ?Hclock, <- ?app_assoc; cbn [app]; rewrite ?app_nil_r; reflexivity. }
  repeat apply conj.
  - unfold handleLoadStart, optionalCallback, run, monitor, andThen, emit, change, done.
    fields. destruct (onLoadStart (callbacks st)); reflexivity.
  - unfold run. rewrite Hend. reflexivity.
  - unfold handleError, optionalCallback, run, monitor, andThen, emit, change, done.
    fields. destruct (onError (callbacks st)); reflexivity.
  - unfold run. rewrite Hend. fields. exact Hinitial.
  - unfold run. rewrite Hend. reflexivity.
  - unfold run. rewrite Hend. reflexivity.
  - intros later index d Hpending Hdue. unfold fireTimeout. rewrite Hpending.
    cbn [due callback]. destruct (Z.leb_spec d (now later)); [| lia].
    unfold requestAccessTokenFromWebView, tryCatch.
    destruct later as [ref cbs items w pending t]. fields.
    destruct ref.
    + rewrite executeJavaScript_adds. unfold sent, queued. fields.
      unfold with_timeouts, with_trace. fields. rewrite app_nil_r. reflexivity.
    + unfold done, with_trace, with_timeouts. fields. rewrite app_nil_r. reflexivity.
Qed.

End WebViewServiceHandlersFacts.
